(** * LCD_HD44780U: a bit-banged HD44780 driver for the Raspberry Pi Pico

    Shallow embedding of [LCD_HD44780U.c] / [LCD_HD44780U.h].

    The driver talks to the outside world only through the Pico SDK
    (GPIO calls and sleeps).  Every such call is recorded as an [event];
    a driver function is a computation that, started at a given position
    of the input stream, returns a value together with the events it
    emitted.  Values of [uint8_t] are integers in [Z] with the truncation
    written out ([to_u8]). *)

From stdpp Require Import base numbers list.

Local Open Scope Z_scope.

(** ** Constants of LCD_HD44780U.h *)

Module Import Consts.
(* commands *)
Definition LCD_CLEARDISPLAY : Z := 0x01.
Definition LCD_RETURNHOME : Z := 0x02.
Definition LCD_ENTRYMODESET : Z := 0x04.
Definition LCD_DISPLAYCONTROL : Z := 0x08.
Definition LCD_CURSORSHIFT : Z := 0x10.
Definition LCD_FUNCTIONSET : Z := 0x20.
Definition LCD_SETCGRAMADDR : Z := 0x40.
Definition LCD_SETDDRAMADDR : Z := 0x80.

(* flags for display entry mode *)
Definition LCD_ENTRYRIGHT : Z := 0x00.
Definition LCD_ENTRYLEFT : Z := 0x02.
Definition LCD_ENTRYSHIFTINCREMENT : Z := 0x01.
Definition LCD_ENTRYSHIFTDECREMENT : Z := 0x00.

(* flags for display on/off control *)
Definition LCD_DISPLAYON : Z := 0x04.
Definition LCD_DISPLAYOFF : Z := 0x00.
Definition LCD_CURSORON : Z := 0x02.
Definition LCD_CURSOROFF : Z := 0x00.
Definition LCD_BLINKON : Z := 0x01.
Definition LCD_BLINKOFF : Z := 0x00.

(* flags for display/cursor shift *)
Definition LCD_DISPLAYMOVE : Z := 0x08.
Definition LCD_CURSORMOVE : Z := 0x00.
Definition LCD_MOVERIGHT : Z := 0x04.
Definition LCD_MOVELEFT : Z := 0x00.

(* flags for function set *)
Definition LCD_8BITMODE : Z := 0x10.
Definition LCD_4BITMODE : Z := 0x00.
Definition LCD_2LINE : Z := 0x08.
Definition LCD_1LINE : Z := 0x00.
Definition LCD_5x10DOTS : Z := 0x04.
Definition LCD_5x8DOTS : Z := 0x00.

(* the "R/W pin not wired" sentinel used throughout the driver *)
Definition RW_UNUSED : Z := 255.
End Consts.

(** ** Machine integers *)

(** Conversion to [uint8_t] and [uint32_t]. *)
Definition to_u8 (z : Z) : Z := z `mod` 256.
Definition to_u32 (z : Z) : Z := z `mod` 2 ^ 32.

(** The values a [uint8_t] object can hold. *)
Definition is_u8 (z : Z) : Prop := 0 <= z < 256.

(** Bits 7..4 and bits 3..0 of a byte. *)
Definition high_nibble (b : Z) : Z := Z.land (Z.shiftr b 4) 15.
Definition low_nibble (b : Z) : Z := Z.land b 15.

(** [data |= bit << i] on a [uint8_t]. *)
Definition or_bit (data : Z) (bit : bool) (i : nat) : Z :=
  to_u8 (Z.lor data (Z.shiftl (Z.b2z bit) (Z.of_nat i))).

(** ** The handle (struct LCD_HD44780U) *)

Record LCD_Handle : Type := mkHandle {
  _rs_pin : Z;
  _rw_pin : Z;
  _enable_pin : Z;
  _data_pins : list Z;        (* uint8_t[8] *)
  _data_pins_mask : Z;        (* uint32_t *)
  _displayfunction : Z;
  _displaycontrol : Z;
  _displaymode : Z;
  _numlines : Z;
  _row_offsets : list Z       (* uint8_t[4] *)
}.

Definition set_displayfunction (v : Z) (h : LCD_Handle) : LCD_Handle :=
  mkHandle (_rs_pin h) (_rw_pin h) (_enable_pin h) (_data_pins h)
    (_data_pins_mask h) v (_displaycontrol h) (_displaymode h) (_numlines h)
    (_row_offsets h).

Definition set_displaycontrol (v : Z) (h : LCD_Handle) : LCD_Handle :=
  mkHandle (_rs_pin h) (_rw_pin h) (_enable_pin h) (_data_pins h)
    (_data_pins_mask h) (_displayfunction h) v (_displaymode h) (_numlines h)
    (_row_offsets h).

Definition set_displaymode (v : Z) (h : LCD_Handle) : LCD_Handle :=
  mkHandle (_rs_pin h) (_rw_pin h) (_enable_pin h) (_data_pins h)
    (_data_pins_mask h) (_displayfunction h) (_displaycontrol h) v (_numlines h)
    (_row_offsets h).

Definition set_numlines (v : Z) (h : LCD_Handle) : LCD_Handle :=
  mkHandle (_rs_pin h) (_rw_pin h) (_enable_pin h) (_data_pins h)
    (_data_pins_mask h) (_displayfunction h) (_displaycontrol h)
    (_displaymode h) v (_row_offsets h).

Definition set_row_offsets (v : list Z) (h : LCD_Handle) : LCD_Handle :=
  mkHandle (_rs_pin h) (_rw_pin h) (_enable_pin h) (_data_pins h)
    (_data_pins_mask h) (_displayfunction h) (_displaycontrol h)
    (_displaymode h) (_numlines h) v.

(** [handle->_data_pins[i]] for the constant indices [i < 8] the driver
    uses; the array has eight cells, so the default is never taken on a
    handle whose [_data_pins] has its declared size. *)
Definition data_pin (h : LCD_Handle) (i : nat) : Z :=
  default 0 (_data_pins h !! i).

(** [handle->_rw_pin != 255] *)
Definition rw_wired (h : LCD_Handle) : bool :=
  negb (_rw_pin h =? RW_UNUSED).

(** [handle->_displayfunction & LCD_8BITMODE] used as a condition *)
Definition eight_bit (h : LCD_Handle) : bool :=
  negb (Z.land (_displayfunction h) LCD_8BITMODE =? 0).

(** ** SDK calls as events *)

Inductive event : Type :=
| GpioInit (pin : Z)
| GpioInitMask (mask : Z)
| GpioSetDir (pin : Z) (out : bool)
| GpioSetDirOutMasked (mask : Z)
| GpioSetDirInMasked (mask : Z)
| GpioPut (pin : Z) (value : bool)
| GpioPutMasked (mask : Z) (value : Z)
| GpioGet (pin : Z) (value : bool)
| GpioSetFunction (pin : Z)            (* always GPIO_FUNC_NULL here *)
| GpioSetFunctionMasked (mask : Z)     (* always GPIO_FUNC_NULL here *)
| SleepMs (ms : Z)
| SleepUs (us : Z)
| Free.

(** A sample of an input pin. *)
Definition is_get (e : event) : bool :=
  match e with
  | GpioGet _ _ => true
  | _ => false
  end.

(** ** Computations

    [Done a tr clk]: returned [a] after emitting [tr]; [clk] input samples
    have been consumed so far.  [Hang]: the busy-flag spin did not end
    within the polling budget.  [Undef]: undefined behaviour (an array
    read outside its bounds). *)

Inductive outcome (A : Type) : Type :=
| Done (a : A) (tr : list event) (clk : nat)
| Hang
| Undef.
Arguments Done {A} a tr clk.
Arguments Hang {A}.
Arguments Undef {A}.

Definition M (A : Type) : Type := nat -> outcome A.

Definition ret {A} (a : A) : M A := fun clk => Done a [] clk.

Definition bind {A B} (m : M A) (k : A -> M B) : M B :=
  fun clk =>
    match m clk with
    | Done a tr1 clk1 =>
        match k a clk1 with
        | Done b tr2 clk2 => Done b (tr1 ++ tr2) clk2
        | Hang => Hang
        | Undef => Undef
        end
    | Hang => Hang
    | Undef => Undef
    end.

Definition emit (e : event) : M unit := fun clk => Done tt [e] clk.
Definition hang {A} : M A := fun _ => Hang.
Definition undef {A} : M A := fun _ => Undef.

Declare Scope lcd_scope.
Delimit Scope lcd_scope with lcd.
Notation "x <- m ;; k" := (bind m (fun x => k))
  (at level 20, m at level 99, k at level 200, only parsing) : lcd_scope.
Notation "m ;; k" := (bind m (fun _ => k))
  (at level 100, k at level 200, only parsing, right associativity) : lcd_scope.
Local Open Scope lcd_scope.

(** [for (i = 0; i < n; i++) body(i)] over the indices listed. *)
Fixpoint for_each {A} (xs : list A) (body : A -> M unit) : M unit :=
  match xs with
  | [] => ret tt
  | x :: rest => body x ;; for_each rest body
  end.

(** The same loop threading an accumulator ([data |= ...]). *)
Fixpoint for_fold {A S} (xs : list A) (body : A -> S -> M S) (s : S) : M S :=
  match xs with
  | [] => ret s
  | x :: rest => s' <- body x s ;; for_fold rest body s'
  end.

(** Output-only SDK calls. *)
Definition gpio_init pin := emit (GpioInit pin).
Definition gpio_init_mask mask := emit (GpioInitMask mask).
Definition gpio_set_dir pin out := emit (GpioSetDir pin out).
Definition gpio_set_dir_out_masked mask := emit (GpioSetDirOutMasked mask).
Definition gpio_set_dir_in_masked mask := emit (GpioSetDirInMasked mask).
Definition gpio_put pin v := emit (GpioPut pin v).
Definition gpio_put_masked mask v := emit (GpioPutMasked mask v).
Definition gpio_set_function pin := emit (GpioSetFunction pin).
Definition gpio_set_function_masked mask := emit (GpioSetFunctionMasked mask).
Definition sleep_ms ms := emit (SleepMs ms).
Definition sleep_us us := emit (SleepUs us).
Definition free := emit Free.

(** ** The flag toggles

    The ten public functions that flip one flag, with the byte each one
    caches its flag in, the command it sends, the position of the flag
    and the value it gives it. *)

Inductive toggle : Type :=
| DisplayOff | DisplayOn | BlinkOff | BlinkOn | CursorOff | CursorOn
| LeftToRight | RightToLeft | AutoscrollOff | AutoscrollOn.

Inductive flag_byte : Type := Control | Mode.

Definition toggle_byte (t : toggle) : flag_byte :=
  match t with
  | DisplayOff | DisplayOn | BlinkOff | BlinkOn | CursorOff | CursorOn =>
      Control
  | LeftToRight | RightToLeft | AutoscrollOff | AutoscrollOn => Mode
  end.

Definition toggle_opcode (t : toggle) : Z :=
  match toggle_byte t with
  | Control => LCD_DISPLAYCONTROL
  | Mode => LCD_ENTRYMODESET
  end.

(** The flag of the header, and the bit it is: [toggle_flag t] is
    [2 ^ toggle_bit t]. *)
Definition toggle_flag (t : toggle) : Z :=
  match t with
  | DisplayOff | DisplayOn => LCD_DISPLAYON
  | BlinkOff | BlinkOn => LCD_BLINKON
  | CursorOff | CursorOn => LCD_CURSORON
  | LeftToRight | RightToLeft => LCD_ENTRYLEFT
  | AutoscrollOff | AutoscrollOn => LCD_ENTRYSHIFTINCREMENT
  end.

Definition toggle_bit (t : toggle) : Z :=
  match t with
  | DisplayOff | DisplayOn => 2
  | BlinkOff | BlinkOn => 0
  | CursorOff | CursorOn => 1
  | LeftToRight | RightToLeft => 1
  | AutoscrollOff | AutoscrollOn => 0
  end.

Definition toggle_sets (t : toggle) : bool :=
  match t with
  | DisplayOn | BlinkOn | CursorOn | LeftToRight | AutoscrollOn => true
  | DisplayOff | BlinkOff | CursorOff | RightToLeft | AutoscrollOff => false
  end.

Definition cached (b : flag_byte) (h : LCD_Handle) : Z :=
  match b with
  | Control => _displaycontrol h
  | Mode => _displaymode h
  end.

Definition with_cached (b : flag_byte) (v : Z) (h : LCD_Handle) : LCD_Handle :=
  match b with
  | Control => set_displaycontrol v h
  | Mode => set_displaymode v h
  end.

Section Driver.

(** The level of pin [p] at the [n]-th call of [gpio_get]: whatever the
    controller drives onto the bus. *)
Variable sample : nat -> Z -> bool.

(** How many times a busy-flag spin may poll before the model gives up
    on it ([Hang]).  The C loop has no bound. *)
Variable patience : nat.

Definition gpio_get (pin : Z) : M bool :=
  fun clk => Done (sample clk pin) [GpioGet pin (sample clk pin)] (S clk).

(** *** Bit-transfer engine *)

Definition _lcd_write_8_bits (h : LCD_Handle) (data : Z) : M unit :=
  (if rw_wired h then
     gpio_put (_rw_pin h) false ;;
     sleep_us 1 ;;
     gpio_set_dir_out_masked (_data_pins_mask h)
   else ret tt) ;;
  gpio_put (_enable_pin h) true ;;
  sleep_us 1 ;;
  for_each (seq 0 8) (fun i =>
    gpio_put (data_pin h i) (Z.testbit (Z.shiftr data (Z.of_nat i)) 0)) ;;
  sleep_us 1 ;;
  gpio_put (_enable_pin h) false ;;
  (if rw_wired h then sleep_us 1 else sleep_us 100).

Definition _lcd_write_4_bits (h : LCD_Handle) (data : Z) : M unit :=
  (if rw_wired h then
     gpio_put (_rw_pin h) false ;;
     sleep_us 1 ;;
     gpio_set_dir_out_masked (_data_pins_mask h)
   else ret tt) ;;
  gpio_put (_enable_pin h) true ;;
  sleep_us 1 ;;
  for_each (seq 0 4) (fun i =>
    gpio_put (data_pin h i) (Z.testbit (Z.shiftr data (Z.of_nat i)) 0)) ;;
  sleep_us 1 ;;
  gpio_put (_enable_pin h) false ;;
  (if rw_wired h then sleep_us 1 else sleep_us 100).

Definition _lcd_read_8_bits (h : LCD_Handle) : M Z :=
  if negb (rw_wired h) then ret 255
  else
    gpio_set_dir_in_masked (_data_pins_mask h) ;;
    gpio_put (_rw_pin h) true ;;
    sleep_us 1 ;;
    gpio_put (_enable_pin h) true ;;
    sleep_us 1 ;;
    data <- for_fold (seq 0 8) (fun i data =>
              b <- gpio_get (data_pin h i) ;; ret (or_bit data b i)) 0 ;;
    gpio_put (_enable_pin h) false ;;
    sleep_us 1 ;;
    ret data.

Definition _lcd_read_4_bits (h : LCD_Handle) : M Z :=
  if negb (rw_wired h) then ret 15
  else
    gpio_set_dir_in_masked (_data_pins_mask h) ;;
    gpio_put (_rw_pin h) true ;;
    sleep_us 1 ;;
    gpio_put (_enable_pin h) true ;;
    sleep_us 1 ;;
    data <- for_fold (seq 0 4) (fun i data =>
              b <- gpio_get (data_pin h i) ;; ret (or_bit data b i)) 0 ;;
    gpio_put (_enable_pin h) false ;;
    sleep_us 1 ;;
    ret data.

(** *** Command/data channel *)

Definition _lcd_read_command (h : LCD_Handle) : M Z :=
  gpio_put (_rs_pin h) false ;;
  if eight_bit h then _lcd_read_8_bits h
  else
    hi <- _lcd_read_4_bits h ;;
    let command := to_u8 (Z.shiftl hi 4) in
    lo <- _lcd_read_4_bits h ;;
    ret (to_u8 (Z.lor command lo)).

Definition _lcd_read_data (h : LCD_Handle) : M Z :=
  gpio_put (_rs_pin h) true ;;
  if eight_bit h then _lcd_read_8_bits h
  else
    hi <- _lcd_read_4_bits h ;;
    let data := to_u8 (Z.shiftl hi 4) in
    lo <- _lcd_read_4_bits h ;;
    ret (to_u8 (Z.lor data lo)).

Definition _lcd_busy (h : LCD_Handle) : M bool :=
  c <- _lcd_read_command h ;;
  ret (negb (Z.land c 0x80 =? 0)).

(** [while (_lcd_busy(handle)) { sleep_us(3); }] with at most [fuel]
    evaluations of the condition. *)
Fixpoint spin_while_busy (fuel : nat) (h : LCD_Handle) : M unit :=
  match fuel with
  | O => hang
  | S fuel' =>
      b <- _lcd_busy h ;;
      if b then sleep_us 3 ;; spin_while_busy fuel' h else ret tt
  end.

Definition _lcd_send_command (h : LCD_Handle) (command : Z) : M unit :=
  (if rw_wired h then spin_while_busy patience h else ret tt) ;;
  gpio_put (_rs_pin h) false ;;
  if eight_bit h then _lcd_write_8_bits h command
  else
    _lcd_write_4_bits h (Z.shiftr command 4) ;;
    _lcd_write_4_bits h command.

Definition _lcd_send_data (h : LCD_Handle) (data : Z) : M unit :=
  (if rw_wired h then spin_while_busy patience h else ret tt) ;;
  gpio_put (_rs_pin h) true ;;
  if eight_bit h then _lcd_write_8_bits h data
  else
    _lcd_write_4_bits h (Z.shiftr data 4) ;;
    _lcd_write_4_bits h data.

(** *** Public functions

    A handle pointer is an [option]: [None] is [NULL].  A function that
    takes a handle returns what the pointer refers to after the call. *)

Definition lcd_clear (handle : option LCD_Handle) : M (option LCD_Handle) :=
  match handle with
  | None => ret None
  | Some h =>
      _lcd_send_command h LCD_CLEARDISPLAY ;;
      sleep_ms 5 ;;
      ret (Some h)
  end.

Definition lcd_home (handle : option LCD_Handle) : M (option LCD_Handle) :=
  match handle with
  | None => ret None
  | Some h =>
      _lcd_send_command h LCD_RETURNHOME ;;
      sleep_ms 5 ;;
      ret (Some h)
  end.

Definition lcd_display_off (handle : option LCD_Handle)
  : M (option LCD_Handle) :=
  match handle with
  | None => ret None
  | Some h =>
      let h := set_displaycontrol
                 (to_u8 (Z.land (_displaycontrol h) (Z.lnot LCD_DISPLAYON))) h in
      _lcd_send_command h (to_u8 (Z.lor LCD_DISPLAYCONTROL (_displaycontrol h))) ;;
      ret (Some h)
  end.

Definition lcd_display_on (handle : option LCD_Handle)
  : M (option LCD_Handle) :=
  match handle with
  | None => ret None
  | Some h =>
      let h := set_displaycontrol
                 (to_u8 (Z.lor (_displaycontrol h) LCD_DISPLAYON)) h in
      _lcd_send_command h (to_u8 (Z.lor LCD_DISPLAYCONTROL (_displaycontrol h))) ;;
      ret (Some h)
  end.

Definition lcd_blink_off (handle : option LCD_Handle)
  : M (option LCD_Handle) :=
  match handle with
  | None => ret None
  | Some h =>
      let h := set_displaycontrol
                 (to_u8 (Z.land (_displaycontrol h) (Z.lnot LCD_BLINKON))) h in
      _lcd_send_command h (to_u8 (Z.lor LCD_DISPLAYCONTROL (_displaycontrol h))) ;;
      ret (Some h)
  end.

Definition lcd_blink_on (handle : option LCD_Handle)
  : M (option LCD_Handle) :=
  match handle with
  | None => ret None
  | Some h =>
      let h := set_displaycontrol
                 (to_u8 (Z.lor (_displaycontrol h) LCD_BLINKON)) h in
      _lcd_send_command h (to_u8 (Z.lor LCD_DISPLAYCONTROL (_displaycontrol h))) ;;
      ret (Some h)
  end.

Definition lcd_cursor_off (handle : option LCD_Handle)
  : M (option LCD_Handle) :=
  match handle with
  | None => ret None
  | Some h =>
      let h := set_displaycontrol
                 (to_u8 (Z.land (_displaycontrol h) (Z.lnot LCD_CURSORON))) h in
      _lcd_send_command h (to_u8 (Z.lor LCD_DISPLAYCONTROL (_displaycontrol h))) ;;
      ret (Some h)
  end.

Definition lcd_cursor_on (handle : option LCD_Handle)
  : M (option LCD_Handle) :=
  match handle with
  | None => ret None
  | Some h =>
      let h := set_displaycontrol
                 (to_u8 (Z.lor (_displaycontrol h) LCD_CURSORON)) h in
      _lcd_send_command h (to_u8 (Z.lor LCD_DISPLAYCONTROL (_displaycontrol h))) ;;
      ret (Some h)
  end.

Definition lcd_scroll_display_left (handle : option LCD_Handle)
  : M (option LCD_Handle) :=
  match handle with
  | None => ret None
  | Some h =>
      _lcd_send_command h
        (to_u8 (Z.lor (Z.lor LCD_CURSORSHIFT LCD_DISPLAYMOVE) LCD_MOVELEFT)) ;;
      ret (Some h)
  end.

Definition lcd_scroll_display_right (handle : option LCD_Handle)
  : M (option LCD_Handle) :=
  match handle with
  | None => ret None
  | Some h =>
      _lcd_send_command h
        (to_u8 (Z.lor (Z.lor LCD_CURSORSHIFT LCD_DISPLAYMOVE) LCD_MOVERIGHT)) ;;
      ret (Some h)
  end.

Definition lcd_left_to_right (handle : option LCD_Handle)
  : M (option LCD_Handle) :=
  match handle with
  | None => ret None
  | Some h =>
      let h := set_displaymode
                 (to_u8 (Z.lor (_displaymode h) LCD_ENTRYLEFT)) h in
      _lcd_send_command h (to_u8 (Z.lor LCD_ENTRYMODESET (_displaymode h))) ;;
      ret (Some h)
  end.

Definition lcd_right_to_left (handle : option LCD_Handle)
  : M (option LCD_Handle) :=
  match handle with
  | None => ret None
  | Some h =>
      let h := set_displaymode
                 (to_u8 (Z.land (_displaymode h) (Z.lnot LCD_ENTRYLEFT))) h in
      _lcd_send_command h (to_u8 (Z.lor LCD_ENTRYMODESET (_displaymode h))) ;;
      ret (Some h)
  end.

Definition lcd_autoscroll_off (handle : option LCD_Handle)
  : M (option LCD_Handle) :=
  match handle with
  | None => ret None
  | Some h =>
      let h := set_displaymode
                 (to_u8 (Z.land (_displaymode h)
                                (Z.lnot LCD_ENTRYSHIFTINCREMENT))) h in
      _lcd_send_command h (to_u8 (Z.lor LCD_ENTRYMODESET (_displaymode h))) ;;
      ret (Some h)
  end.

Definition lcd_autoscroll_on (handle : option LCD_Handle)
  : M (option LCD_Handle) :=
  match handle with
  | None => ret None
  | Some h =>
      let h := set_displaymode
                 (to_u8 (Z.lor (_displaymode h) LCD_ENTRYSHIFTINCREMENT)) h in
      _lcd_send_command h (to_u8 (Z.lor LCD_ENTRYMODESET (_displaymode h))) ;;
      ret (Some h)
  end.

(** [sizeof(handle->_row_offsets) / sizeof( *handle->_row_offsets)] *)
Definition max_lines : Z := 4.

(** The value of [row] when [lcd_set_cursor] indexes [_row_offsets]:
    the two [if]s of the function, in their order, with the
    assignments converted to [uint8_t]. *)
Definition clamped_row (h : LCD_Handle) (row : Z) : Z :=
  let row := if row >=? max_lines then to_u8 (max_lines - 1) else row in
  let row := if row >=? _numlines h then to_u8 (_numlines h - 1) else row in
  row.

Definition lcd_set_cursor (handle : option LCD_Handle) (col row : Z)
  : M (option LCD_Handle) :=
  match handle with
  | None => ret None
  | Some h =>
      let row := clamped_row h row in
      match _row_offsets h !! Z.to_nat row with
      | None => undef
      | Some offset =>
          _lcd_send_command h (to_u8 (Z.lor LCD_SETDDRAMADDR (col + offset))) ;;
          ret (Some h)
      end
  end.

(** [symbol] is a [char]; the call of [_lcd_send_data] converts it. *)
Definition lcd_write_char (handle : option LCD_Handle) (symbol : Z)
  : M (option LCD_Handle) :=
  match handle with
  | None => ret None
  | Some h => _lcd_send_data h (to_u8 symbol) ;; ret (Some h)
  end.

(** [text] lists the characters before the terminating NUL. *)
Definition lcd_write_string (handle : option LCD_Handle) (text : list Z)
  : M (option LCD_Handle) :=
  match handle with
  | None => ret None
  | Some h =>
      for_each text (fun c => lcd_write_char handle c ;; ret tt) ;;
      ret (Some h)
  end.

Definition lcd_write_char_at (handle : option LCD_Handle) (symbol col row : Z)
  : M (option LCD_Handle) :=
  match handle with
  | None => ret None
  | Some h =>
      lcd_set_cursor handle col row ;;
      lcd_write_char handle symbol
  end.

Definition lcd_write_string_at (handle : option LCD_Handle) (text : list Z)
    (col row : Z) : M (option LCD_Handle) :=
  match handle with
  | None => ret None
  | Some h =>
      lcd_set_cursor handle col row ;;
      lcd_write_string handle text
  end.

(** [data] is the array the caller passes; reading past its end is
    undefined. *)
Definition lcd_create_char (handle : option LCD_Handle) (num : Z)
    (data : list Z) : M (option LCD_Handle) :=
  match handle with
  | None => ret None
  | Some h =>
      ddram_address <-
        (if rw_wired h then
           c <- _lcd_read_command h ;; ret (to_u8 (Z.land c 0x7F))
         else ret 0) ;;
      let gcram_address := to_u8 (Z.shiftl (Z.land num 0x7) 3) in
      for_each (seq 0 8) (fun i =>
        _lcd_send_command h
          (to_u8 (Z.lor LCD_SETCGRAMADDR (gcram_address + Z.of_nat i))) ;;
        match data !! i with
        | Some d => _lcd_send_data h d
        | None => undef
        end) ;;
      (if rw_wired h then
         _lcd_send_command h (to_u8 (Z.lor LCD_SETDDRAMADDR ddram_address))
       else ret tt) ;;
      ret (Some h)
  end.

(** *** Initialisation and teardown *)

Definition _lcd_init_pins (h : LCD_Handle) : M unit :=
  gpio_init_mask (_data_pins_mask h) ;;
  gpio_set_dir_out_masked (_data_pins_mask h) ;;
  gpio_put_masked (_data_pins_mask h) 0 ;;
  gpio_init (_rs_pin h) ;;
  gpio_set_dir (_rs_pin h) true ;;
  gpio_put (_rs_pin h) false ;;
  gpio_init (_enable_pin h) ;;
  gpio_set_dir (_enable_pin h) true ;;
  gpio_put (_enable_pin h) false ;;
  if rw_wired h then
    gpio_init (_rw_pin h) ;;
    gpio_set_dir (_rw_pin h) true ;;
    gpio_put (_rw_pin h) false
  else ret tt.

Definition _lcd_deinit_pins (h : LCD_Handle) : M unit :=
  gpio_set_function_masked (_data_pins_mask h) ;;
  gpio_set_function (_rs_pin h) ;;
  gpio_set_function (_enable_pin h) ;;
  if rw_wired h then gpio_set_function (_rw_pin h) else ret tt.

(** The part of [_lcd_setup] before the first bus access: the stores
    into the handle. *)
Definition setup_geometry (h : LCD_Handle) (cols rows charsize : Z)
  : LCD_Handle :=
  let h := if rows >? 1
           then set_displayfunction
                  (to_u8 (Z.lor (_displayfunction h) LCD_2LINE)) h
           else h in
  let h := set_numlines rows h in
  let h := set_row_offsets (<[0%nat := 0x00]> (_row_offsets h)) h in
  let h := set_row_offsets (<[1%nat := 0x40]> (_row_offsets h)) h in
  let h := set_row_offsets (<[2%nat := to_u8 (0x00 + cols)]> (_row_offsets h)) h in
  let h := set_row_offsets (<[3%nat := to_u8 (0x40 + cols)]> (_row_offsets h)) h in
  if negb (charsize =? LCD_5x8DOTS) && (rows =? 1)
  then set_displayfunction (to_u8 (Z.lor (_displayfunction h) LCD_5x10DOTS)) h
  else h.

Definition _lcd_setup (h : LCD_Handle) (cols rows charsize : Z)
  : M LCD_Handle :=
  let h := setup_geometry h cols rows charsize in
  (if eight_bit h then
     _lcd_write_8_bits h (to_u8 (Z.lor LCD_FUNCTIONSET (_displayfunction h))) ;;
     sleep_ms 5 ;;
     _lcd_write_8_bits h (to_u8 (Z.lor LCD_FUNCTIONSET (_displayfunction h))) ;;
     sleep_ms 5 ;;
     _lcd_write_8_bits h (to_u8 (Z.lor LCD_FUNCTIONSET (_displayfunction h))) ;;
     sleep_ms 5
   else
     _lcd_write_4_bits h 0x03 ;;
     sleep_ms 5 ;;
     _lcd_write_4_bits h 0x03 ;;
     sleep_ms 5 ;;
     _lcd_write_4_bits h 0x03 ;;
     sleep_ms 5 ;;
     _lcd_write_4_bits h 0x02 ;;
     sleep_ms 5) ;;
  _lcd_send_command h (to_u8 (Z.lor LCD_FUNCTIONSET (_displayfunction h))) ;;
  let h := set_displaycontrol
             (Z.lor (Z.lor LCD_DISPLAYON LCD_CURSOROFF) LCD_BLINKOFF) h in
  _lcd_send_command h (to_u8 (Z.lor LCD_DISPLAYCONTROL (_displaycontrol h))) ;;
  let h := set_displaymode (Z.lor LCD_ENTRYLEFT LCD_ENTRYSHIFTDECREMENT) h in
  _lcd_send_command h (to_u8 (Z.lor LCD_ENTRYMODESET (_displaymode h))) ;;
  ret h.

(** [0x1 << d] for a pin number.  The C expression shifts an [int], so
    it has a value only while [1 << d] fits the [int] ([d] below 31;
    RP2040 pins are below 30); the statements about the mask assume
    pin numbers in that range. *)
Definition pin_bit (d : Z) : Z := Z.shiftl 1 d.

(** The stores [_lcd_init] makes into the fresh object [blk] before
    it touches a pin. *)
Definition init_handle (blk : LCD_Handle)
    (rs rw enable d0 d1 d2 d3 d4 d5 d6 d7 : Z) (eightbitmode : bool)
  : LCD_Handle :=
  let pins :=
    <[7%nat := d7]> (<[6%nat := d6]> (<[5%nat := d5]> (<[4%nat := d4]>
    (<[3%nat := d3]> (<[2%nat := d2]> (<[1%nat := d1]> (<[0%nat := d0]>
    (_data_pins blk)))))))) in
  if eightbitmode then
    mkHandle rs rw enable pins
      (to_u32 (Z.lor (Z.lor (Z.lor (Z.lor (Z.lor (Z.lor (Z.lor
         (pin_bit d0) (pin_bit d1)) (pin_bit d2)) (pin_bit d3))
         (pin_bit d4)) (pin_bit d5)) (pin_bit d6)) (pin_bit d7)))
      (Z.lor (Z.lor LCD_8BITMODE LCD_1LINE) LCD_5x8DOTS)
      (_displaycontrol blk) (_displaymode blk) (_numlines blk)
      (_row_offsets blk)
  else
    mkHandle rs rw enable pins
      (to_u32 (Z.lor (Z.lor (Z.lor
         (pin_bit d0) (pin_bit d1)) (pin_bit d2)) (pin_bit d3)))
      (Z.lor (Z.lor LCD_4BITMODE LCD_1LINE) LCD_5x8DOTS)
      (_displaycontrol blk) (_displaymode blk) (_numlines blk)
      (_row_offsets blk).

(** [malloc_result] is what [malloc(sizeof(LCD_Handle))] returned:
    [None] for [NULL], otherwise the fresh object with whatever its
    bytes hold. *)
Definition _lcd_init (malloc_result : option LCD_Handle)
    (cols rows charsize rs rw enable d0 d1 d2 d3 d4 d5 d6 d7 : Z)
    (eightbitmode : bool) : M (option LCD_Handle) :=
  match malloc_result with
  | None => ret None
  | Some blk =>
      sleep_ms 50 ;;
      let h := init_handle blk rs rw enable d0 d1 d2 d3 d4 d5 d6 d7
                 eightbitmode in
      _lcd_init_pins h ;;
      h <- _lcd_setup h cols rows charsize ;;
      lcd_clear (Some h) ;;
      lcd_home (Some h) ;;
      ret (Some h)
  end.

Definition lcd_init_8bit (malloc_result : option LCD_Handle)
    (cols rows charsize rs rw enable d0 d1 d2 d3 d4 d5 d6 d7 : Z)
  : M (option LCD_Handle) :=
  _lcd_init malloc_result cols rows charsize rs rw enable
    d0 d1 d2 d3 d4 d5 d6 d7 true.

Definition lcd_init_4bit (malloc_result : option LCD_Handle)
    (cols rows charsize rs rw enable d4 d5 d6 d7 : Z)
  : M (option LCD_Handle) :=
  _lcd_init malloc_result cols rows charsize rs rw enable
    d4 d5 d6 d7 0 0 0 0 false.

(** Returns the pointer the C function returns: always [NULL]. *)
Definition lcd_deinit (handle : option LCD_Handle) : M (option LCD_Handle) :=
  match handle with
  | Some h =>
      lcd_clear handle ;;
      lcd_home handle ;;
      h' <- lcd_display_off handle ;;
      _lcd_deinit_pins (default h h') ;;
      free ;;
      ret None
  | None => ret None
  end.

(** *** The flag toggles, as one family *)

Definition run_toggle (t : toggle) : option LCD_Handle -> M (option LCD_Handle) :=
  match t with
  | DisplayOff => lcd_display_off
  | DisplayOn => lcd_display_on
  | BlinkOff => lcd_blink_off
  | BlinkOn => lcd_blink_on
  | CursorOff => lcd_cursor_off
  | CursorOn => lcd_cursor_on
  | LeftToRight => lcd_left_to_right
  | RightToLeft => lcd_right_to_left
  | AutoscrollOff => lcd_autoscroll_off
  | AutoscrollOn => lcd_autoscroll_on
  end.

(** *** When the spin ends

    [busy_at h clk]: the answer [_lcd_busy] gives when it starts at input
    position [clk].  A controller is responsive when, from any position,
    one of the next [patience] polls finds the busy flag clear (each
    poll consumes eight samples).  Handles without R/W never poll. *)

Definition busy_at (h : LCD_Handle) (clk : nat) : bool :=
  match _lcd_busy h clk with
  | Done b _ _ => b
  | _ => true
  end.

Definition responsive (h : LCD_Handle) : Prop :=
  rw_wired h = true ->
  forall clk, exists k, (k < patience)%nat /\ busy_at h (8 * k + clk) = false.

End Driver.

(** Two handles drive the same bus the same way: same wiring, same bus
    width. *)
Definition same_bus (h h' : LCD_Handle) : Prop :=
  _rs_pin h = _rs_pin h' /\ _rw_pin h = _rw_pin h' /\
  _enable_pin h = _enable_pin h' /\ _data_pins h = _data_pins h' /\
  _data_pins_mask h = _data_pins_mask h' /\ eight_bit h = eight_bit h'.

(** ** What a bus access looks like on the pins

    The event sequences below are what the four transfer primitives emit
    (lemmas [write_8_bits_trace] to [read_4_bits_wired]); the statements
    about the channel and the public functions are written with them. *)

Section Traces.

Variable h : LCD_Handle.

(** One write transfer of the low [width] bits of [data]. *)
Definition bus_write (width : nat) (data : Z) : list event :=
  (if rw_wired h
   then [GpioPut (_rw_pin h) false; SleepUs 1;
         GpioSetDirOutMasked (_data_pins_mask h)]
   else []) ++
  [GpioPut (_enable_pin h) true; SleepUs 1] ++
  map (fun i => GpioPut (data_pin h i) (Z.testbit data (Z.of_nat i)))
      (seq 0 width) ++
  [SleepUs 1; GpioPut (_enable_pin h) false;
   SleepUs (if rw_wired h then 1 else 100)].

(** One read transfer that sampled the low [width] bits of [v]
    (R/W wired). *)
Definition bus_read (width : nat) (v : Z) : list event :=
  [GpioSetDirInMasked (_data_pins_mask h); GpioPut (_rw_pin h) true;
   SleepUs 1; GpioPut (_enable_pin h) true; SleepUs 1] ++
  map (fun i => GpioGet (data_pin h i) (Z.testbit v (Z.of_nat i)))
      (seq 0 width) ++
  [GpioPut (_enable_pin h) false; SleepUs 1].

(** A byte on the bus: one 8-bit transfer, or the high nibble followed
    by the low nibble. *)
Definition byte_write (b : Z) : list event :=
  if eight_bit h then bus_write 8 b
  else bus_write 4 (high_nibble b) ++ bus_write 4 (low_nibble b).

Definition byte_read (v : Z) : list event :=
  if eight_bit h then bus_read 8 v
  else bus_read 4 (high_nibble v) ++ bus_read 4 (low_nibble v).

(** One evaluation of [_lcd_busy] that read [v] from the command
    register. *)
Definition poll (v : Z) : list event :=
  GpioPut (_rs_pin h) false :: byte_read v.

(** The busy-flag spin: polls that read bit 7 set, each followed by the
    3 us back-off, until a poll reads bit 7 clear. *)
Inductive spin_trace : list event -> Prop :=
| spin_ready v :
    Z.testbit v 7 = false -> spin_trace (poll v)
| spin_busy v rest :
    Z.testbit v 7 = true -> spin_trace rest ->
    spin_trace (poll v ++ SleepUs 3 :: rest).

(** The polls that found the controller busy, reading [vs] in turn, each
    with its back-off. *)
Definition busy_polls (vs : list Z) : list event :=
  flat_map (fun v => poll v ++ [SleepUs 3]) vs.

(** What precedes Register-Select in a send: the spin when R/W is
    wired, nothing otherwise. *)
Definition wait_trace (tr : list event) : Prop :=
  if rw_wired h then spin_trace tr else tr = [].

(** Sending byte [b] with Register-Select at [rs]. *)
Definition send_trace (rs : bool) (b : Z) (tr : list event) : Prop :=
  exists w, wait_trace w /\ tr = w ++ GpioPut (_rs_pin h) rs :: byte_write b.

(** A run of sends, one per listed (Register-Select, byte) pair. *)
Inductive script_trace : list (bool * Z) -> list event -> Prop :=
| script_nil : script_trace [] []
| script_cons rs b ops tr rest :
    send_trace rs b tr -> script_trace ops rest ->
    script_trace ((rs, b) :: ops) (tr ++ rest).

(** The mode-establishment handshake of [_lcd_setup]: raw transfers,
    outside the command channel, each followed by [sleep_ms(5)]. *)
Definition handshake : list event :=
  if eight_bit h then
    let function_set := to_u8 (Z.lor LCD_FUNCTIONSET (_displayfunction h)) in
    bus_write 8 function_set ++ [SleepMs 5] ++
    bus_write 8 function_set ++ [SleepMs 5] ++
    bus_write 8 function_set ++ [SleepMs 5]
  else
    bus_write 4 0x3 ++ [SleepMs 5] ++
    bus_write 4 0x3 ++ [SleepMs 5] ++
    bus_write 4 0x3 ++ [SleepMs 5] ++
    bus_write 4 0x2 ++ [SleepMs 5].

(** What [_lcd_init_pins] emits. *)
Definition init_pins_trace : list event :=
  [GpioInitMask (_data_pins_mask h);
   GpioSetDirOutMasked (_data_pins_mask h);
   GpioPutMasked (_data_pins_mask h) 0;
   GpioInit (_rs_pin h); GpioSetDir (_rs_pin h) true;
   GpioPut (_rs_pin h) false;
   GpioInit (_enable_pin h); GpioSetDir (_enable_pin h) true;
   GpioPut (_enable_pin h) false] ++
  (if rw_wired h
   then [GpioInit (_rw_pin h); GpioSetDir (_rw_pin h) true;
         GpioPut (_rw_pin h) false]
   else []).

End Traces.

(** What [lcd_create_char] sends for character [num] and the pattern
    [data]: for each pattern byte, the set-CGRAM-address command for the
    next address from [8 * num] on, then the byte as data. *)
Definition cgram_script (num : Z) (data : list Z) : list (bool * Z) :=
  concat (imap (fun i d =>
                  [(false, Z.lor LCD_SETCGRAMADDR (8 * num + Z.of_nat i));
                   (true, d)]) data).

(** ** Concrete displays

    The two set-ups of the README: a 16x2 display on a 4-bit bus with
    R/W on GPIO 5, and the same display on an 8-bit bus whose R/W pin is
    tied to ground ([rw = 255]).  Both are written as the handle
    [lcd_init_4bit] / [lcd_init_8bit] leaves behind. *)

Module Examples.

(** A controller that never reports busy: every sampled line is low. *)
Definition idle : nat -> Z -> bool := fun _ _ => false.

(** A controller that holds D7 high for the first sixteen samples (two
    polls), then releases it. *)
Definition busy_twice : nat -> Z -> bool :=
  fun n pin => (n <? 16)%nat && (pin =? 3).

(** The object [malloc] hands out, here with all bytes zero. *)
Definition fresh : LCD_Handle :=
  mkHandle 0 0 0 [0; 0; 0; 0; 0; 0; 0; 0] 0 0 0 0 0 [0; 0; 0; 0].

Definition lcd4 : LCD_Handle :=
  mkHandle 6 5 4 [0; 1; 2; 3; 0; 0; 0; 0] 0xF
    0x08 0x04 0x02 2 [0x00; 0x40; 0x10; 0x50].

Definition lcd8 : LCD_Handle :=
  mkHandle 10 255 8 [0; 1; 2; 3; 4; 5; 6; 7] 0xFF
    0x18 0x04 0x02 2 [0x00; 0x40; 0x10; 0x50].

(** [lcd4] after a caller initialised with [rows = 0]. *)
Definition lcd_no_lines : LCD_Handle := set_numlines 0 lcd4.

(** A smiley for [lcd_create_char]. *)
Definition smiley : list Z :=
  [0x00; 0x0A; 0x0A; 0x00; 0x11; 0x0E; 0x00; 0x00].

End Examples.

(** ** Sessions

    What a client does with an initialised handle: a sequence of calls of
    the public functions that take a handle, each on the handle the
    previous one left ([lcd_deinit] leaves [NULL], the pointer it
    returns). *)

Inductive call : Type :=
| DoClear
| DoHome
| DoToggle (t : toggle)
| DoScrollLeft
| DoScrollRight
| DoSetCursor (col row : Z)
| DoWriteChar (symbol : Z)
| DoWriteString (text : list Z)
| DoWriteCharAt (symbol col row : Z)
| DoWriteStringAt (text : list Z) (col row : Z)
| DoCreateChar (num : Z) (data : list Z)
| DoDeinit.

Section Sessions.

Variable sample : nat -> Z -> bool.
Variable patience : nat.

Definition run_call (c : call) (handle : option LCD_Handle)
  : M (option LCD_Handle) :=
  match c with
  | DoClear => lcd_clear sample patience handle
  | DoHome => lcd_home sample patience handle
  | DoToggle t => run_toggle sample patience t handle
  | DoScrollLeft => lcd_scroll_display_left sample patience handle
  | DoScrollRight => lcd_scroll_display_right sample patience handle
  | DoSetCursor col row => lcd_set_cursor sample patience handle col row
  | DoWriteChar symbol => lcd_write_char sample patience handle symbol
  | DoWriteString text => lcd_write_string sample patience handle text
  | DoWriteCharAt symbol col row =>
      lcd_write_char_at sample patience handle symbol col row
  | DoWriteStringAt text col row =>
      lcd_write_string_at sample patience handle text col row
  | DoCreateChar num data => lcd_create_char sample patience handle num data
  | DoDeinit => lcd_deinit sample patience handle
  end.

Fixpoint run_calls (cs : list call) (handle : option LCD_Handle)
  : M (option LCD_Handle) :=
  match cs with
  | [] => ret handle
  | c :: rest => handle' <- run_call c handle ;; run_calls rest handle'
  end.

(** The controller never lets go of the busy flag. *)
Definition stuck (h : LCD_Handle) : Prop :=
  forall clk, busy_at sample h clk = true.

End Sessions.

(** Everything in the handle but the two cached flag bytes. *)
Definition frame (h h' : LCD_Handle) : Prop :=
  _rs_pin h = _rs_pin h' /\ _rw_pin h = _rw_pin h' /\
  _enable_pin h = _enable_pin h' /\ _data_pins h = _data_pins h' /\
  _data_pins_mask h = _data_pins_mask h' /\
  _displayfunction h = _displayfunction h' /\
  _numlines h = _numlines h' /\ _row_offsets h = _row_offsets h'.

(** The arguments for which a call reads its arrays inside their bounds:
    a row for a handle that has a line, and a pattern of eight bytes. *)
Definition call_defined (h : LCD_Handle) (c : call) : Prop :=
  match c with
  | DoSetCursor _ row | DoWriteCharAt _ _ row | DoWriteStringAt _ _ row =>
      is_u8 row /\ 1 <= _numlines h
  | DoCreateChar _ data => (8 <= length data)%nat
  | _ => True
  end.

(** Traces made of nothing but sends through the command/data channel,
    the 5 ms pauses of [lcd_clear] and [lcd_home] and, with R/W wired,
    reads of the command register. *)
Inductive bus_trace (h : LCD_Handle) : list event -> Prop :=
| bus_idle : bus_trace h []
| bus_send rs b tr rest :
    send_trace h rs b tr -> bus_trace h rest -> bus_trace h (tr ++ rest)
| bus_pause rest : bus_trace h rest -> bus_trace h (SleepMs 5 :: rest)
| bus_status v rest :
    rw_wired h = true -> bus_trace h rest -> bus_trace h (poll h v ++ rest).

(** No event of the trace samples a pin. *)
Definition no_sampling (tr : list event) : bool :=
  forallb (fun e => negb (is_get e)) tr.

(** The last [gpio_put] of a trace: pin and level. *)
Definition last_put (tr : list event) : option (Z * bool) :=
  fold_left (fun acc e =>
               match e with
               | GpioPut pin v => Some (pin, v)
               | _ => acc
               end) tr None.

(** The characters of a string, as the data bytes sent for them. *)
Definition text_script (text : list Z) : list (bool * Z) :=
  map (fun c => (true, to_u8 c)) text.

(** The toggle that gives the same flag the other value. *)
Definition opposite (t : toggle) : toggle :=
  match t with
  | DisplayOff => DisplayOn | DisplayOn => DisplayOff
  | BlinkOff => BlinkOn | BlinkOn => BlinkOff
  | CursorOff => CursorOn | CursorOn => CursorOff
  | LeftToRight => RightToLeft | RightToLeft => LeftToRight
  | AutoscrollOff => AutoscrollOn | AutoscrollOn => AutoscrollOff
  end.

(** Two toggles act on the same flag. *)
Definition same_flag (t1 t2 : toggle) : bool :=
  match toggle_byte t1, toggle_byte t2 with
  | Control, Control | Mode, Mode => toggle_bit t1 =? toggle_bit t2
  | _, _ => false
  end.

(** What [_lcd_deinit_pins] emits. *)
Definition deinit_pins_trace (h : LCD_Handle) : list event :=
  [GpioSetFunctionMasked (_data_pins_mask h); GpioSetFunction (_rs_pin h);
   GpioSetFunction (_enable_pin h)] ++
  (if rw_wired h then [GpioSetFunction (_rw_pin h)] else []).

(** What [lcd_deinit] emits once the display is off: the release of the
    pins and the [free]. *)
Definition release_trace (h : LCD_Handle) : list event :=
  deinit_pins_trace h ++ [Free].

(** The session contains a tear-down. *)
Definition is_deinit (c : call) : bool :=
  match c with DoDeinit => true | _ => false end.

Definition tears_down (cs : list call) : bool := existsb is_deinit cs.

(** The DDRAM address of the first column of a row, for [cols] columns:
    the HD44780 memory map [_lcd_setup] stores. *)
Definition row_base (cols : Z) (row : Z) : Z :=
  match row with
  | 0 => 0x00
  | 1 => 0x40
  | 2 => 0x00 + cols
  | _ => 0x40 + cols
  end.

Section Behaviour.

Variable sample : nat -> Z -> bool.
Variable patience : nat.

(** A computation that talks to the display of [h] only through the
    channel: when it returns, its value satisfies [Q], its trace is a
    [bus_trace] and, without R/W, no sample was consumed; it hangs only
    on a wired controller that is not responsive; it is undefined only
    when [D] fails. *)
Definition behaves {A} (h : LCD_Handle) (Q : A -> Prop) (D : Prop) (m : M A)
  : Prop :=
  forall clk,
    match m clk with
    | Done a tr clk' =>
        Q a /\ bus_trace h tr /\ (rw_wired h = false -> clk' = clk)
    | Hang => rw_wired h = true /\ ~ responsive sample patience h
    | Undef => ~ D
    end.

End Behaviour.

(** ** Further fixtures *)

Module Fixtures.

(** A controller that holds every line high: always busy. *)
Definition jammed : nat -> Z -> bool := fun _ _ => true.

(** Lines that carry the byte [b] for a read in 4-bit mode started at
    sample 0: bits 7..4 during the first four samples, bits 3..0 during
    the next four. *)
Definition lines_carry (b : Z) : nat -> Z -> bool :=
  fun n _ => if (n <? 4)%nat then Z.testbit b (Z.of_nat (4 + n))
             else Z.testbit b (Z.of_nat (n - 4)).

(** A short session: define a glyph, clear, write two lines. *)
Definition greeting : list call :=
  [DoCreateChar 0 Examples.smiley; DoClear; DoToggle CursorOn;
   DoWriteString [72; 105]; DoWriteCharAt 0 15 1; DoToggle DisplayOff].

(** The same session ended by a tear-down, with a call after it. *)
Definition farewell : list call :=
  greeting ++ [DoDeinit; DoWriteChar 33].

End Fixtures.

(** ** The pins of a handle *)

(** The pins a handle drives one by one: Register-Select, Enable, R/W
    when wired, and the data lines of its bus width. *)
Definition own_pins (h : LCD_Handle) : list Z :=
  [_rs_pin h; _enable_pin h] ++
  (if rw_wired h then [_rw_pin h] else []) ++
  map (data_pin h) (seq 0 (if eight_bit h then 8 else 4)).

(** An event that, if it names a pin, names one of the handle's, and if
    it names a mask, names the handle's data-pin mask. *)
Definition on_own_pins (h : LCD_Handle) (e : event) : Prop :=
  match e with
  | GpioPut p _ | GpioGet p _ | GpioInit p | GpioSetDir p _
  | GpioSetFunction p => p ∈ own_pins h
  | GpioInitMask m | GpioSetDirOutMasked m | GpioSetDirInMasked m
  | GpioPutMasked m _ | GpioSetFunctionMasked m => m = _data_pins_mask h
  | SleepMs _ | SleepUs _ | Free => True
  end.

(** * Properties *)

(** ** Bits and nibbles *)

Lemma bit_of_shift (data : Z) (i : nat) :
  Z.testbit (Z.shiftr data (Z.of_nat i)) 0 = Z.testbit data (Z.of_nat i).
Proof. rewrite Z.shiftr_spec by lia. f_equal. Qed.

Lemma pack8 (b0 b1 b2 b3 b4 b5 b6 b7 : bool) :
  let v := or_bit (or_bit (or_bit (or_bit (or_bit (or_bit (or_bit (or_bit 0
             b0 0) b1 1) b2 2) b3 3) b4 4) b5 5) b6 6) b7 7 in
  is_u8 v /\
  b0 = Z.testbit v (Z.of_nat 0) /\ b1 = Z.testbit v (Z.of_nat 1) /\
  b2 = Z.testbit v (Z.of_nat 2) /\ b3 = Z.testbit v (Z.of_nat 3) /\
  b4 = Z.testbit v (Z.of_nat 4) /\ b5 = Z.testbit v (Z.of_nat 5) /\
  b6 = Z.testbit v (Z.of_nat 6) /\ b7 = Z.testbit v (Z.of_nat 7).
Proof.
  destruct b0, b1, b2, b3, b4, b5, b6, b7; vm_compute; intuition congruence.
Qed.

Lemma pack4 (b0 b1 b2 b3 : bool) :
  let v := or_bit (or_bit (or_bit (or_bit 0 b0 0) b1 1) b2 2) b3 3 in
  0 <= v < 16 /\
  b0 = Z.testbit v (Z.of_nat 0) /\ b1 = Z.testbit v (Z.of_nat 1) /\
  b2 = Z.testbit v (Z.of_nat 2) /\ b3 = Z.testbit v (Z.of_nat 3).
Proof.
  destruct b0, b1, b2, b3; vm_compute; intuition congruence.
Qed.

Lemma low_nibble_bit (x : Z) (i : nat) :
  (i < 4)%nat -> Z.testbit (low_nibble x) (Z.of_nat i) = Z.testbit x (Z.of_nat i).
Proof.
  intros Hi. unfold low_nibble. rewrite Z.land_spec.
  do 4 (destruct i as [|i]; [apply andb_true_r|]). lia.
Qed.

Lemma nibble_cases (x : Z) :
  0 <= x < 16 ->
  x ∈ [0; 1; 2; 3; 4; 5; 6; 7; 8; 9; 10; 11; 12; 13; 14; 15].
Proof.
  intros Hx. rewrite !elem_of_cons. lia.
Qed.

Lemma nibbles_join (hi lo : Z) :
  0 <= hi < 16 -> 0 <= lo < 16 ->
  let v := to_u8 (Z.lor (to_u8 (Z.shiftl hi 4)) lo) in
  is_u8 v /\ high_nibble v = hi /\ low_nibble v = lo.
Proof.
  intros Hhi%nibble_cases Hlo%nibble_cases.
  rewrite !elem_of_cons, elem_of_nil in Hhi, Hlo.
  repeat (destruct Hhi as [->|Hhi]); try contradiction;
  repeat (destruct Hlo as [->|Hlo]); try contradiction;
  vm_compute; intuition congruence.
Qed.

Lemma busy_test (c : Z) : negb (Z.land c 0x80 =? 0) = Z.testbit c 7.
Proof.
  assert (E : Z.land c 0x80 = if Z.testbit c 7 then 0x80 else 0).
  { apply Z.bits_inj'. intros n Hn. rewrite Z.land_spec.
    change 0x80 with (2 ^ 7). rewrite Z.pow2_bits_eqb by lia.
    destruct (Z.eqb_spec 7 n) as [<-|Hne].
    - destruct (Z.testbit c 7); [rewrite Z.pow2_bits_eqb by lia|rewrite Z.bits_0]; reflexivity.
    - rewrite andb_false_r. destruct (Z.testbit c 7).
      + rewrite Z.pow2_bits_eqb by lia. symmetry. apply Z.eqb_neq. exact Hne.
      + rewrite Z.bits_0. reflexivity. }
  rewrite E. destruct (Z.testbit c 7); reflexivity.
Qed.

Lemma bus_write_low (h : LCD_Handle) (x : Z) :
  bus_write h 4 x = bus_write h 4 (low_nibble x).
Proof.
  unfold bus_write. cbn [map seq].
  rewrite !low_nibble_bit by lia. reflexivity.
Qed.

Lemma bus_read_low (h : LCD_Handle) (x : Z) :
  bus_read h 4 x = bus_read h 4 (low_nibble x).
Proof.
  unfold bus_read. cbn [map seq].
  rewrite !low_nibble_bit by lia. reflexivity.
Qed.

Lemma bus_write_high (h : LCD_Handle) (b : Z) :
  bus_write h 4 (Z.shiftr b 4) = bus_write h 4 (high_nibble b).
Proof. apply bus_write_low. Qed.

(** ** The monad *)


Lemma bind_inv {A B} (m : M A) (k : A -> M B) clk b tr clk2 :
  bind m k clk = Done b tr clk2 ->
  exists a tr1 clk1 tr2,
    m clk = Done a tr1 clk1 /\ k a clk1 = Done b tr2 clk2 /\ tr = tr1 ++ tr2.
Proof.
  unfold bind. destruct (m clk) as [a tr1 clk1| |]; try discriminate.
  destruct (k a clk1) as [b' tr2 clk2'| |] eqn:E2; try discriminate.
  intros [= -> <- ->]. exists a, tr1, clk1, tr2. auto.
Qed.

(** ** Traces only depend on the wiring *)

Lemma same_bus_write (h h' : LCD_Handle) width data :
  same_bus h h' -> bus_write h width data = bus_write h' width data.
Proof.
  intros (Ers & Erw & Een & Epins & Emask & _).
  unfold bus_write, rw_wired, data_pin.
  rewrite Erw, Een, Epins, Emask. reflexivity.
Qed.

Lemma same_bus_read (h h' : LCD_Handle) width v :
  same_bus h h' -> bus_read h width v = bus_read h' width v.
Proof.
  intros (Ers & Erw & Een & Epins & Emask & _).
  unfold bus_read, data_pin.
  rewrite Erw, Een, Epins, Emask. reflexivity.
Qed.

Lemma same_bus_byte_write (h h' : LCD_Handle) b :
  same_bus h h' -> byte_write h b = byte_write h' b.
Proof.
  intros Hs. unfold byte_write.
  rewrite !(same_bus_write h h') by exact Hs.
  destruct Hs as (_ & _ & _ & _ & _ & ->). reflexivity.
Qed.

Lemma same_bus_poll (h h' : LCD_Handle) v :
  same_bus h h' -> poll h v = poll h' v.
Proof.
  intros Hs. unfold poll, byte_read.
  rewrite !(same_bus_read h h') by exact Hs.
  destruct Hs as (-> & _ & _ & _ & _ & ->). reflexivity.
Qed.

Lemma same_bus_spin (h h' : LCD_Handle) w :
  same_bus h h' -> spin_trace h w -> spin_trace h' w.
Proof.
  intros Hs. induction 1 as [v Hv|v rest Hv _ IH];
    rewrite (same_bus_poll h h') by exact Hs.
  - apply spin_ready. exact Hv.
  - apply spin_busy; assumption.
Qed.

Lemma same_bus_send (h h' : LCD_Handle) rs b tr :
  same_bus h h' -> send_trace h rs b tr -> send_trace h' rs b tr.
Proof.
  intros Hs (w & Hw & ->). exists w. split.
  - pose proof Hs as (_ & Erw & _).
    unfold wait_trace, rw_wired in *. rewrite <- Erw.
    destruct (negb (_rw_pin h =? RW_UNUSED)); [|exact Hw].
    eapply same_bus_spin; [exact Hs|exact Hw].
  - rewrite (same_bus_byte_write h h') by exact Hs.
    destruct Hs as (-> & _). reflexivity.
Qed.

Lemma same_bus_set_displaycontrol v h : same_bus (set_displaycontrol v h) h.
Proof. repeat split. Qed.

Lemma same_bus_set_displaymode v h : same_bus (set_displaymode v h) h.
Proof. repeat split. Qed.

Lemma same_bus_trans h1 h2 h3 :
  same_bus h1 h2 -> same_bus h2 h3 -> same_bus h1 h3.
Proof. unfold same_bus. intuition congruence. Qed.

(** ** The transfer primitives *)

Section Engine.
Variable sample : nat -> Z -> bool.
Variable patience : nat.

Lemma write_8_bits_trace (h : LCD_Handle) (data : Z) (clk : nat) :
  _lcd_write_8_bits h data clk = Done tt (bus_write h 8 data) clk.
Proof.
  unfold _lcd_write_8_bits, bus_write.
  destruct (rw_wired h);
    cbn [bind for_each seq gpio_put sleep_us emit ret app map
         gpio_set_dir_out_masked];
    rewrite !bit_of_shift; reflexivity.
Qed.

Lemma write_4_bits_trace (h : LCD_Handle) (data : Z) (clk : nat) :
  _lcd_write_4_bits h data clk = Done tt (bus_write h 4 data) clk.
Proof.
  unfold _lcd_write_4_bits, bus_write.
  destruct (rw_wired h);
    cbn [bind for_each seq gpio_put sleep_us emit ret app map
         gpio_set_dir_out_masked];
    rewrite !bit_of_shift; reflexivity.
Qed.

Lemma read_8_bits_wired (h : LCD_Handle) (clk : nat) :
  rw_wired h = true ->
  exists v,
    _lcd_read_8_bits sample h clk = Done v (bus_read h 8 v) (8 + clk) /\
    is_u8 v /\
    forall i, (i < 8)%nat ->
      Z.testbit v (Z.of_nat i) = sample (i + clk)%nat (data_pin h i).
Proof.
  intros Hw. unfold _lcd_read_8_bits, bus_read. rewrite Hw.
  cbn [negb bind for_fold seq gpio_put sleep_us emit ret app map
       gpio_set_dir_in_masked gpio_get].
  match goal with
  | |- context [Done (or_bit (or_bit (or_bit (or_bit (or_bit (or_bit (or_bit
         (or_bit 0 ?b0 0) ?b1 1) ?b2 2) ?b3 3) ?b4 4) ?b5 5) ?b6 6) ?b7 7)
         _ (S _)] =>
      destruct (pack8 b0 b1 b2 b3 b4 b5 b6 b7)
        as (Hr & E0 & E1 & E2 & E3 & E4 & E5 & E6 & E7)
  end.
  eexists. split; [|split; [exact Hr|]].
  - rewrite <- E0, <- E1, <- E2, <- E3, <- E4, <- E5, <- E6, <- E7.
    reflexivity.
  - intros i Hi. do 8 (destruct i as [|i]; [symmetry; assumption|]). lia.
Qed.

Lemma read_4_bits_wired (h : LCD_Handle) (clk : nat) :
  rw_wired h = true ->
  exists v,
    _lcd_read_4_bits sample h clk = Done v (bus_read h 4 v) (4 + clk) /\
    0 <= v < 16 /\
    forall i, (i < 4)%nat ->
      Z.testbit v (Z.of_nat i) = sample (i + clk)%nat (data_pin h i).
Proof.
  intros Hw. unfold _lcd_read_4_bits, bus_read. rewrite Hw.
  cbn [negb bind for_fold seq gpio_put sleep_us emit ret app map
       gpio_set_dir_in_masked gpio_get].
  match goal with
  | |- context [Done (or_bit (or_bit (or_bit (or_bit 0 ?b0 0) ?b1 1) ?b2 2)
                        ?b3 3) _ (S _)] =>
      destruct (pack4 b0 b1 b2 b3) as (Hr & E0 & E1 & E2 & E3)
  end.
  eexists. split; [|split; [exact Hr|]].
  - rewrite <- E0, <- E1, <- E2, <- E3. reflexivity.
  - intros i Hi. do 4 (destruct i as [|i]; [symmetry; assumption|]). lia.
Qed.

(** ** The channel *)

Lemma read_command_wired (h : LCD_Handle) (clk : nat) :
  rw_wired h = true ->
  exists v,
    _lcd_read_command sample h clk = Done v (poll h v) (8 + clk) /\ is_u8 v.
Proof.
  intros Hw. unfold _lcd_read_command, poll, byte_read.
  destruct (eight_bit h).
  - destruct (read_8_bits_wired h clk Hw) as (v & E & Hv & _).
    exists v. split; [|exact Hv].
    unfold bind, gpio_put, emit. rewrite E. reflexivity.
  - destruct (read_4_bits_wired h clk Hw) as (hi & Ehi & Hhi & _).
    destruct (read_4_bits_wired h (4 + clk) Hw) as (lo & Elo & Hlo & _).
    destruct (nibbles_join hi lo Hhi Hlo) as (Hv & Eh & El).
    eexists. split; [|exact Hv].
    rewrite Eh, El.
    unfold bind, gpio_put, emit, ret. rewrite Ehi, Elo.
    rewrite app_nil_r. reflexivity.
Qed.

Lemma busy_wired (h : LCD_Handle) (clk : nat) :
  rw_wired h = true ->
  exists v,
    _lcd_busy sample h clk = Done (Z.testbit v 7) (poll h v) (8 + clk).
Proof.
  intros Hw. destruct (read_command_wired h clk Hw) as (v & E & _).
  exists v. unfold _lcd_busy, bind, ret. rewrite E, busy_test, app_nil_r.
  reflexivity.
Qed.

Lemma spin_shape (h : LCD_Handle) (fuel clk : nat) tr clk' :
  rw_wired h = true ->
  spin_while_busy sample fuel h clk = Done tt tr clk' -> spin_trace h tr.
Proof.
  intros Hw. revert clk tr.
  induction fuel as [|fuel IH]; intros clk tr Run; [discriminate|].
  cbn [spin_while_busy] in Run.
  destruct (busy_wired h clk Hw) as (v & Ev).
  unfold bind at 1 in Run. rewrite Ev in Run.
  destruct (Z.testbit v 7) eqn:Bit.
  - destruct (bind (sleep_us 3) _ (8 + clk)%nat) as [[] tr2 clk2| |] eqn:Rest;
      try discriminate.
    injection Run as <- <-.
    apply bind_inv in Rest as ([] & nap & clk3 & rest & Nap & Rest & ->).
    cbv [sleep_us emit] in Nap. injection Nap as <- <-.
    apply spin_busy; [exact Bit|]. eapply IH. exact Rest.
  - cbv [ret] in Run. injection Run as <- <-. rewrite app_nil_r.
    apply spin_ready. exact Bit.
Qed.

Lemma spin_ends (h : LCD_Handle) (k fuel clk : nat) :
  rw_wired h = true ->
  (k < fuel)%nat -> busy_at sample h (8 * k + clk) = false ->
  exists tr clk', spin_while_busy sample fuel h clk = Done tt tr clk'.
Proof.
  intros Hw. revert fuel clk.
  induction k as [|k IH]; intros fuel clk Hk Hfree;
    (destruct fuel as [|fuel]; [lia|]);
    cbn [spin_while_busy]; unfold busy_at in Hfree;
    destruct (busy_wired h clk Hw) as (v & Ev); unfold bind at 1; rewrite Ev.
  - replace (8 * 0 + clk)%nat with clk in Hfree by lia.
    rewrite Ev in Hfree. rewrite Hfree. cbv [ret]. eauto.
  - destruct (Z.testbit v 7); [|cbv [ret]; eauto].
    destruct (IH fuel (8 + clk)%nat) as (tr & clk' & E); [lia| |].
    + unfold busy_at. replace (8 * k + (8 + clk))%nat with (8 * S k + clk)%nat by lia.
      exact Hfree.
    + unfold bind, sleep_us, emit. rewrite E. eauto.
Qed.

Lemma send_command_shape (h : LCD_Handle) (c : Z) clk tr clk' :
  _lcd_send_command sample patience h c clk = Done tt tr clk' ->
  send_trace h false c tr.
Proof.
  unfold _lcd_send_command, send_trace, wait_trace, byte_write.
  intros Run.
  apply bind_inv in Run as ([] & w & clk1 & tr1 & Wait & Run & ->).
  apply bind_inv in Run as ([] & rs & clk2 & xfer & Rs & Xfer & ->).
  cbv [gpio_put emit] in Rs. injection Rs as <- <-.
  exists w. split.
  - destruct (rw_wired h) eqn:Hw.
    + eapply spin_shape; eauto.
    + cbv [ret] in Wait. congruence.
  - f_equal. cbn [app]. f_equal.
    destruct (eight_bit h).
    + rewrite write_8_bits_trace in Xfer. congruence.
    + unfold bind in Xfer. rewrite !write_4_bits_trace in Xfer.
      injection Xfer as <-.
      rewrite (bus_write_low h c), bus_write_high. reflexivity.
Qed.

Lemma send_data_shape (h : LCD_Handle) (d : Z) clk tr clk' :
  _lcd_send_data sample patience h d clk = Done tt tr clk' ->
  send_trace h true d tr.
Proof.
  unfold _lcd_send_data, send_trace, wait_trace, byte_write.
  intros Run.
  apply bind_inv in Run as ([] & w & clk1 & tr1 & Wait & Run & ->).
  apply bind_inv in Run as ([] & rs & clk2 & xfer & Rs & Xfer & ->).
  cbv [gpio_put emit] in Rs. injection Rs as <- <-.
  exists w. split.
  - destruct (rw_wired h) eqn:Hw.
    + eapply spin_shape; eauto.
    + cbv [ret] in Wait. congruence.
  - f_equal. cbn [app]. f_equal.
    destruct (eight_bit h).
    + rewrite write_8_bits_trace in Xfer. congruence.
    + unfold bind in Xfer. rewrite !write_4_bits_trace in Xfer.
      injection Xfer as <-.
      rewrite (bus_write_low h d), bus_write_high. reflexivity.
Qed.

Lemma wait_ends (h : LCD_Handle) clk :
  responsive sample patience h ->
  exists tr clk',
    (if rw_wired h then spin_while_busy sample patience h else ret tt) clk
    = Done tt tr clk'.
Proof.
  intros Hr. unfold responsive in Hr.
  destruct (rw_wired h) eqn:Hw.
  - destruct (Hr eq_refl clk) as (k & Hk & Hfree).
    eapply spin_ends; eauto.
  - cbv [ret]. eauto.
Qed.

Lemma send_command_ends (h : LCD_Handle) (c : Z) clk :
  responsive sample patience h ->
  exists tr clk', _lcd_send_command sample patience h c clk = Done tt tr clk'.
Proof.
  intros Hr. destruct (wait_ends h clk Hr) as (tr & clk' & E).
  unfold _lcd_send_command. unfold bind at 1. rewrite E.
  unfold bind, gpio_put, emit.
  destruct (eight_bit h);
    rewrite ?write_8_bits_trace, ?write_4_bits_trace; eauto.
Qed.

Lemma send_data_ends (h : LCD_Handle) (d : Z) clk :
  responsive sample patience h ->
  exists tr clk', _lcd_send_data sample patience h d clk = Done tt tr clk'.
Proof.
  intros Hr. destruct (wait_ends h clk Hr) as (tr & clk' & E).
  unfold _lcd_send_data. unfold bind at 1. rewrite E.
  unfold bind, gpio_put, emit.
  destruct (eight_bit h);
    rewrite ?write_8_bits_trace, ?write_4_bits_trace; eauto.
Qed.

Lemma send_command_unwired (h : LCD_Handle) (c : Z) clk :
  rw_wired h = false ->
  _lcd_send_command sample patience h c clk
  = Done tt (GpioPut (_rs_pin h) false :: byte_write h c) clk.
Proof.
  intros Hw. unfold _lcd_send_command, byte_write. rewrite Hw.
  unfold bind, ret, gpio_put, emit.
  destruct (eight_bit h);
    rewrite ?write_8_bits_trace, ?write_4_bits_trace; cbn [app];
    rewrite ?(bus_write_low h c), ?bus_write_high; reflexivity.
Qed.

Lemma send_data_unwired (h : LCD_Handle) (d : Z) clk :
  rw_wired h = false ->
  _lcd_send_data sample patience h d clk
  = Done tt (GpioPut (_rs_pin h) true :: byte_write h d) clk.
Proof.
  intros Hw. unfold _lcd_send_data, byte_write. rewrite Hw.
  unfold bind, ret, gpio_put, emit.
  destruct (eight_bit h);
    rewrite ?write_8_bits_trace, ?write_4_bits_trace; cbn [app];
    rewrite ?(bus_write_low h d), ?bus_write_high; reflexivity.
Qed.

(** ** Initialisation *)

Lemma handshake_trace (h : LCD_Handle) clk :
  (if eight_bit h then
     _lcd_write_8_bits h (to_u8 (Z.lor LCD_FUNCTIONSET (_displayfunction h))) ;;
     sleep_ms 5 ;;
     _lcd_write_8_bits h (to_u8 (Z.lor LCD_FUNCTIONSET (_displayfunction h))) ;;
     sleep_ms 5 ;;
     _lcd_write_8_bits h (to_u8 (Z.lor LCD_FUNCTIONSET (_displayfunction h))) ;;
     sleep_ms 5
   else
     _lcd_write_4_bits h 0x03 ;;
     sleep_ms 5 ;;
     _lcd_write_4_bits h 0x03 ;;
     sleep_ms 5 ;;
     _lcd_write_4_bits h 0x03 ;;
     sleep_ms 5 ;;
     _lcd_write_4_bits h 0x02 ;;
     sleep_ms 5) clk
  = Done tt (handshake h) clk.
Proof.
  unfold handshake.
  destruct (eight_bit h); unfold bind, sleep_ms, emit;
    rewrite ?write_8_bits_trace, ?write_4_bits_trace; reflexivity.
Qed.

Lemma setup_shape (h : LCD_Handle) (cols rows charsize : Z) clk h' tr clk' :
  _lcd_setup sample patience h cols rows charsize clk = Done h' tr clk' ->
  let h0 := setup_geometry h cols rows charsize in
  h' = set_displaymode 0x02 (set_displaycontrol 0x04 h0) /\
  exists cmds,
    tr = handshake h0 ++ cmds /\
    script_trace h0
      [(false, to_u8 (Z.lor LCD_FUNCTIONSET (_displayfunction h0)));
       (false, 0x0C); (false, 0x06)] cmds.
Proof.
  unfold _lcd_setup. intros Run. cbv zeta in *.
  set (h0 := setup_geometry h cols rows charsize) in *.
  apply bind_inv in Run as ([] & hs & clk1 & tr1 & Hs & Run & ->).
  rewrite handshake_trace in Hs. injection Hs as <- <-.
  apply bind_inv in Run as ([] & t1 & clk2 & tr2 & S1 & Run & ->).
  apply bind_inv in Run as ([] & t2 & clk3 & tr3 & S2 & Run & ->).
  apply bind_inv in Run as ([] & t3 & clk4 & tr4 & S3 & Run & ->).
  cbv [ret] in Run. injection Run as <- <- <-.
  apply send_command_shape in S1, S2, S3.
  split; [reflexivity|].
  exists (t1 ++ t2 ++ t3 ++ []). split; [reflexivity|].
  apply script_cons; [exact S1|].
  apply script_cons.
  { eapply same_bus_send; [|exact S2]. apply same_bus_set_displaycontrol. }
  apply script_cons; [|apply script_nil].
  eapply same_bus_send; [|exact S3].
  eapply same_bus_trans;
    [apply same_bus_set_displaymode|apply same_bus_set_displaycontrol].
Qed.

Lemma setup_ends (h : LCD_Handle) (cols rows charsize : Z) clk :
  responsive sample patience (setup_geometry h cols rows charsize) ->
  exists h' tr clk',
    _lcd_setup sample patience h cols rows charsize clk = Done h' tr clk'.
Proof.
  intros Hr. unfold _lcd_setup.
  set (h0 := setup_geometry h cols rows charsize) in *.
  unfold bind at 1. rewrite handshake_trace.
  destruct (send_command_ends h0
              (to_u8 (Z.lor LCD_FUNCTIONSET (_displayfunction h0))) clk Hr)
    as (t1 & clk1 & E1).
  unfold bind at 1. rewrite E1.
  set (h1 := set_displaycontrol _ h0).
  destruct (send_command_ends h1
              (to_u8 (Z.lor LCD_DISPLAYCONTROL (_displaycontrol h1))) clk1 Hr)
    as (t2 & clk2 & E2).
  unfold bind at 1. rewrite E2.
  set (h2 := set_displaymode _ h1).
  destruct (send_command_ends h2
              (to_u8 (Z.lor LCD_ENTRYMODESET (_displaymode h2))) clk2 Hr)
    as (t3 & clk3 & E3).
  unfold bind at 1. rewrite E3. cbv [ret]. eauto.
Qed.

Lemma init_pins_trace_ok (h : LCD_Handle) clk :
  _lcd_init_pins h clk = Done tt (init_pins_trace h) clk.
Proof.
  unfold _lcd_init_pins, init_pins_trace.
  destruct (rw_wired h); reflexivity.
Qed.

(** ** Framing of a byte *)

(** C1.  A byte sent as a command or as data goes out, in 4-bit mode, as
    exactly two 4-bit write transfers, the high nibble and then the low
    nibble, and in 8-bit mode as exactly one 8-bit write transfer of the
    byte.  Register-Select is driven low (command) or high (data) just
    before them; all that precedes it is the busy-flag wait, which is
    empty without R/W.  The send returns whenever the controller is
    responsive. *)
Theorem send_byte_framing (h : LCD_Handle) (b : Z) (clk : nat) :
  let transfers :=
    if eight_bit h then bus_write h 8 b
    else bus_write h 4 (high_nibble b) ++ bus_write h 4 (low_nibble b) in
  (forall tr clk',
      _lcd_send_command sample patience h b clk = Done tt tr clk' ->
      exists w, wait_trace h w /\
                tr = w ++ GpioPut (_rs_pin h) false :: transfers) /\
  (forall tr clk',
      _lcd_send_data sample patience h b clk = Done tt tr clk' ->
      exists w, wait_trace h w /\
                tr = w ++ GpioPut (_rs_pin h) true :: transfers) /\
  (responsive sample patience h ->
   (exists tr clk', _lcd_send_command sample patience h b clk = Done tt tr clk') /\
   (exists tr clk', _lcd_send_data sample patience h b clk = Done tt tr clk')).
Proof.
  cbv zeta. split; [|split].
  - intros tr clk' Run. exact (send_command_shape h b clk tr clk' Run).
  - intros tr clk' Run. exact (send_data_shape h b clk tr clk' Run).
  - intros Hr. split.
    + apply send_command_ends. exact Hr.
    + apply send_data_ends. exact Hr.
Qed.

End Engine.


Lemma send_byte_framing_witness :
  exists w tr clk',
    wait_trace Examples.lcd4 w /\
    _lcd_send_command Examples.idle 1 Examples.lcd4 0xC0 0%nat = Done tt tr clk' /\
    tr = w ++ GpioPut 6 false
           :: bus_write Examples.lcd4 4 0xC ++ bus_write Examples.lcd4 4 0x0.
Proof.
  destruct (send_byte_framing Examples.idle 1 Examples.lcd4 0xC0 0%nat)
    as (Hcmd & _ & Hends).
  destruct Hends as ((tr & clk' & Run) & _).
  { intros _ clk. exists 0%nat. split; [lia | reflexivity]. }
  destruct (Hcmd tr clk' Run) as (w & Hw & Htr).
  exists w, tr, clk'. split; [exact Hw|]. split; [exact Run | exact Htr].
Defined.

(** ** Waiting for the controller *)

Lemma spin_trace_polls (h : LCD_Handle) (w : list event) :
  spin_trace h w ->
  exists vs v,
    Forall (fun x => Z.testbit x 7 = true) vs /\ Z.testbit v 7 = false /\
    w = busy_polls h vs ++ poll h v.
Proof.
  induction 1 as [v Hv|v rest Hv _ (vs & last & Hvs & Hlast & ->)].
  - exists [], v. auto.
  - exists (v :: vs), last. split; [constructor; assumption|].
    split; [exact Hlast|].
    unfold busy_polls. cbn [flat_map]. rewrite <- !app_assoc. reflexivity.
Qed.

Lemma bus_write_settles (h : LCD_Handle) width data :
  rw_wired h = false ->
  exists pre, bus_write h width data = pre ++ [SleepUs 100] /\
              forallb (fun e => negb (is_get e)) (bus_write h width data) = true.
Proof.
  intros Hw. unfold bus_write. rewrite Hw. cbn [app].
  eexists (_ :: _ :: _ ++ [_; _]). split.
  - cbn [app]. rewrite <- app_assoc. reflexivity.
  - cbn [forallb is_get negb andb]. rewrite forallb_app. cbn.
    rewrite andb_true_r. apply forallb_forall. intros e He.
    apply in_map_iff in He as (i & <- & _). reflexivity.
Qed.

Section Channel.
Variable sample : nat -> Z -> bool.
Variable patience : nat.

(** C3.  With R/W wired, a send issues its transfer only after the
    busy-flag spin: polls of the command register that read bit 7 set,
    each followed by [sleep_us(3)], up to the first poll that reads bit 7
    clear; Register-Select and the transfer follow that poll.  Without
    R/W nothing is polled (no pin is sampled, the send cannot hang), and
    every single transfer ends with [sleep_us(100)]. *)
Theorem busy_wait_before_transfer (h : LCD_Handle) (b : Z) (clk : nat) :
  (rw_wired h = true ->
   (forall tr clk',
       _lcd_send_command sample patience h b clk = Done tt tr clk' ->
       exists vs v,
         Forall (fun x => Z.testbit x 7 = true) vs /\ Z.testbit v 7 = false /\
         tr = busy_polls h vs ++ poll h v ++
              GpioPut (_rs_pin h) false :: byte_write h b) /\
   (forall tr clk',
       _lcd_send_data sample patience h b clk = Done tt tr clk' ->
       exists vs v,
         Forall (fun x => Z.testbit x 7 = true) vs /\ Z.testbit v 7 = false /\
         tr = busy_polls h vs ++ poll h v ++
              GpioPut (_rs_pin h) true :: byte_write h b)) /\
  (rw_wired h = false ->
   _lcd_send_command sample patience h b clk
   = Done tt (GpioPut (_rs_pin h) false :: byte_write h b) clk /\
   _lcd_send_data sample patience h b clk
   = Done tt (GpioPut (_rs_pin h) true :: byte_write h b) clk /\
   forall width data,
     exists pre, bus_write h width data = pre ++ [SleepUs 100] /\
                 forallb (fun e => negb (is_get e)) (bus_write h width data)
                 = true).
Proof.
  split.
  - intros Hw. split; intros tr clk' Run.
    + apply send_command_shape in Run as (w & Hwait & ->).
      unfold wait_trace in Hwait. rewrite Hw in Hwait.
      apply spin_trace_polls in Hwait as (vs & v & Hvs & Hv & ->).
      exists vs, v. rewrite <- app_assoc. auto.
    + apply send_data_shape in Run as (w & Hwait & ->).
      unfold wait_trace in Hwait. rewrite Hw in Hwait.
      apply spin_trace_polls in Hwait as (vs & v & Hvs & Hv & ->).
      exists vs, v. rewrite <- app_assoc. auto.
  - intros Hw. split; [|split].
    + apply send_command_unwired. exact Hw.
    + apply send_data_unwired. exact Hw.
    + intros width data. apply bus_write_settles. exact Hw.
Qed.

(** ** Reading without a Read/Write line *)

(** C8.  Without R/W the 8-bit read returns 255 and the 4-bit read
    returns 15, touching no pin and sampling nothing.  With R/W the value
    returned is the one sampled: bit [i] is the level of data line [i] at
    the [i]-th sample of the transfer. *)
Theorem read_sentinel_without_rw (h : LCD_Handle) (clk : nat) :
  (rw_wired h = false ->
   _lcd_read_8_bits sample h clk = Done 255 [] clk /\
   _lcd_read_4_bits sample h clk = Done 15 [] clk) /\
  (rw_wired h = true ->
   (exists v,
       _lcd_read_8_bits sample h clk = Done v (bus_read h 8 v) (8 + clk) /\
       is_u8 v /\
       forall i, (i < 8)%nat ->
         Z.testbit v (Z.of_nat i) = sample (i + clk)%nat (data_pin h i)) /\
   (exists v,
       _lcd_read_4_bits sample h clk = Done v (bus_read h 4 v) (4 + clk) /\
       0 <= v < 16 /\
       forall i, (i < 4)%nat ->
         Z.testbit v (Z.of_nat i) = sample (i + clk)%nat (data_pin h i))).
Proof.
  split; intros Hw.
  - unfold _lcd_read_8_bits, _lcd_read_4_bits. rewrite Hw. split; reflexivity.
  - split; [apply read_8_bits_wired | apply read_4_bits_wired]; exact Hw.
Qed.

(** ** NULL handles *)

(** C9.  Every public function that takes a handle returns at once when
    the handle is [NULL]: no event (no bus transfer, no GPIO call, no
    sleep), no sample consumed, nothing stored; [lcd_deinit] returns
    [NULL]. *)
Theorem null_handle_is_noop (clk : nat) (col row symbol num : Z)
    (text data : list Z) :
  lcd_clear sample patience None clk = Done None [] clk /\
  lcd_home sample patience None clk = Done None [] clk /\
  lcd_display_off sample patience None clk = Done None [] clk /\
  lcd_display_on sample patience None clk = Done None [] clk /\
  lcd_blink_off sample patience None clk = Done None [] clk /\
  lcd_blink_on sample patience None clk = Done None [] clk /\
  lcd_cursor_off sample patience None clk = Done None [] clk /\
  lcd_cursor_on sample patience None clk = Done None [] clk /\
  lcd_scroll_display_left sample patience None clk = Done None [] clk /\
  lcd_scroll_display_right sample patience None clk = Done None [] clk /\
  lcd_left_to_right sample patience None clk = Done None [] clk /\
  lcd_right_to_left sample patience None clk = Done None [] clk /\
  lcd_autoscroll_off sample patience None clk = Done None [] clk /\
  lcd_autoscroll_on sample patience None clk = Done None [] clk /\
  lcd_set_cursor sample patience None col row clk = Done None [] clk /\
  lcd_write_char sample patience None symbol clk = Done None [] clk /\
  lcd_write_string sample patience None text clk = Done None [] clk /\
  lcd_write_char_at sample patience None symbol col row clk = Done None [] clk /\
  lcd_write_string_at sample patience None text col row clk
  = Done None [] clk /\
  lcd_create_char sample patience None num data clk = Done None [] clk /\
  lcd_deinit sample patience None clk = Done None [] clk.
Proof. repeat split. Qed.

End Channel.

Lemma busy_wait_before_transfer_witness :
  (exists vs v tr clk',
      Forall (fun x => Z.testbit x 7 = true) vs /\ Z.testbit v 7 = false /\
      _lcd_send_command Examples.busy_twice 3 Examples.lcd4 0x01 0%nat
      = Done tt tr clk' /\
      tr = busy_polls Examples.lcd4 vs ++ poll Examples.lcd4 v ++
           GpioPut 6 false :: byte_write Examples.lcd4 0x01) /\
  _lcd_send_command Examples.idle 0 Examples.lcd8 0x01 0%nat
  = Done tt (GpioPut 10 false :: byte_write Examples.lcd8 0x01) 0%nat.
Proof.
  split.
  - destruct (busy_wait_before_transfer Examples.busy_twice 3 Examples.lcd4
                0x01 0%nat) as (Hwired & _).
    destruct (Hwired eq_refl) as (Hcmd & _).
    edestruct Hcmd as (vs & v & Hvs & Hv & Htr).
    { vm_compute. reflexivity. }
    exists vs, v. do 2 eexists.
    split; [exact Hvs|]. split; [exact Hv|]. split; [|exact Htr].
    vm_compute. reflexivity.
  - destruct (busy_wait_before_transfer Examples.idle 0 Examples.lcd8
                0x01 0%nat) as (_ & Hunwired).
    destruct (Hunwired eq_refl) as (Hcmd & _). exact Hcmd.
Defined.

Lemma read_sentinel_without_rw_witness :
  _lcd_read_8_bits Examples.idle Examples.lcd8 0%nat = Done 255 [] 0%nat /\
  exists v, _lcd_read_4_bits Examples.busy_twice Examples.lcd4 0%nat
            = Done v (bus_read Examples.lcd4 4 v) 4%nat /\ v = 8.
Proof.
  split.
  - destruct (read_sentinel_without_rw Examples.idle Examples.lcd8 0%nat)
      as (Hunwired & _).
    destruct (Hunwired eq_refl) as (H8 & _). exact H8.
  - destruct (read_sentinel_without_rw Examples.busy_twice Examples.lcd4 0%nat)
      as (_ & Hwired).
    destruct (Hwired eq_refl) as (_ & v & Run & _ & _).
    exists v. split; [exact Run|].
    vm_compute in Run. congruence.
Defined.

(** ** The initialisation sequence *)

Section Init.
Variable sample : nat -> Z -> bool.
Variable patience : nat.



Lemma init_shape (blk : LCD_Handle)
    (cols rows charsize rs rw enable d0 d1 d2 d3 d4 d5 d6 d7 : Z)
    (eightbitmode : bool) clk r tr clk' :
  _lcd_init sample patience (Some blk) cols rows charsize rs rw enable
    d0 d1 d2 d3 d4 d5 d6 d7 eightbitmode clk = Done r tr clk' ->
  let h1 := init_handle blk rs rw enable d0 d1 d2 d3 d4 d5 d6 d7 eightbitmode in
  let h0 := setup_geometry h1 cols rows charsize in
  r = Some (set_displaymode 0x02 (set_displaycontrol 0x04 h0)) /\
  exists cmds rest,
    tr = SleepMs 50 :: init_pins_trace h1 ++ handshake h0 ++ cmds ++ rest /\
    script_trace h0
      [(false, to_u8 (Z.lor LCD_FUNCTIONSET (_displayfunction h0)));
       (false, 0x0C); (false, 0x06)] cmds.
Proof.
  unfold _lcd_init. intros Run. cbv zeta in *.
  set (h1 := init_handle blk rs rw enable d0 d1 d2 d3 d4 d5 d6 d7
               eightbitmode) in *.
  apply bind_inv in Run as ([] & nap & clk1 & tr1 & Nap & Run & ->).
  cbv [sleep_ms emit] in Nap. injection Nap as <- <-.
  apply bind_inv in Run as ([] & pins & clk2 & tr2 & Pins & Run & ->).
  rewrite init_pins_trace_ok in Pins. injection Pins as <- <-.
  apply bind_inv in Run as (h' & setup & clk3 & tr3 & Setup & Run & ->).
  apply setup_shape in Setup as (-> & cmds & -> & Hcmds).
  apply bind_inv in Run as (r1 & t1 & clk4 & tr4 & _ & Run & ->).
  apply bind_inv in Run as (r2 & t2 & clk5 & tr5 & _ & Run & ->).
  cbv [ret] in Run. injection Run as <- <- <-.
  split; [reflexivity|].
  exists cmds, (t1 ++ t2 ++ []). split; [|exact Hcmds].
  cbn [app]. rewrite <- !app_assoc. reflexivity.
Qed.

Lemma clear_ends (h : LCD_Handle) clk :
  responsive sample patience h ->
  exists tr clk', lcd_clear sample patience (Some h) clk = Done (Some h) tr clk'.
Proof.
  intros Hr. unfold lcd_clear.
  destruct (send_command_ends sample patience h LCD_CLEARDISPLAY clk Hr)
    as (tr & clk' & E).
  unfold bind, sleep_ms, emit, ret. rewrite E. eauto.
Qed.

Lemma home_ends (h : LCD_Handle) clk :
  responsive sample patience h ->
  exists tr clk', lcd_home sample patience (Some h) clk = Done (Some h) tr clk'.
Proof.
  intros Hr. unfold lcd_home.
  destruct (send_command_ends sample patience h LCD_RETURNHOME clk Hr)
    as (tr & clk' & E).
  unfold bind, sleep_ms, emit, ret. rewrite E. eauto.
Qed.

Lemma init_ends (blk : LCD_Handle)
    (cols rows charsize rs rw enable d0 d1 d2 d3 d4 d5 d6 d7 : Z)
    (eightbitmode : bool) clk :
  responsive sample patience
    (setup_geometry
       (init_handle blk rs rw enable d0 d1 d2 d3 d4 d5 d6 d7 eightbitmode)
       cols rows charsize) ->
  exists h tr clk',
    _lcd_init sample patience (Some blk) cols rows charsize rs rw enable
      d0 d1 d2 d3 d4 d5 d6 d7 eightbitmode clk = Done (Some h) tr clk'.
Proof.
  intros Hr. unfold _lcd_init. cbv zeta.
  set (h1 := init_handle blk rs rw enable d0 d1 d2 d3 d4 d5 d6 d7
               eightbitmode) in *.
  unfold bind at 1, sleep_ms, emit.
  unfold bind at 1. rewrite init_pins_trace_ok.
  destruct (setup_ends sample patience h1 cols rows charsize clk Hr)
    as (h' & t1 & clk1 & Esetup).
  unfold bind at 1. rewrite Esetup.
  apply setup_shape in Esetup as (-> & _).
  set (h2 := set_displaymode _ _).
  assert (Hr2 : responsive sample patience h2) by exact Hr.
  destruct (clear_ends h2 clk1 Hr2) as (t2 & clk2 & Eclear).
  unfold bind at 1. rewrite Eclear.
  destruct (home_ends h2 clk2 Hr2) as (t3 & clk3 & Ehome).
  unfold bind, ret. rewrite Ehome. eauto.
Qed.

Lemma init_mode (blk : LCD_Handle)
    (cols rows charsize rs rw enable d0 d1 d2 d3 d4 d5 d6 d7 : Z)
    (eightbitmode : bool) :
  let h0 := setup_geometry
              (init_handle blk rs rw enable d0 d1 d2 d3 d4 d5 d6 d7
                 eightbitmode) cols rows charsize in
  eight_bit h0 = eightbitmode /\
  to_u8 (Z.lor LCD_FUNCTIONSET (_displayfunction h0))
  = Z.lor (Z.lor (Z.lor LCD_FUNCTIONSET
                        (if eightbitmode then LCD_8BITMODE else LCD_4BITMODE))
                 (if rows >? 1 then LCD_2LINE else LCD_1LINE))
          (if negb (charsize =? LCD_5x8DOTS) && (rows =? 1)
           then LCD_5x10DOTS else LCD_5x8DOTS).
Proof.
  unfold setup_geometry, init_handle, eight_bit.
  destruct eightbitmode, (rows >? 1), (negb (charsize =? LCD_5x8DOTS) && (rows =? 1));
    split; reflexivity.
Qed.

(** C2.  [_lcd_setup] first performs the handshake with raw transfers:
    in 8-bit mode the function-set byte three times, in 4-bit mode the
    nibble 0x3 three times and then the nibble 0x2 once, every transfer
    followed by [sleep_ms(5)].  Only then come, through the command
    channel and in this order, the function-set command, display control
    0x0C (display on, cursor off, blink off) and entry mode 0x06
    (left to right, no autoscroll).  In [_lcd_init] nothing but the 50 ms
    delay and the pin set-up precedes the handshake, and the function-set
    byte carries the bus width, the line count and the font. *)
Theorem setup_handshake_then_commands (h : LCD_Handle)
    (cols rows charsize : Z) (clk : nat) :
  let h0 := setup_geometry h cols rows charsize in
  let function_set := to_u8 (Z.lor LCD_FUNCTIONSET (_displayfunction h0)) in
  let nap := [SleepMs 5] in
  let handshake_writes :=
    if eight_bit h0 then
      bus_write h0 8 function_set ++ nap ++
      bus_write h0 8 function_set ++ nap ++
      bus_write h0 8 function_set ++ nap
    else
      bus_write h0 4 0x3 ++ nap ++ bus_write h0 4 0x3 ++ nap ++
      bus_write h0 4 0x3 ++ nap ++ bus_write h0 4 0x2 ++ nap in
  (forall h' tr clk',
      _lcd_setup sample patience h cols rows charsize clk = Done h' tr clk' ->
      exists cmds,
        tr = handshake_writes ++ cmds /\
        script_trace h0
          [(false, function_set); (false, 0x0C); (false, 0x06)] cmds) /\
  (responsive sample patience h0 ->
   exists h' tr clk',
     _lcd_setup sample patience h cols rows charsize clk = Done h' tr clk') /\
  (forall blk rs rw enable d0 d1 d2 d3 d4 d5 d6 d7 eightbitmode r tr clk',
      h = init_handle blk rs rw enable d0 d1 d2 d3 d4 d5 d6 d7 eightbitmode ->
      _lcd_init sample patience (Some blk) cols rows charsize rs rw enable
        d0 d1 d2 d3 d4 d5 d6 d7 eightbitmode clk = Done r tr clk' ->
      eight_bit h0 = eightbitmode /\
      function_set
      = Z.lor (Z.lor (Z.lor LCD_FUNCTIONSET
                        (if eightbitmode then LCD_8BITMODE else LCD_4BITMODE))
                     (if rows >? 1 then LCD_2LINE else LCD_1LINE))
              (if negb (charsize =? LCD_5x8DOTS) && (rows =? 1)
               then LCD_5x10DOTS else LCD_5x8DOTS) /\
      exists cmds rest,
        tr = SleepMs 50 :: init_pins_trace h ++ handshake_writes ++ cmds ++ rest /\
        script_trace h0
          [(false, function_set); (false, 0x0C); (false, 0x06)] cmds).
Proof.
  cbv zeta. split; [|split].
  - intros h' tr clk' Run. apply setup_shape in Run as (_ & cmds & E & Hc).
    exists cmds. split; [exact E | exact Hc].
  - apply setup_ends.
  - intros blk rs rw enable d0 d1 d2 d3 d4 d5 d6 d7 mode r tr clk' -> Run.
    destruct (init_mode blk cols rows charsize rs rw enable
                d0 d1 d2 d3 d4 d5 d6 d7 mode) as (Hm & Hf).
    split; [exact Hm|]. split; [exact Hf|].
    apply init_shape in Run as (_ & cmds & rest & E & Hc).
    exists cmds, rest. split; [exact E | exact Hc].
Qed.

End Init.

Lemma setup_handshake_then_commands_witness :
  (exists h' tr clk' cmds,
      _lcd_setup Examples.idle 1 Examples.lcd4 16 2 0 0%nat = Done h' tr clk' /\
      tr = (bus_write Examples.lcd4 4 0x3 ++ [SleepMs 5] ++
            bus_write Examples.lcd4 4 0x3 ++ [SleepMs 5] ++
            bus_write Examples.lcd4 4 0x3 ++ [SleepMs 5] ++
            bus_write Examples.lcd4 4 0x2 ++ [SleepMs 5]) ++ cmds /\
      script_trace Examples.lcd4 [(false, 0x28); (false, 0x0C); (false, 0x06)]
        cmds) /\
  (let h1 := init_handle Examples.fresh 10 255 8 0 1 2 3 4 5 6 7 true in
   let h0 := setup_geometry h1 16 2 0 in
   exists res tr clk' cmds rest,
     lcd_init_8bit Examples.idle 0 (Some Examples.fresh) 16 2 0
       10 255 8 0 1 2 3 4 5 6 7 0%nat = Done res tr clk' /\
     tr = SleepMs 50 :: init_pins_trace h1 ++
          (bus_write h0 8 0x38 ++ [SleepMs 5] ++
           bus_write h0 8 0x38 ++ [SleepMs 5] ++
           bus_write h0 8 0x38 ++ [SleepMs 5]) ++ cmds ++ rest /\
     script_trace h0 [(false, 0x38); (false, 0x0C); (false, 0x06)] cmds).
Proof.
  split.
  - destruct (setup_handshake_then_commands Examples.idle 1 Examples.lcd4
                16 2 0 0%nat) as (Hshape & Hends & _).
    destruct Hends as (h' & tr & clk' & Run).
    { intros _ clk. exists 0%nat. split; [lia | reflexivity]. }
    destruct (Hshape h' tr clk' Run) as (cmds & Htr & Hcmds).
    exists h', tr, clk', cmds. split; [exact Run|]. split; [exact Htr|].
    exact Hcmds.
  - cbv zeta.
    destruct (setup_handshake_then_commands Examples.idle 0
                (init_handle Examples.fresh 10 255 8 0 1 2 3 4 5 6 7 true)
                16 2 0 0%nat) as (_ & _ & Hinit).
    edestruct (Hinit Examples.fresh 10 255 8 0 1 2 3 4 5 6 7 true)
      as (_ & _ & cmds & rest & Htr & Hcmds).
    { reflexivity. }
    { vm_compute. reflexivity. }
    do 3 eexists. exists cmds, rest.
    split; [vm_compute; reflexivity|]. split; [exact Htr | exact Hcmds].
Defined.

(** ** Cursor addressing *)

Lemma is_u8_to_u8 (z : Z) : is_u8 (to_u8 z).
Proof. unfold is_u8, to_u8. apply Z.mod_pos_bound. lia. Qed.

Lemma is_u8_lor (a b : Z) : is_u8 a -> is_u8 b -> is_u8 (Z.lor a b).
Proof.
  unfold is_u8. intros Ha Hb.
  assert (Hnn : 0 <= Z.lor a b) by (apply Z.lor_nonneg; lia).
  split; [exact Hnn|].
  destruct (Z.eq_dec (Z.lor a b) 0) as [->|Hne]; [lia|].
  change 256 with (2 ^ 8). apply Z.log2_lt_pow2; [lia|].
  rewrite Z.log2_lor by lia.
  assert (Hlog : forall x, 0 <= x < 256 -> Z.log2 x < 8).
  { intros x Hx. destruct (Z.eq_dec x 0) as [->|]; [reflexivity|].
    apply Z.log2_lt_pow2; lia. }
  specialize (Hlog a Ha) as Hla. specialize (Hlog b Hb) as Hlb. lia.
Qed.

Lemma clamped_row_min (h : LCD_Handle) (row : Z) :
  0 <= row -> 1 <= _numlines h ->
  clamped_row h row = Z.min row (Z.min 3 (_numlines h - 1)).
Proof.
  intros Hrow Hlines. unfold clamped_row, max_lines, to_u8.
  rewrite !Z.geb_leb.
  destruct (Z.leb_spec 4 row) as [Hbig|Hsmall].
  - change ((4 - 1) `mod` 256) with 3.
    destruct (Z.leb_spec (_numlines h) 3); [rewrite Z.mod_small|]; lia.
  - destruct (Z.leb_spec (_numlines h) row); [rewrite Z.mod_small|]; lia.
Qed.

Lemma clamped_row_no_lines (h : LCD_Handle) (row : Z) :
  0 <= row -> _numlines h = 0 -> clamped_row h row = 255.
Proof.
  intros Hrow Hlines. unfold clamped_row, max_lines, to_u8.
  rewrite Hlines, !Z.geb_leb.
  destruct (Z.leb_spec 4 row) as [Hbig|Hsmall].
  - reflexivity.
  - destruct (Z.leb_spec 0 row); [reflexivity | lia].
Qed.

Lemma setup_row_offsets (h : LCD_Handle) (cols rows charsize : Z) :
  length (_row_offsets h) = 4%nat ->
  _row_offsets (setup_geometry h cols rows charsize)
  = [0x00; 0x40; to_u8 (0x00 + cols); to_u8 (0x40 + cols)].
Proof.
  intros Hlen. destruct (_row_offsets h) as [|a [|b [|c [|d [|e l]]]]] eqn:E;
    try discriminate.
  unfold setup_geometry.
  destruct (rows >? 1), (negb (charsize =? LCD_5x8DOTS) && (rows =? 1));
    cbn [_row_offsets set_row_offsets set_displayfunction set_numlines];
    rewrite E; reflexivity.
Qed.

Lemma setup_numlines (h : LCD_Handle) (cols rows charsize : Z) :
  _numlines (setup_geometry h cols rows charsize) = rows.
Proof.
  unfold setup_geometry.
  destruct (rows >? 1), (negb (charsize =? LCD_5x8DOTS) && (rows =? 1));
    reflexivity.
Qed.

Section Cursor.
Variable sample : nat -> Z -> bool.
Variable patience : nat.

Lemma set_cursor_shape (h : LCD_Handle) (col row off : Z) clk res tr clk' :
  _row_offsets h !! Z.to_nat (clamped_row h row) = Some off ->
  lcd_set_cursor sample patience (Some h) col row clk = Done res tr clk' ->
  res = Some h /\
  send_trace h false (to_u8 (Z.lor LCD_SETDDRAMADDR (col + off))) tr.
Proof.
  unfold lcd_set_cursor. intros -> Run.
  apply bind_inv in Run as ([] & cmd & clk1 & tr1 & Cmd & Run & ->).
  cbv [ret] in Run. injection Run as <- <- <-.
  rewrite app_nil_r. split; [reflexivity|].
  eapply send_command_shape. exact Cmd.
Qed.

Lemma set_cursor_ends (h : LCD_Handle) (col row off : Z) clk :
  _row_offsets h !! Z.to_nat (clamped_row h row) = Some off ->
  responsive sample patience h ->
  exists tr clk',
    lcd_set_cursor sample patience (Some h) col row clk = Done (Some h) tr clk'.
Proof.
  unfold lcd_set_cursor. intros -> Hr.
  destruct (send_command_ends sample patience h
              (to_u8 (Z.lor LCD_SETDDRAMADDR (col + off))) clk Hr)
    as (tr & clk' & E).
  unfold bind, ret. rewrite E. eauto.
Qed.

Lemma busy_total (h : LCD_Handle) clk :
  exists b tr clk', _lcd_busy sample h clk = Done b tr clk'.
Proof.
  destruct (rw_wired h) eqn:Hw.
  - destruct (busy_wired sample h clk Hw) as (v & E). eauto.
  - unfold _lcd_busy, _lcd_read_command, _lcd_read_8_bits, _lcd_read_4_bits.
    rewrite Hw. destruct (eight_bit h); cbv [negb bind gpio_put emit ret]; eauto.
Qed.

Lemma spin_defined (h : LCD_Handle) (fuel : nat) clk :
  spin_while_busy sample fuel h clk <> Undef.
Proof.
  revert clk. induction fuel as [|fuel IH]; intros clk; [discriminate|].
  cbn [spin_while_busy]. unfold bind at 1.
  destruct (busy_total h clk) as (b & tr & clk1 & ->).
  destruct b; [|discriminate].
  unfold bind, sleep_us, emit. specialize (IH clk1).
  destruct (spin_while_busy sample fuel h clk1); congruence.
Qed.

Lemma send_command_defined (h : LCD_Handle) (c : Z) clk :
  _lcd_send_command sample patience h c clk <> Undef.
Proof.
  unfold _lcd_send_command. unfold bind at 1.
  assert (Hwait : (if rw_wired h then spin_while_busy sample patience h
                   else ret tt) clk <> Undef).
  { destruct (rw_wired h); [apply spin_defined | discriminate]. }
  destruct ((if rw_wired h then spin_while_busy sample patience h
             else ret tt) clk) as [[] w clk1| |];
    [|discriminate|congruence].
  unfold bind, gpio_put, emit.
  destruct (eight_bit h);
    rewrite ?write_8_bits_trace, ?write_4_bits_trace; discriminate.
Qed.

Lemma set_cursor_defined (h : LCD_Handle) (col row off : Z) clk :
  _row_offsets h !! Z.to_nat (clamped_row h row) = Some off ->
  lcd_set_cursor sample patience (Some h) col row clk <> Undef.
Proof.
  unfold lcd_set_cursor. intros ->. unfold bind, ret.
  pose proof (send_command_defined h
                (to_u8 (Z.lor LCD_SETDDRAMADDR (col + off))) clk) as Hd.
  destruct (_lcd_send_command sample patience h _ clk); congruence.
Qed.

Lemma set_cursor_undefined (h : LCD_Handle) (col row : Z) clk :
  _row_offsets h !! Z.to_nat (clamped_row h row) = None ->
  lcd_set_cursor sample patience (Some h) col row clk = Undef.
Proof. unfold lcd_set_cursor. intros ->. reflexivity. Qed.

(** C4 (as the code has it).  On a handle with at least one line the
    row is clamped in two steps, first to the table ([row >= 4] becomes
    3) and then to the line count (a result of at least [_numlines]
    becomes [_numlines - 1]); the index used is the least of [row], 3 and
    [_numlines - 1].  That clamped row, not the argument, selects the
    entry of the row-offset table, and the call reports nothing: it is
    defined, and returns the handle whenever the controller responds. *)
Theorem set_cursor_row_clamp (h : LCD_Handle) (col row : Z) (clk : nat) :
  is_u8 row -> 1 <= _numlines h -> length (_row_offsets h) = 4%nat ->
  let r := Z.min row (Z.min 3 (_numlines h - 1)) in
  clamped_row h row = r /\
  (_numlines h <= 4 -> row >= _numlines h -> r = _numlines h - 1) /\
  (4 <= _numlines h -> row >= max_lines -> r = 3) /\
  exists offset,
    _row_offsets h !! Z.to_nat r = Some offset /\
    (forall res tr clk',
        lcd_set_cursor sample patience (Some h) col row clk = Done res tr clk' ->
        res = Some h /\
        send_trace h false (to_u8 (Z.lor LCD_SETDDRAMADDR (col + offset))) tr) /\
    lcd_set_cursor sample patience (Some h) col row clk <> Undef /\
    (responsive sample patience h ->
     exists tr clk',
       lcd_set_cursor sample patience (Some h) col row clk
       = Done (Some h) tr clk').
Proof.
  intros Hrow Hlines Hlen. cbv zeta.
  pose proof (clamped_row_min h row ltac:(unfold is_u8 in Hrow; lia) Hlines)
    as Hclamp.
  split; [exact Hclamp|].
  split; [unfold max_lines; lia|]. split; [unfold max_lines; lia|].
  destruct (lookup_lt_is_Some_2 (_row_offsets h)
              (Z.to_nat (Z.min row (Z.min 3 (_numlines h - 1)))))
    as (offset & Hoff).
  { unfold is_u8 in Hrow. lia. }
  exists offset. split; [exact Hoff|].
  rewrite <- Hclamp in Hoff.
  split; [|split].
  - intros res tr clk' Run. eapply set_cursor_shape; eauto.
  - eapply set_cursor_defined; eauto.
  - intros Hr. eapply set_cursor_ends; eauto.
Qed.

(** C5.  After initialisation with [cols] columns the row-offset table
    holds 0x00, 0x40, [cols] and [0x40 + cols] as [uint8_t] values, that
    is [(0x40 + cols) mod 256] in the last entry: the table is
    0x00, 0x40, [0x00 + cols], [0x40 + cols] exactly when [cols < 192].
    On a handle with at least one line [lcd_set_cursor(col, row)] sends,
    as a command, the byte [0x80 | (col + offset)] for the offset stored
    at index [min(row, 3, numlines - 1)]; the byte is the value itself
    when [col + offset] is below 256.  For [cols = 16], [rows = 2] the
    table is 0x00, 0x40, 0x10, 0x50 and [lcd_set_cursor(0, 1)] sends
    0xC0. *)
Theorem row_offsets_and_cursor_command :
  (forall blk cols rows charsize rs rw enable d0 d1 d2 d3 d4 d5 d6 d7
          eightbitmode clk res tr clk',
      is_u8 cols -> length (_row_offsets blk) = 4%nat ->
      _lcd_init sample patience (Some blk) cols rows charsize rs rw enable
        d0 d1 d2 d3 d4 d5 d6 d7 eightbitmode clk = Done res tr clk' ->
      exists h,
        res = Some h /\ _numlines h = rows /\
        _row_offsets h = [0x00; 0x40; cols; (0x40 + cols) mod 256] /\
        (_row_offsets h = [0x00; 0x40; 0x00 + cols; 0x40 + cols]
         <-> cols < 192)) /\
  (forall blk cols rows charsize rs rw enable d0 d1 d2 d3 d4 d5 d6 d7
          eightbitmode clk,
      responsive sample patience
        (setup_geometry
           (init_handle blk rs rw enable d0 d1 d2 d3 d4 d5 d6 d7 eightbitmode)
           cols rows charsize) ->
      exists h tr clk',
        _lcd_init sample patience (Some blk) cols rows charsize rs rw enable
          d0 d1 d2 d3 d4 d5 d6 d7 eightbitmode clk = Done (Some h) tr clk') /\
  (forall h col row offset clk,
      0 <= row -> 1 <= _numlines h ->
      _row_offsets h !! Z.to_nat (Z.min row (Z.min 3 (_numlines h - 1)))
      = Some offset ->
      (forall res tr clk',
          lcd_set_cursor sample patience (Some h) col row clk
          = Done res tr clk' ->
          res = Some h /\
          send_trace h false (Z.lor 0x80 (col + offset) mod 256) tr /\
          (0 <= col + offset < 256 ->
           send_trace h false (Z.lor 0x80 (col + offset)) tr)) /\
      (responsive sample patience h ->
       exists tr clk',
         lcd_set_cursor sample patience (Some h) col row clk
         = Done (Some h) tr clk')) /\
  (forall blk charsize rs rw enable d4 d5 d6 d7 clk res tr clk',
      length (_row_offsets blk) = 4%nat ->
      lcd_init_4bit sample patience (Some blk) 16 2 charsize rs rw enable
        d4 d5 d6 d7 clk = Done res tr clk' ->
      exists h,
        res = Some h /\
        _row_offsets h = [0x00; 0x40; 0x10; 0x50] /\
        forall clk2 res2 tr2 clk2',
          lcd_set_cursor sample patience (Some h) 0 1 clk2
          = Done res2 tr2 clk2' ->
          send_trace h false 0xC0 tr2).
Proof.
  split; [|split; [|split]].
  2: { intros blk cols rows charsize rs rw enable d0 d1 d2 d3 d4 d5 d6 d7
              mode clk Hr. apply init_ends. exact Hr. }
  - intros blk cols rows charsize rs rw enable d0 d1 d2 d3 d4 d5 d6 d7
           mode clk res tr clk' Hcols Hlen Run.
    apply init_shape in Run as (-> & _).
    eexists. split; [reflexivity|].
    cbn [_numlines _row_offsets set_displaymode set_displaycontrol].
    rewrite setup_numlines, setup_row_offsets
      by (destruct mode; exact Hlen).
    unfold is_u8 in Hcols. unfold to_u8.
    rewrite (Z.mod_small (0 + cols)) by lia.
    split; [reflexivity|]. split; [reflexivity|].
    split.
    + intros Heq. injection Heq as Hlast.
      destruct (Z.lt_ge_cases cols 192) as [Hlt|Hge]; [exact Hlt|].
      exfalso. pose proof (Z.mod_pos_bound (64 + cols) 256 ltac:(lia)). lia.
    + intros Hsmall. rewrite Z.mod_small by lia. reflexivity.
  - intros h col row offset clk Hrow Hlines Hoff.
    rewrite <- (clamped_row_min h row Hrow Hlines) in Hoff. split.
    + intros res tr clk' Run.
      destruct (set_cursor_shape h col row offset clk res tr clk' Hoff Run)
        as (Hres & Hsend).
      split; [exact Hres|]. split; [exact Hsend|].
      intros Hsum. unfold to_u8 in Hsend.
      rewrite Z.mod_small in Hsend; [exact Hsend|].
      apply (is_u8_lor 0x80 (col + offset)); unfold is_u8; lia.
    + intros Hr. eapply set_cursor_ends; eauto.
  - intros blk charsize rs rw enable d4 d5 d6 d7 clk res tr clk' Hlen Run.
    unfold lcd_init_4bit in Run.
    apply init_shape in Run as (-> & _).
    eexists. split; [reflexivity|].
    match goal with
    | |- _row_offsets ?h = _ /\ _ =>
        assert (Hoffs : _row_offsets h = [0x00; 0x40; 0x10; 0x50]);
        [|assert (Hlines : _numlines h = 2)]
    end.
    { cbn [_row_offsets set_displaymode set_displaycontrol].
      rewrite setup_row_offsets by exact Hlen. reflexivity. }
    { cbn [_numlines set_displaymode set_displaycontrol].
      apply setup_numlines. }
    split; [exact Hoffs|].
    intros clk2 res2 tr2 clk2' Run.
    eapply (set_cursor_shape _ 0 1 0x40) in Run as (_ & Hsend);
      [exact Hsend|].
    unfold clamped_row. rewrite Hlines, Hoffs. reflexivity.
Qed.

(** C10.  On a handle with at least one line the index into the
    four-entry row-offset table is between 0 and 3, whatever the
    arguments.  The hypothesis cannot be dropped: [_lcd_setup] stores its
    [rows] argument as it comes, and with [_numlines = 0] the second clamp
    computes [0 - 1] as a [uint8_t], so the index is 255 and the read is
    outside the array. *)
Theorem row_index_in_bounds (h : LCD_Handle) (col row : Z) (clk : nat) :
  is_u8 row ->
  (1 <= _numlines h ->
   0 <= clamped_row h row <= 3 /\
   (length (_row_offsets h) = 4%nat ->
    is_Some (_row_offsets h !! Z.to_nat (clamped_row h row)) /\
    lcd_set_cursor sample patience (Some h) col row clk <> Undef)) /\
  (_numlines h = 0 ->
   clamped_row h row = 255 /\
   (length (_row_offsets h) = 4%nat ->
    _row_offsets h !! Z.to_nat (clamped_row h row) = None /\
    lcd_set_cursor sample patience (Some h) col row clk = Undef)) /\
  (forall h0 cols rows charsize clk0 h' tr clk',
      _lcd_setup sample patience h0 cols rows charsize clk0 = Done h' tr clk' ->
      _numlines h' = rows).
Proof.
  intros Hrow. unfold is_u8 in Hrow. split; [|split].
  - intros Hlines.
    rewrite (clamped_row_min h row) by lia.
    split; [lia|]. intros Hlen.
    destruct (lookup_lt_is_Some_2 (_row_offsets h)
                (Z.to_nat (Z.min row (Z.min 3 (_numlines h - 1)))))
      as (offset & Hoff); [lia|].
    split; [eauto|].
    eapply set_cursor_defined. rewrite clamped_row_min by lia. exact Hoff.
  - intros Hlines.
    rewrite (clamped_row_no_lines h row) by lia.
    split; [reflexivity|]. intros Hlen.
    assert (Hnone : _row_offsets h !! Z.to_nat 255 = None).
    { apply lookup_ge_None_2. lia. }
    split; [exact Hnone|].
    apply set_cursor_undefined. rewrite clamped_row_no_lines by lia.
    exact Hnone.
  - intros h0 cols rows charsize clk0 h' tr clk' Run.
    apply setup_shape in Run as (-> & _).
    cbn [_numlines set_displaymode set_displaycontrol].
    apply setup_numlines.
Qed.

End Cursor.

(** On the 16x2 display a row beyond the table ends at index 1, not at
    index 3: [lcd_set_cursor(0, 7)] sends 0xC0 (offset 0x40, the entry of
    row 1) and not 0xD0 (offset 0x50, the entry of row 3). *)
Lemma set_cursor_row_7_on_two_lines :
  7 >= max_lines /\
  clamped_row Examples.lcd8 7 = 1 /\
  clamped_row Examples.lcd8 7 <> 3 /\
  _row_offsets Examples.lcd8 !! 1%nat = Some 0x40 /\
  _row_offsets Examples.lcd8 !! 3%nat = Some 0x50 /\
  lcd_set_cursor Examples.idle 1 (Some Examples.lcd8) 0 7 0%nat
  = Done (Some Examples.lcd8)
      (GpioPut 10 false :: byte_write Examples.lcd8 (Z.lor 0x80 0x40)) 0%nat /\
  lcd_set_cursor Examples.idle 1 (Some Examples.lcd8) 0 7 0%nat
  <> Done (Some Examples.lcd8)
       (GpioPut 10 false :: byte_write Examples.lcd8 (Z.lor 0x80 0x50)) 0%nat.
Proof.
  split; [unfold max_lines; lia|].
  split; [reflexivity|]. split; [discriminate|].
  split; [reflexivity|]. split; [reflexivity|].
  split; [reflexivity|]. vm_compute. discriminate.
Qed.

Lemma set_cursor_row_clamp_witness :
  clamped_row Examples.lcd4 7 = 1 /\
  exists tr clk',
    lcd_set_cursor Examples.idle 1 (Some Examples.lcd4) 3 7 0%nat
    = Done (Some Examples.lcd4) tr clk' /\
    send_trace Examples.lcd4 false 0xC3 tr.
Proof.
  destruct (set_cursor_row_clamp Examples.idle 1 Examples.lcd4 3 7 0%nat)
    as (Hclamp & _ & _ & offset & Hoff & Hshape & _ & Hends).
  { unfold is_u8. lia. }
  { cbn. lia. }
  { reflexivity. }
  split; [exact Hclamp|].
  destruct Hends as (tr & clk' & Run).
  { intros _ clk. exists 0%nat. split; [lia | reflexivity]. }
  exists tr, clk'. split; [exact Run|].
  destruct (Hshape _ _ _ Run) as (_ & Hsend).
  injection Hoff as <-. exact Hsend.
Defined.

(** With 200 columns the sum [0x40 + cols] does not fit the [uint8_t]
    entry: the table ends in 0x08, not in 0x108. *)
Lemma row_offsets_wrap_at_200_columns :
  exists h tr clk',
    lcd_init_8bit Examples.idle 0 (Some Examples.fresh) 200 2 0
      10 255 8 0 1 2 3 4 5 6 7 0%nat = Done (Some h) tr clk' /\
    _row_offsets h = [0x00; 0x40; 0xC8; 0x08] /\
    _row_offsets h <> [0x00; 0x40; 0x00 + 200; 0x40 + 200].
Proof.
  do 3 eexists. split; [vm_compute; reflexivity|].
  split; [reflexivity|]. cbn [_row_offsets]. discriminate.
Qed.

Lemma row_offsets_and_cursor_command_witness :
  (exists h tr clk',
      lcd_init_8bit Examples.idle 1 (Some Examples.fresh) 20 4 0
        10 9 8 0 1 2 3 4 5 6 7 0%nat = Done (Some h) tr clk' /\
      _row_offsets h = [0x00; 0x40; 0x14; 0x54]) /\
  (exists h tr clk',
      lcd_init_4bit Examples.idle 1 (Some Examples.fresh) 16 2 0 6 5 4 0 1 2 3
        0%nat = Done (Some h) tr clk' /\
      _row_offsets h = [0x00; 0x40; 0x10; 0x50] /\
      exists tr2 clk2',
        lcd_set_cursor Examples.idle 1 (Some h) 0 1 clk'
        = Done (Some h) tr2 clk2' /\
        send_trace h false 0xC0 tr2) /\
  (exists tr clk',
      lcd_set_cursor Examples.idle 1 (Some Examples.lcd4) 3 7 0%nat
      = Done (Some Examples.lcd4) tr clk' /\
      send_trace Examples.lcd4 false 0xC3 tr).
Proof.
  destruct (row_offsets_and_cursor_command Examples.idle 1)
    as (Htable & Hinit & Hcursor & Hscenario).
  split; [|split].
  - edestruct (Hinit Examples.fresh 20 4 0 10 9 8 0 1 2 3 4 5 6 7 true 0%nat)
      as (h & tr & clk' & Run).
    { intros _ clk. exists 0%nat. split; [lia | reflexivity]. }
    edestruct (Htable Examples.fresh 20 4 0 10 9 8 0 1 2 3 4 5 6 7 true 0%nat)
      as (h' & Hres & _ & _ & Hoffs).
    { unfold is_u8. lia. }
    { reflexivity. }
    { exact Run. }
    injection Hres as <-.
    exists h, tr, clk'. split; [exact Run|]. apply Hoffs. lia.
  - edestruct (Hscenario Examples.fresh 0 6 5 4 0 1 2 3 0%nat)
      as (h & Hres & Hoffs & Hsend).
    { reflexivity. }
    { vm_compute. reflexivity. }
    injection Hres as <-.
    do 3 eexists. split; [vm_compute; reflexivity|].
    split; [reflexivity|].
    edestruct (Hcursor Examples.lcd4 0 1 0x40 40%nat) as (Hshape & Hends).
    { lia. }
    { cbn. lia. }
    { reflexivity. }
    destruct Hends as (tr2 & clk2' & Run).
    { intros _ clk. exists 0%nat. split; [lia | reflexivity]. }
    exists tr2, clk2'. split; [exact Run|].
    destruct (Hshape _ _ _ Run) as (_ & _ & Hs). apply Hs. lia.
  - edestruct (Hcursor Examples.lcd4 3 7 0x40 0%nat) as (Hshape & Hends).
    { lia. }
    { cbn. lia. }
    { reflexivity. }
    destruct Hends as (tr & clk' & Run).
    { intros _ clk. exists 0%nat. split; [lia | reflexivity]. }
    exists tr, clk'. split; [exact Run|].
    destruct (Hshape _ _ _ Run) as (_ & _ & Hs). apply Hs. lia.
Defined.

Lemma row_index_in_bounds_witness :
  0 <= clamped_row Examples.lcd4 200 <= 3 /\
  clamped_row Examples.lcd_no_lines 0 = 255 /\
  lcd_set_cursor Examples.idle 1 (Some Examples.lcd_no_lines) 0 0 0%nat = Undef.
Proof.
  split.
  - destruct (row_index_in_bounds Examples.idle 1 Examples.lcd4 0 200 0%nat)
      as (Hin & _).
    { unfold is_u8. lia. }
    destruct Hin as (Hbound & _); [cbn; lia | exact Hbound].
  - destruct (row_index_in_bounds Examples.idle 1 Examples.lcd_no_lines
                0 0 0%nat) as (_ & Hout & _).
    { unfold is_u8. lia. }
    destruct (Hout eq_refl) as (Hidx & Hread).
    split; [exact Hidx|]. destruct (Hread eq_refl) as (_ & Hundef).
    exact Hundef.
Defined.

(** ** The cached flag bytes *)

Lemma u8_high_bits (x i : Z) : is_u8 x -> 8 <= i -> Z.testbit x i = false.
Proof.
  unfold is_u8. intros Hx Hi.
  rewrite <- (Z.mod_small x (2 ^ 8)) by (change (2 ^ 8) with 256; lia).
  apply Z.mod_pow2_bits_high. lia.
Qed.

Lemma to_u8_bits (x i : Z) :
  0 <= i -> Z.testbit (to_u8 x) i = (i <? 8) && Z.testbit x i.
Proof.
  intros Hi. unfold to_u8. change 256 with (2 ^ 8).
  destruct (Z.ltb_spec i 8).
  - rewrite Z.mod_pow2_bits_low by lia. reflexivity.
  - rewrite Z.mod_pow2_bits_high by lia. reflexivity.
Qed.

Lemma set_flag_bits (old k i : Z) :
  is_u8 old -> 0 <= k < 8 -> 0 <= i ->
  Z.testbit (to_u8 (Z.lor old (2 ^ k))) i
  = if i =? k then true else Z.testbit old i.
Proof.
  intros Hold Hk Hi. rewrite to_u8_bits, Z.lor_spec, Z.pow2_bits_eqb by lia.
  rewrite (Z.eqb_sym k i).
  destruct (Z.eqb_spec i k) as [->|Hne].
  - rewrite orb_true_r, andb_true_r. apply Z.ltb_lt. lia.
  - rewrite orb_false_r. destruct (Z.ltb_spec i 8); [reflexivity|].
    rewrite u8_high_bits by assumption. reflexivity.
Qed.

Lemma clear_flag_bits (old k i : Z) :
  is_u8 old -> 0 <= k < 8 -> 0 <= i ->
  Z.testbit (to_u8 (Z.land old (Z.lnot (2 ^ k)))) i
  = if i =? k then false else Z.testbit old i.
Proof.
  intros Hold Hk Hi.
  rewrite to_u8_bits, Z.land_spec, Z.lnot_spec, Z.pow2_bits_eqb by lia.
  rewrite (Z.eqb_sym k i).
  destruct (Z.eqb_spec i k) as [->|Hne].
  - rewrite !andb_false_r. reflexivity.
  - cbn [negb]. rewrite andb_true_r. destruct (Z.ltb_spec i 8); [reflexivity|].
    rewrite u8_high_bits by assumption. reflexivity.
Qed.

Lemma flag_is_bit (t : toggle) : toggle_flag t = 2 ^ toggle_bit t.
Proof. destruct t; reflexivity. Qed.

Lemma toggle_bit_range (t : toggle) : 0 <= toggle_bit t < 8.
Proof. destruct t; cbn; lia. Qed.

Lemma toggle_opcode_u8 (t : toggle) : is_u8 (toggle_opcode t).
Proof. destruct t; cbv; split; congruence. Qed.

(** The byte a toggle stores: the C assignment [|=] or [&= ~]. *)
Lemma toggled_bits (t : toggle) (old i : Z) :
  is_u8 old -> 0 <= i ->
  Z.testbit (if toggle_sets t
             then to_u8 (Z.lor old (toggle_flag t))
             else to_u8 (Z.land old (Z.lnot (toggle_flag t)))) i
  = if i =? toggle_bit t then toggle_sets t else Z.testbit old i.
Proof.
  intros Hold Hi. rewrite flag_is_bit.
  pose proof (toggle_bit_range t) as Hk.
  destruct (toggle_sets t).
  - apply set_flag_bits; assumption.
  - apply clear_flag_bits; assumption.
Qed.

Section Toggles.
Variable sample : nat -> Z -> bool.
Variable patience : nat.

(** Every toggle is: store the new byte, send opcode | byte. *)
Lemma run_toggle_unfold (t : toggle) (h : LCD_Handle) :
  run_toggle sample patience t (Some h)
  = let flags :=
      if toggle_sets t
      then to_u8 (Z.lor (cached (toggle_byte t) h) (toggle_flag t))
      else to_u8 (Z.land (cached (toggle_byte t) h) (Z.lnot (toggle_flag t))) in
    let h' := with_cached (toggle_byte t) flags h in
    bind (_lcd_send_command sample patience h'
            (to_u8 (Z.lor (toggle_opcode t) flags)))
         (fun _ => ret (Some h')).
Proof. destruct t; reflexivity. Qed.

Lemma same_bus_with_cached (b : flag_byte) (v : Z) (h : LCD_Handle) :
  same_bus (with_cached b v h) h.
Proof. destruct b; repeat split. Qed.

(** C6.  Each of the ten flag toggles, on a non-null handle, stores a
    flag byte that is the cached byte with the one target bit set or
    cleared and every other bit as before, and sends exactly one command:
    the opcode or-ed with that whole byte.  Nothing else in the handle
    changes. *)
Theorem toggle_sends_full_flag_byte (t : toggle) (h : LCD_Handle) (clk : nat) :
  is_u8 (cached (toggle_byte t) h) ->
  (forall res tr clk',
      run_toggle sample patience t (Some h) clk = Done res tr clk' ->
      exists flags,
        res = Some (with_cached (toggle_byte t) flags h) /\
        is_u8 flags /\
        (forall i, 0 <= i ->
           Z.testbit flags i
           = if i =? toggle_bit t then toggle_sets t
             else Z.testbit (cached (toggle_byte t) h) i) /\
        send_trace h false (Z.lor (toggle_opcode t) flags) tr) /\
  (responsive sample patience h ->
   exists res tr clk',
     run_toggle sample patience t (Some h) clk = Done res tr clk').
Proof.
  intros Hold. rewrite run_toggle_unfold. cbv zeta.
  set (flags := if toggle_sets t then _ else _).
  assert (Hflags : is_u8 flags).
  { unfold flags. destruct (toggle_sets t); apply is_u8_to_u8. }
  split.
  - intros res tr clk' Run.
    apply bind_inv in Run as ([] & cmd & clk1 & tr1 & Cmd & Run & ->).
    cbv [ret] in Run. injection Run as <- <- <-.
    exists flags. split; [reflexivity|]. split; [exact Hflags|].
    split; [intros i Hi; apply toggled_bits; assumption|].
    rewrite app_nil_r. apply send_command_shape in Cmd.
    apply (same_bus_send _ h) in Cmd; [|apply same_bus_with_cached].
    unfold to_u8 in Cmd. rewrite Z.mod_small in Cmd; [exact Cmd|].
    apply is_u8_lor; [apply toggle_opcode_u8 | exact Hflags].
  - intros Hr.
    destruct (send_command_ends sample patience
                (with_cached (toggle_byte t) flags h)
                (to_u8 (Z.lor (toggle_opcode t) flags)) clk) as (tr & clk' & E).
    { destruct (toggle_byte t); exact Hr. }
    unfold bind, ret. rewrite E. eauto.
Qed.

End Toggles.

Lemma toggle_sends_full_flag_byte_witness :
  exists tr clk',
    lcd_cursor_on Examples.idle 1 (Some Examples.lcd8) 0%nat
    = Done (Some (set_displaycontrol 0x06 Examples.lcd8)) tr clk' /\
    send_trace Examples.lcd8 false 0x0E tr.
Proof.
  destruct (toggle_sends_full_flag_byte Examples.idle 1 CursorOn
              Examples.lcd8 0%nat) as (Hshape & _).
  { unfold is_u8. cbn. lia. }
  edestruct Hshape as (flags & Hres & _ & _ & Hsend).
  { vm_compute. reflexivity. }
  injection Hres as Hflags.
  do 2 eexists. split; [vm_compute; reflexivity|].
  cbn in Hflags. rewrite <- Hflags in Hsend. exact Hsend.
Defined.

(** ** Custom characters *)

Lemma script_app (h : LCD_Handle) ops1 tr1 ops2 tr2 :
  script_trace h ops1 tr1 -> script_trace h ops2 tr2 ->
  script_trace h (ops1 ++ ops2) (tr1 ++ tr2).
Proof.
  induction 1 as [|rs b ops tr rest Hsend _ IH]; intros H2; [exact H2|].
  cbn [app]. rewrite <- app_assoc. apply script_cons; auto.
Qed.

Lemma for_each_script (h : LCD_Handle) {A} (xs : list A) (body : A -> M unit)
    (f : A -> list (bool * Z)) :
  (forall x clk tr clk',
      x ∈ xs -> body x clk = Done tt tr clk' -> script_trace h (f x) tr) ->
  forall clk tr clk',
    for_each xs body clk = Done tt tr clk' ->
    script_trace h (flat_map f xs) tr.
Proof.
  induction xs as [|x xs IH]; intros Hbody clk tr clk' Run.
  - cbv [for_each ret] in Run. injection Run as <- <-. apply script_nil.
  - cbn [for_each] in Run.
    apply bind_inv in Run as ([] & t1 & clk1 & t2 & Hx & Hrest & ->).
    cbn [flat_map]. apply script_app.
    + eapply Hbody; [apply list_elem_of_here | exact Hx].
    + eapply IH; [|exact Hrest].
      intros y c t c' Hy. apply Hbody. apply list_elem_of_further. exact Hy.
Qed.

Lemma for_each_ends {A} (xs : list A) (body : A -> M unit) :
  (forall x clk, x ∈ xs -> exists tr clk', body x clk = Done tt tr clk') ->
  forall clk, exists tr clk', for_each xs body clk = Done tt tr clk'.
Proof.
  induction xs as [|x xs IH]; intros Hbody clk.
  - cbv [for_each ret]. eauto.
  - cbn [for_each].
    destruct (Hbody x clk) as (t1 & clk1 & E1); [apply list_elem_of_here|].
    destruct (IH (fun y c Hy => Hbody y c (list_elem_of_further _ _ _ Hy)) clk1)
      as (t2 & clk2 & E2).
    unfold bind. rewrite E1, E2. eauto.
Qed.

Lemma cgram_address (num : Z) (i : nat) :
  0 <= num <= 7 -> (i < 8)%nat ->
  to_u8 (Z.lor LCD_SETCGRAMADDR
           (to_u8 (Z.shiftl (Z.land num 0x7) 3) + Z.of_nat i))
  = Z.lor LCD_SETCGRAMADDR (8 * num + Z.of_nat i) /\
  Z.lor LCD_SETCGRAMADDR (8 * num + Z.of_nat i) = 0x40 + 8 * num + Z.of_nat i.
Proof.
  intros Hnum Hi.
  assert (Hn : num ∈ [0; 1; 2; 3; 4; 5; 6; 7]) by (rewrite !elem_of_cons; lia).
  rewrite !elem_of_cons, elem_of_nil in Hn.
  do 8 (destruct i as [|i]; [
    repeat (destruct Hn as [->|Hn]); try contradiction; split; reflexivity|]).
  lia.
Qed.

Lemma restore_address (v : Z) :
  to_u8 (Z.lor LCD_SETDDRAMADDR (to_u8 (Z.land v 0x7F)))
  = Z.lor LCD_SETDDRAMADDR (Z.land v 0x7F).
Proof.
  assert (Hlow : 0 <= Z.land v 0x7F < 128).
  { change 0x7F with (Z.ones 7). rewrite Z.land_ones by lia.
    apply Z.mod_pos_bound. lia. }
  unfold to_u8 at 2. rewrite (Z.mod_small (Z.land v 0x7F)) by lia.
  unfold to_u8. apply Z.mod_small.
  apply is_u8_lor; unfold is_u8, LCD_SETDDRAMADDR; lia.
Qed.

Section CustomChar.
Variable sample : nat -> Z -> bool.
Variable patience : nat.

Lemma cgram_loop_shape (h : LCD_Handle) (num : Z) (data : list Z) clk tr clk' :
  0 <= num <= 7 -> length data = 8%nat ->
  for_each (seq 0 8) (fun i =>
    _lcd_send_command sample patience h
      (to_u8 (Z.lor LCD_SETCGRAMADDR
                (to_u8 (Z.shiftl (Z.land num 0x7) 3) + Z.of_nat i))) ;;
    match data !! i with
    | Some d => _lcd_send_data sample patience h d
    | None => undef
    end) clk = Done tt tr clk' ->
  script_trace h (cgram_script num data) tr.
Proof.
  intros Hnum Hlen Run.
  eapply (for_each_script h _ _
            (fun i => [(false, Z.lor LCD_SETCGRAMADDR (8 * num + Z.of_nat i));
                       (true, default 0 (data !! i))])) in Run.
  - destruct data as [|p0 [|p1 [|p2 [|p3 [|p4 [|p5 [|p6 [|p7 [|p8 l]]]]]]]]];
      try discriminate.
    exact Run.
  - intros i c t c' Hi Body.
    apply elem_of_seq in Hi.
    destruct (cgram_address num i Hnum ltac:(lia)) as (Haddr & _).
    rewrite Haddr in Body.
    apply bind_inv in Body as ([] & t1 & c1 & t2 & Cmd & Dat & ->).
    destruct (data !! i) as [d|] eqn:Hd; [|discriminate].
    apply send_command_shape in Cmd. apply send_data_shape in Dat.
    rewrite <- (app_nil_r t2).
    apply script_cons; [exact Cmd|].
    apply script_cons; [exact Dat | apply script_nil].
Qed.

Lemma cgram_loop_ends (h : LCD_Handle) (num : Z) (data : list Z) clk :
  length data = 8%nat -> responsive sample patience h ->
  exists tr clk',
    for_each (seq 0 8) (fun i =>
      _lcd_send_command sample patience h
        (to_u8 (Z.lor LCD_SETCGRAMADDR
                  (to_u8 (Z.shiftl (Z.land num 0x7) 3) + Z.of_nat i))) ;;
      match data !! i with
      | Some d => _lcd_send_data sample patience h d
      | None => undef
      end) clk = Done tt tr clk'.
Proof.
  intros Hlen Hr. apply for_each_ends. intros i c Hi.
  apply elem_of_seq in Hi.
  destruct (lookup_lt_is_Some_2 data i ltac:(lia)) as (d & ->).
  destruct (send_command_ends sample patience h
              (to_u8 (Z.lor LCD_SETCGRAMADDR
                        (to_u8 (Z.shiftl (Z.land num 0x7) 3) + Z.of_nat i)))
              c Hr) as (t1 & c1 & E1).
  destruct (send_data_ends sample patience h d c1 Hr) as (t2 & c2 & E2).
  unfold bind. rewrite E1, E2. eauto.
Qed.

(** X19.  For a character index from 0 to 7 and an 8-byte pattern,
    [lcd_create_char] sends, for each pattern byte in turn, the
    set-CGRAM-address command for the addresses [8 * num], ...,
    [8 * num + 7] and then the byte as data: eight bytes, eight
    consecutive addresses.  With R/W wired this is preceded by one read of
    the command register and followed by one set-DDRAM-address command
    carrying the 7-bit address that read returned; without R/W nothing is
    read and no set-DDRAM-address command follows. *)
Theorem create_char_writes_and_restores (h : LCD_Handle) (num : Z)
    (data : list Z) (clk : nat) :
  0 <= num <= 7 -> length data = 8%nat ->
  (forall i, (i < 8)%nat ->
     Z.lor LCD_SETCGRAMADDR (8 * num + Z.of_nat i) = 0x40 + 8 * num + Z.of_nat i) /\
  (rw_wired h = true ->
   forall res tr clk',
     lcd_create_char sample patience (Some h) num data clk = Done res tr clk' ->
     res = Some h /\
     exists v body restore,
       tr = poll h v ++ body ++ restore /\
       script_trace h (cgram_script num data) body /\
       send_trace h false (Z.lor LCD_SETDDRAMADDR (Z.land v 0x7F)) restore) /\
  (rw_wired h = false ->
   forall res tr clk',
     lcd_create_char sample patience (Some h) num data clk = Done res tr clk' ->
     res = Some h /\ script_trace h (cgram_script num data) tr) /\
  (responsive sample patience h ->
   exists tr clk',
     lcd_create_char sample patience (Some h) num data clk
     = Done (Some h) tr clk').
Proof.
  intros Hnum Hlen. split; [|split; [|split]].
  - intros i Hi. apply (cgram_address num i Hnum Hi).
  - intros Hw res tr clk' Run. unfold lcd_create_char in Run. rewrite Hw in Run.
    apply bind_inv in Run as (addr & rd & clk1 & tr1 & Read & Run & ->).
    apply bind_inv in Read as (v & rd' & clk0 & nil' & Read & Ret & ->).
    destruct (read_command_wired sample h clk Hw) as (v' & Ev & _).
    rewrite Ev in Read. injection Read as <- <- <-.
    cbv [ret] in Ret. injection Ret as <- <- <-.
    apply bind_inv in Run as ([] & body & clk2 & tr2 & Loop & Run & ->).
    apply bind_inv in Run as ([] & restore & clk3 & tr3 & Restore & Run & ->).
    cbv [ret] in Run. injection Run as <- <- <-.
    split; [reflexivity|].
    exists v', body, restore. rewrite !app_nil_r. split; [reflexivity|].
    split.
    + eapply cgram_loop_shape; eauto.
    + apply send_command_shape in Restore.
      rewrite restore_address in Restore. exact Restore.
  - intros Hw res tr clk' Run. unfold lcd_create_char in Run. rewrite Hw in Run.
    apply bind_inv in Run as (addr & rd & clk1 & tr1 & Read & Run & ->).
    cbv [ret] in Read. injection Read as <- <- <-.
    apply bind_inv in Run as ([] & body & clk2 & tr2 & Loop & Run & ->).
    cbv [bind ret] in Run. injection Run as <- <- <-.
    split; [reflexivity|]. rewrite app_nil_r. cbn [app].
    eapply cgram_loop_shape; eauto.
  - intros Hr. unfold lcd_create_char.
    assert (Hread : exists addr rd clk1,
               (if rw_wired h
                then bind (_lcd_read_command sample h)
                       (fun c => ret (to_u8 (Z.land c 0x7F)))
                else ret 0) clk = Done addr rd clk1).
    { destruct (rw_wired h) eqn:Hw; [|cbv [ret]; eauto].
      destruct (read_command_wired sample h clk Hw) as (v & Ev & _).
      unfold bind, ret. rewrite Ev. eauto. }
    destruct Hread as (addr & rd & clk1 & Eread).
    unfold bind at 1. rewrite Eread.
    destruct (cgram_loop_ends h num data clk1 Hlen Hr) as (body & clk2 & Eloop).
    unfold bind at 1. rewrite Eloop.
    assert (Hrestore : exists tr clk3,
               (if rw_wired h
                then _lcd_send_command sample patience h
                       (to_u8 (Z.lor LCD_SETDDRAMADDR addr))
                else ret tt) clk2 = Done tt tr clk3).
    { destruct (rw_wired h); [|cbv [ret]; eauto].
      apply send_command_ends. exact Hr. }
    destruct Hrestore as (restore & clk3 & Erestore).
    unfold bind. rewrite Erestore. cbv [ret]. eauto.
Qed.

End CustomChar.

Lemma create_char_writes_and_restores_witness :
  (exists tr clk' v body restore,
      lcd_create_char Examples.idle 1 (Some Examples.lcd4) 1 Examples.smiley
        0%nat = Done (Some Examples.lcd4) tr clk' /\
      tr = poll Examples.lcd4 v ++ body ++ restore /\
      script_trace Examples.lcd4 (cgram_script 1 Examples.smiley) body /\
      send_trace Examples.lcd4 false (Z.lor 0x80 (Z.land v 0x7F)) restore) /\
  (exists tr clk',
      lcd_create_char Examples.idle 1 (Some Examples.lcd8) 1 Examples.smiley
        0%nat = Done (Some Examples.lcd8) tr clk' /\
      script_trace Examples.lcd8 (cgram_script 1 Examples.smiley) tr).
Proof.
  split.
  - destruct (create_char_writes_and_restores Examples.idle 1 Examples.lcd4 1
                Examples.smiley 0%nat) as (_ & Hwired & _ & Hends);
      [lia | reflexivity |].
    destruct Hends as (tr & clk' & Run).
    { intros _ clk. exists 0%nat. split; [lia | reflexivity]. }
    destruct (Hwired eq_refl _ _ _ Run) as (_ & v & body & restore & Htr & Hb & Hr).
    exists tr, clk', v, body, restore. auto.
  - destruct (create_char_writes_and_restores Examples.idle 1 Examples.lcd8 1
                Examples.smiley 0%nat) as (_ & _ & Hunwired & Hends);
      [lia | reflexivity |].
    destruct Hends as (tr & clk' & Run).
    { intros Hw. discriminate Hw. }
    destruct (Hunwired eq_refl _ _ _ Run) as (_ & Hs).
    exists tr, clk'. auto.
Defined.

(** ** The README set-ups, run *)

(** [Examples.lcd4] is the handle [lcd_init_4bit] returns for the wiring of
    the README's 4-bit example. *)
Example lcd4_is_initialised :
  exists tr clk,
    lcd_init_4bit Examples.idle 1 (Some Examples.fresh) 16 2 LCD_5x8DOTS
      6 5 4 0 1 2 3 0%nat = Done (Some Examples.lcd4) tr clk.
Proof. do 2 eexists. vm_compute. reflexivity. Qed.

(** [Examples.lcd8] likewise, for the 8-bit example with R/W grounded;
    nothing is sampled during the whole initialisation. *)
Example lcd8_is_initialised :
  exists tr,
    lcd_init_8bit Examples.idle 0 (Some Examples.fresh) 16 2 LCD_5x8DOTS
      10 255 8 0 1 2 3 4 5 6 7 0%nat = Done (Some Examples.lcd8) tr 0%nat.
Proof. eexists. vm_compute. reflexivity. Qed.

(** When [malloc] fails nothing happens at all. *)
Example init_without_memory :
  lcd_init_4bit Examples.idle 1 None 16 2 LCD_5x8DOTS 6 5 4 0 1 2 3 0%nat
  = Done None [] 0%nat.
Proof. reflexivity. Qed.

(** A controller that stays busy for two polls: the third poll lets the
    command through; with a budget of two polls the model gives up. *)
Example send_after_two_busy_polls :
  _lcd_send_command Examples.busy_twice 3 Examples.lcd4 0x01 0%nat
  = Done tt
      (busy_polls Examples.lcd4 [0x88; 0x88] ++ poll Examples.lcd4 0x00 ++
       GpioPut 6 false :: byte_write Examples.lcd4 0x01) 24%nat /\
  _lcd_send_command Examples.busy_twice 2 Examples.lcd4 0x01 0%nat = Hang.
Proof. split; vm_compute; reflexivity. Qed.

(** Teardown of the 8-bit display: clear, home, display off, then the
    pins are released and the handle freed. *)
Example deinit_lcd8 :
  lcd_deinit Examples.idle 0 (Some Examples.lcd8) 0%nat
  = Done None
      ((GpioPut 10 false :: byte_write Examples.lcd8 0x01) ++ [SleepMs 5] ++
       (GpioPut 10 false :: byte_write Examples.lcd8 0x02) ++ [SleepMs 5] ++
       (GpioPut 10 false :: byte_write Examples.lcd8 0x08) ++
       [GpioSetFunctionMasked 0xFF; GpioSetFunction 10; GpioSetFunction 8;
        Free]) 0%nat.
Proof. vm_compute. reflexivity. Qed.

(** [lcd_write_string_at(handle, "Hi", 3, 1)]: one set-DDRAM-address
    command, then the two characters as data. *)
Example write_hi_at_3_1 :
  lcd_write_string_at Examples.idle 0 (Some Examples.lcd8) [72; 105] 3 1 0%nat
  = Done (Some Examples.lcd8)
      ((GpioPut 10 false :: byte_write Examples.lcd8 0xC3) ++
       (GpioPut 10 true :: byte_write Examples.lcd8 72) ++
       (GpioPut 10 true :: byte_write Examples.lcd8 105)) 0%nat.
Proof. vm_compute. reflexivity. Qed.

(** ** Sessions: what every sequence of calls keeps *)

Lemma frame_refl (h : LCD_Handle) : frame h h.
Proof. repeat split. Qed.

Lemma frame_trans (h1 h2 h3 : LCD_Handle) :
  frame h1 h2 -> frame h2 h3 -> frame h1 h3.
Proof. unfold frame. intuition congruence. Qed.

Lemma frame_sym (h1 h2 : LCD_Handle) : frame h1 h2 -> frame h2 h1.
Proof. unfold frame. intuition congruence. Qed.

Lemma frame_with_cached (b : flag_byte) (v : Z) (h : LCD_Handle) :
  frame h (with_cached b v h).
Proof. destruct b; repeat split. Qed.

Lemma frame_same_bus (h h' : LCD_Handle) : frame h h' -> same_bus h h'.
Proof.
  intros (Ers & Erw & Een & Epins & Emask & Edf & _).
  unfold same_bus, eight_bit. rewrite Edf. repeat split; assumption.
Qed.

Lemma frame_wired (h h' : LCD_Handle) :
  frame h h' -> rw_wired h = rw_wired h'.
Proof. intros (_ & Erw & _). unfold rw_wired. rewrite Erw. reflexivity. Qed.

Lemma bus_trace_frame (h h' : LCD_Handle) tr :
  frame h h' -> bus_trace h tr -> bus_trace h' tr.
Proof.
  intros Hf. induction 1 as [|rs b tr rest Hs _ IH|rest _ IH|v rest Hw _ IH].
  - apply bus_idle.
  - eapply bus_send; [|exact IH].
    eapply same_bus_send; [apply frame_same_bus; exact Hf | exact Hs].
  - apply bus_pause. exact IH.
  - rewrite (same_bus_poll h h') by (apply frame_same_bus; exact Hf).
    apply bus_status; [|exact IH]. rewrite <- (frame_wired h h' Hf). exact Hw.
Qed.

Lemma bus_trace_app (h : LCD_Handle) tr1 tr2 :
  bus_trace h tr1 -> bus_trace h tr2 -> bus_trace h (tr1 ++ tr2).
Proof.
  induction 1 as [|rs b tr rest Hs _ IH|rest _ IH|v rest Hw _ IH]; intros H2.
  - exact H2.
  - rewrite <- app_assoc. eapply bus_send; eauto.
  - cbn [app]. apply bus_pause. auto.
  - rewrite <- app_assoc. apply bus_status; auto.
Qed.

Lemma script_is_bus_trace (h : LCD_Handle) ops tr :
  script_trace h ops tr -> bus_trace h tr.
Proof.
  induction 1 as [|rs b ops tr rest Hs _ IH]; [apply bus_idle|].
  eapply bus_send; eassumption.
Qed.

Lemma deinit_pins_trace_ok (h : LCD_Handle) clk :
  _lcd_deinit_pins h clk = Done tt (deinit_pins_trace h) clk.
Proof.
  unfold _lcd_deinit_pins, deinit_pins_trace.
  destruct (rw_wired h); reflexivity.
Qed.

Lemma deinit_pins_trace_frame (h h' : LCD_Handle) :
  frame h h' -> deinit_pins_trace h = deinit_pins_trace h'.
Proof.
  intros Hf. unfold deinit_pins_trace. rewrite (frame_wired h h' Hf).
  destruct Hf as (-> & -> & -> & _ & -> & _). reflexivity.
Qed.

Section SessionFacts.
Variable sample : nat -> Z -> bool.
Variable patience : nat.

Lemma frame_busy (h h' : LCD_Handle) clk :
  frame h h' -> _lcd_busy sample h clk = _lcd_busy sample h' clk.
Proof.
  destruct h, h'. unfold frame. cbn [_rs_pin _rw_pin _enable_pin _data_pins
    _data_pins_mask _displayfunction _numlines _row_offsets].
  intros (-> & -> & -> & -> & -> & -> & -> & ->). reflexivity.
Qed.

Lemma frame_spin (h h' : LCD_Handle) (fuel : nat) clk :
  frame h h' ->
  spin_while_busy sample fuel h clk = spin_while_busy sample fuel h' clk.
Proof.
  intros Hf. revert clk. induction fuel as [|fuel IH]; intros clk;
    [reflexivity|].
  cbn [spin_while_busy]. unfold bind at 1 3. rewrite (frame_busy h h' clk Hf).
  destruct (_lcd_busy sample h' clk) as [[] tr clk1| |]; try reflexivity.
  unfold bind, sleep_us, emit. rewrite IH. reflexivity.
Qed.

Lemma frame_send_command (h h' : LCD_Handle) (c : Z) clk :
  frame h h' ->
  _lcd_send_command sample patience h c clk
  = _lcd_send_command sample patience h' c clk.
Proof.
  intros Hf. pose proof (frame_same_bus h h' Hf) as Hb.
  assert (Hwait : (if rw_wired h then spin_while_busy sample patience h
                   else ret tt) clk
                  = (if rw_wired h' then spin_while_busy sample patience h'
                     else ret tt) clk).
  { rewrite <- (frame_wired h h' Hf).
    destruct (rw_wired h); [apply frame_spin; exact Hf | reflexivity]. }
  unfold _lcd_send_command, bind, gpio_put, emit. rewrite Hwait.
  destruct ((if rw_wired h' then spin_while_busy sample patience h'
             else ret tt) clk) as [[] w clk1| |]; try reflexivity.
  destruct Hb as (Ers & _ & _ & _ & _ & Emode). rewrite <- Emode, <- Ers.
  destruct (eight_bit h);
    rewrite !write_8_bits_trace || rewrite !write_4_bits_trace;
    rewrite !(same_bus_write h h') by (apply frame_same_bus; exact Hf);
    reflexivity.
Qed.

Lemma frame_responsive (h h' : LCD_Handle) :
  frame h h' ->
  responsive sample patience h -> responsive sample patience h'.
Proof.
  intros Hf Hr Hw clk. rewrite <- (frame_wired h h' Hf) in Hw.
  destruct (Hr Hw clk) as (k & Hk & Hfree). exists k. split; [exact Hk|].
  unfold busy_at in *. rewrite <- (frame_busy h h' _ Hf). exact Hfree.
Qed.

(** *** The rules of [behaves] *)

Lemma behaves_ret {A} (h : LCD_Handle) (Q : A -> Prop) (D : Prop) (a : A) :
  Q a -> behaves sample patience h Q D (ret a).
Proof. intros Hq clk. cbv [ret]. split; [exact Hq|]. split; [apply bus_idle|auto]. Qed.

Lemma behaves_bind {A B} (h : LCD_Handle) (Q1 : A -> Prop) (Q : B -> Prop)
    (D : Prop) (m : M A) (k : A -> M B) :
  behaves sample patience h Q1 D m ->
  (forall a, Q1 a -> behaves sample patience h Q D (k a)) ->
  behaves sample patience h Q D (bind m k).
Proof.
  intros Hm Hk clk. unfold bind. specialize (Hm clk).
  destruct (m clk) as [a tr1 clk1| |]; [|exact Hm|exact Hm].
  destruct Hm as (Hq & Ht1 & Hc1). specialize (Hk a Hq clk1).
  destruct (k a clk1) as [b tr2 clk2| |]; [|exact Hk|exact Hk].
  destruct Hk as (Hq2 & Ht2 & Hc2). split; [exact Hq2|]. split.
  - apply bus_trace_app; assumption.
  - intros Hw. rewrite (Hc2 Hw). apply Hc1. exact Hw.
Qed.

Lemma behaves_weaken {A} (h : LCD_Handle) (Q Q' : A -> Prop) (D D' : Prop)
    (m : M A) :
  (forall a, Q a -> Q' a) -> (D' -> D) ->
  behaves sample patience h Q D m -> behaves sample patience h Q' D' m.
Proof.
  intros HQ HD Hm clk. specialize (Hm clk).
  destruct (m clk) as [a tr clk'| |]; [|exact Hm|tauto].
  destruct Hm as (Hq & Ht & Hc). auto.
Qed.

Lemma behaves_sleep_ms (h : LCD_Handle) (D : Prop) :
  behaves sample patience h (fun _ => True) D (sleep_ms 5).
Proof.
  intros clk. cbv [sleep_ms emit]. split; [exact I|].
  split; [apply bus_pause, bus_idle | auto].
Qed.

Lemma send_command_hang (h : LCD_Handle) (c : Z) clk :
  _lcd_send_command sample patience h c clk = Hang ->
  rw_wired h = true /\ ~ responsive sample patience h.
Proof.
  intros E. split.
  - destruct (rw_wired h) eqn:Hw; [reflexivity|].
    rewrite send_command_unwired in E by exact Hw. discriminate.
  - intros Hr. destruct (send_command_ends sample patience h c clk Hr)
      as (tr & clk' & E'). congruence.
Qed.

Lemma send_data_hang (h : LCD_Handle) (d : Z) clk :
  _lcd_send_data sample patience h d clk = Hang ->
  rw_wired h = true /\ ~ responsive sample patience h.
Proof.
  intros E. split.
  - destruct (rw_wired h) eqn:Hw; [reflexivity|].
    rewrite send_data_unwired in E by exact Hw. discriminate.
  - intros Hr. destruct (send_data_ends sample patience h d clk Hr)
      as (tr & clk' & E'). congruence.
Qed.

Lemma send_data_defined (h : LCD_Handle) (d : Z) clk :
  _lcd_send_data sample patience h d clk <> Undef.
Proof.
  unfold _lcd_send_data. unfold bind at 1.
  assert (Hwait : (if rw_wired h then spin_while_busy sample patience h
                   else ret tt) clk <> Undef).
  { destruct (rw_wired h); [apply spin_defined | discriminate]. }
  destruct ((if rw_wired h then spin_while_busy sample patience h
             else ret tt) clk) as [[] w clk1| |];
    [|discriminate|congruence].
  unfold bind, gpio_put, emit.
  destruct (eight_bit h);
    rewrite ?write_8_bits_trace, ?write_4_bits_trace; discriminate.
Qed.

Lemma behaves_send_command (h : LCD_Handle) (D : Prop) (c : Z) :
  behaves sample patience h (fun _ => True) D
    (_lcd_send_command sample patience h c).
Proof.
  intros clk.
  destruct (_lcd_send_command sample patience h c clk) as [[] tr clk'| |] eqn:E.
  - split; [exact I|]. split.
    + rewrite <- (app_nil_r tr). eapply bus_send; [|apply bus_idle].
      eapply send_command_shape. exact E.
    + intros Hw. rewrite send_command_unwired in E by exact Hw. congruence.
  - eapply send_command_hang. exact E.
  - exfalso. eapply send_command_defined. exact E.
Qed.

Lemma behaves_send_data (h : LCD_Handle) (D : Prop) (d : Z) :
  behaves sample patience h (fun _ => True) D
    (_lcd_send_data sample patience h d).
Proof.
  intros clk.
  destruct (_lcd_send_data sample patience h d clk) as [[] tr clk'| |] eqn:E.
  - split; [exact I|]. split.
    + rewrite <- (app_nil_r tr). eapply bus_send; [|apply bus_idle].
      eapply send_data_shape. exact E.
    + intros Hw. rewrite send_data_unwired in E by exact Hw. congruence.
  - eapply send_data_hang. exact E.
  - exfalso. eapply send_data_defined. exact E.
Qed.

Lemma behaves_for_each {A} (h : LCD_Handle) (D : Prop) (xs : list A)
    (body : A -> M unit) :
  (forall x, x ∈ xs -> behaves sample patience h (fun _ => True) D (body x)) ->
  behaves sample patience h (fun _ => True) D (for_each xs body).
Proof.
  induction xs as [|x xs IH]; intros Hbody.
  - apply behaves_ret. exact I.
  - cbn [for_each]. eapply behaves_bind.
    + apply Hbody. apply list_elem_of_here.
    + intros _ _. apply IH. intros y Hy. apply Hbody.
      apply list_elem_of_further. exact Hy.
Qed.

Lemma behaves_frame {A} (h h' : LCD_Handle) (Q : A -> Prop) (D : Prop)
    (m : M A) :
  frame h h' ->
  behaves sample patience h' Q D m -> behaves sample patience h Q D m.
Proof.
  intros Hf Hm clk. specialize (Hm clk).
  destruct (m clk) as [a tr clk'| |]; [| |exact Hm].
  - destruct Hm as (Hq & Ht & Hc). split; [exact Hq|]. split.
    + eapply bus_trace_frame; [apply frame_sym; exact Hf | exact Ht].
    + rewrite (frame_wired h h' Hf). exact Hc.
  - destruct Hm as (Hw & Hn). split.
    + rewrite (frame_wired h h' Hf). exact Hw.
    + intros Hr. apply Hn. eapply frame_responsive; eauto.
Qed.

Lemma behaves_read_command (h : LCD_Handle) (D : Prop) :
  rw_wired h = true ->
  behaves sample patience h (fun _ => True) D (_lcd_read_command sample h).
Proof.
  intros Hw clk. destruct (read_command_wired sample h clk Hw) as (v & -> & _).
  split; [exact I|]. split.
  - rewrite <- (app_nil_r (poll h v)). apply bus_status; [exact Hw|apply bus_idle].
  - intros Hw'. congruence.
Qed.

Lemma call_defined_frame (h h' : LCD_Handle) (c : call) :
  frame h h' -> call_defined h c -> call_defined h' c.
Proof.
  intros (_ & _ & _ & _ & _ & _ & Hn & _). destruct c; cbn; rewrite <- ?Hn; auto.
Qed.

Lemma row_lookup_defined (h : LCD_Handle) (row : Z) :
  length (_row_offsets h) = 4%nat -> is_u8 row -> 1 <= _numlines h ->
  is_Some (_row_offsets h !! Z.to_nat (clamped_row h row)).
Proof.
  intros Hlen Hrow Hlines. unfold is_u8 in Hrow.
  apply lookup_lt_is_Some_2. rewrite clamped_row_min by lia. lia.
Qed.

(** The value a call on a non-null handle returns: the same handle up to
    the cached flag bytes, which stay in [uint8_t] range. *)
Lemma behaves_set_cursor (h : LCD_Handle) (col row : Z) :
  length (_row_offsets h) = 4%nat ->
  behaves sample patience h (fun res => res = Some h)
    (is_u8 row /\ 1 <= _numlines h)
    (lcd_set_cursor sample patience (Some h) col row).
Proof.
  intros Hlen. unfold lcd_set_cursor.
  destruct (_row_offsets h !! Z.to_nat (clamped_row h row)) as [off|] eqn:E.
  - eapply behaves_bind; [apply behaves_send_command|].
    intros _ _. apply behaves_ret. reflexivity.
  - intros clk. cbv [undef]. intros (Hrow & Hlines).
    destruct (row_lookup_defined h row Hlen Hrow Hlines) as (off & Hoff).
    congruence.
Qed.

Lemma behaves_write_char (h : LCD_Handle) (D : Prop) (symbol : Z) :
  behaves sample patience h (fun res => res = Some h) D
    (lcd_write_char sample patience (Some h) symbol).
Proof.
  unfold lcd_write_char.
  eapply behaves_bind; [apply behaves_send_data|].
  intros _ _. apply behaves_ret. reflexivity.
Qed.

Lemma behaves_write_string (h : LCD_Handle) (D : Prop) (text : list Z) :
  behaves sample patience h (fun res => res = Some h) D
    (lcd_write_string sample patience (Some h) text).
Proof.
  unfold lcd_write_string.
  eapply behaves_bind.
  - apply behaves_for_each. intros c _.
    eapply behaves_bind; [apply behaves_write_char|].
    intros _ _. apply behaves_ret. exact I.
  - intros _ _. apply behaves_ret. reflexivity.
Qed.

Lemma behaves_create_char (h : LCD_Handle) (num : Z) (data : list Z) :
  behaves sample patience h (fun res => res = Some h)
    (8 <= length data)%nat
    (lcd_create_char sample patience (Some h) num data).
Proof.
  unfold lcd_create_char.
  eapply behaves_bind with (Q1 := fun _ => True).
  { destruct (rw_wired h) eqn:Hw.
    - eapply behaves_bind; [apply behaves_read_command; exact Hw|].
      intros v _. apply behaves_ret. exact I.
    - apply behaves_ret. exact I. }
  intros addr _.
  eapply behaves_bind with (Q1 := fun _ => True).
  { apply behaves_for_each. intros i Hi. apply elem_of_seq in Hi.
    eapply behaves_bind; [apply behaves_send_command|].
    intros _ _. destruct (data !! i) as [d|] eqn:Hd.
    - apply behaves_send_data.
    - intros clk. cbv [undef]. intros Hlen.
      apply lookup_ge_None_1 in Hd. lia. }
  intros _ _.
  eapply behaves_bind with (Q1 := fun _ => True).
  { destruct (rw_wired h); [apply behaves_send_command|].
    apply behaves_ret. exact I. }
  intros _ _. apply behaves_ret. reflexivity.
Qed.

Lemma behaves_call (h : LCD_Handle) (c : call) :
  length (_row_offsets h) = 4%nat -> is_deinit c = false ->
  behaves sample patience h
    (fun res => exists h', res = Some h' /\ frame h h' /\
                           (is_u8 (_displaycontrol h) ->
                            is_u8 (_displaycontrol h')) /\
                           (is_u8 (_displaymode h) -> is_u8 (_displaymode h')))
    (call_defined h c)
    (run_call sample patience c (Some h)).
Proof.
  intros Hlen Hlive.
  assert (Hsame : forall res : option LCD_Handle,
             res = Some h ->
             exists h', res = Some h' /\ frame h h' /\
                        (is_u8 (_displaycontrol h) ->
                         is_u8 (_displaycontrol h')) /\
                        (is_u8 (_displaymode h) -> is_u8 (_displaymode h'))).
  { intros res ->. exists h. split; [reflexivity|].
    split; [apply frame_refl|]. auto. }
  destruct c as [| |t| | |col row|symbol|text|symbol col row|text col row
                |num data|]; [..|discriminate]; cbn [run_call call_defined].
  - unfold lcd_clear.
    eapply behaves_bind; [apply behaves_send_command|]. intros _ _.
    eapply behaves_bind; [apply behaves_sleep_ms|]. intros _ _.
    apply behaves_ret. apply Hsame. reflexivity.
  - unfold lcd_home.
    eapply behaves_bind; [apply behaves_send_command|]. intros _ _.
    eapply behaves_bind; [apply behaves_sleep_ms|]. intros _ _.
    apply behaves_ret. apply Hsame. reflexivity.
  - rewrite run_toggle_unfold. cbv zeta.
    set (flags := if toggle_sets t then _ else _).
    assert (Hflags : is_u8 flags).
    { unfold flags. destruct (toggle_sets t); apply is_u8_to_u8. }
    eapply behaves_bind.
    + eapply behaves_frame; [apply frame_with_cached|].
      apply behaves_send_command.
    + intros _ _. apply behaves_ret. eexists. split; [reflexivity|].
      split; [apply frame_with_cached|].
      destruct (toggle_byte t); cbn; auto.
  - unfold lcd_scroll_display_left.
    eapply behaves_bind; [apply behaves_send_command|]. intros _ _.
    apply behaves_ret. apply Hsame. reflexivity.
  - unfold lcd_scroll_display_right.
    eapply behaves_bind; [apply behaves_send_command|]. intros _ _.
    apply behaves_ret. apply Hsame. reflexivity.
  - eapply behaves_weaken; [exact Hsame | |apply behaves_set_cursor; exact Hlen].
    auto.
  - eapply behaves_weaken; [exact Hsame | |apply (behaves_write_char h True)]. auto.
  - eapply behaves_weaken; [exact Hsame | |apply (behaves_write_string h True)]. auto.
  - unfold lcd_write_char_at.
    eapply behaves_bind; [apply behaves_set_cursor; exact Hlen|]. intros _ _.
    eapply behaves_weaken; [exact Hsame | |apply (behaves_write_char h True)].
    auto.
  - unfold lcd_write_string_at.
    eapply behaves_bind; [apply behaves_set_cursor; exact Hlen|]. intros _ _.
    eapply behaves_weaken; [exact Hsame | |apply (behaves_write_string h True)].
    auto.
  - eapply behaves_weaken; [exact Hsame | |apply behaves_create_char]. auto.
Qed.

Lemma run_calls_null (cs : list call) clk :
  run_calls sample patience cs None clk = Done None [] clk.
Proof.
  induction cs as [|c cs IH]; [reflexivity|].
  cbn [run_calls]. unfold bind.
  assert (Hc : run_call sample patience c None clk = Done None [] clk).
  { destruct c as [| |t| | | | | | | | |]; try reflexivity.
    destruct t; reflexivity. }
  rewrite Hc, IH. reflexivity.
Qed.

(** [lcd_deinit] on a live handle: sends and pauses, then the release. *)
Lemma deinit_outcome (h : LCD_Handle) clk :
  length (_row_offsets h) = 4%nat ->
  match lcd_deinit sample patience (Some h) clk with
  | Done res tr clk' =>
      res = None /\
      (exists live, bus_trace h live /\ tr = live ++ release_trace h) /\
      (rw_wired h = false -> clk' = clk)
  | Hang => rw_wired h = true /\ ~ responsive sample patience h
  | Undef => False
  end.
Proof.
  intros Hlen. unfold lcd_deinit.
  pose proof (behaves_call h DoClear Hlen eq_refl clk) as H1.
  cbn [run_call call_defined] in H1. unfold bind at 1.
  destruct (lcd_clear sample patience (Some h) clk) as [r1 t1 c1| |];
    [|exact H1|apply H1; exact I].
  destruct H1 as (_ & Ht1 & Hc1).
  pose proof (behaves_call h DoHome Hlen eq_refl c1) as H2.
  cbn [run_call call_defined] in H2. unfold bind at 1.
  destruct (lcd_home sample patience (Some h) c1) as [r2 t2 c2| |];
    [|exact H2|apply H2; exact I].
  destruct H2 as (_ & Ht2 & Hc2).
  pose proof (behaves_call h (DoToggle DisplayOff) Hlen eq_refl c2) as H3.
  cbn [run_call call_defined run_toggle] in H3. unfold bind at 1.
  destruct (lcd_display_off sample patience (Some h) c2) as [r3 t3 c3| |];
    [|exact H3|apply H3; exact I].
  destruct H3 as ((h3 & -> & Hf & _) & Ht3 & Hc3).
  change (default h (Some h3)) with h3.
  unfold bind, free, emit, ret. rewrite deinit_pins_trace_ok.
  split; [reflexivity|]. split.
  - exists (t1 ++ t2 ++ t3). split.
    + apply bus_trace_app; [exact Ht1|]. apply bus_trace_app; assumption.
    + unfold release_trace.
      rewrite (deinit_pins_trace_frame h h3 Hf), app_nil_r, <- !app_assoc.
      reflexivity.
  - intros Hw. rewrite (Hc3 Hw), (Hc2 Hw). apply Hc1. exact Hw.
Qed.

(** Every session on a live handle: up to its first [lcd_deinit] the
    calls keep the handle's frame and speak through the channel; the
    tear-down adds the release and leaves [NULL], on which the remaining
    calls do nothing. *)
Lemma session_outcome (cs : list call) (h : LCD_Handle) clk :
  length (_row_offsets h) = 4%nat ->
  match run_calls sample patience cs (Some h) clk with
  | Done res tr clk' =>
      (if tears_down cs
       then res = None /\
            exists live, bus_trace h live /\ tr = live ++ release_trace h
       else exists h',
              res = Some h' /\ frame h h' /\
              (is_u8 (_displaycontrol h) -> is_u8 (_displaycontrol h')) /\
              (is_u8 (_displaymode h) -> is_u8 (_displaymode h')) /\
              bus_trace h tr) /\
      (rw_wired h = false -> clk' = clk)
  | Hang => rw_wired h = true /\ ~ responsive sample patience h
  | Undef => ~ Forall (call_defined h) cs
  end.
Proof.
  revert h clk. induction cs as [|c cs IH]; intros h clk Hlen.
  - cbn. split; [|auto]. exists h. split; [reflexivity|].
    split; [apply frame_refl|]. split; [auto|]. split; [auto|apply bus_idle].
  - cbn [run_calls tears_down existsb]. unfold bind.
    destruct (is_deinit c) eqn:Hc.
    + destruct c; try discriminate. cbn [run_call orb].
      pose proof (deinit_outcome h clk Hlen) as Hd.
      destruct (lcd_deinit sample patience (Some h) clk) as [r1 t1 c1| |];
        [|exact Hd|contradiction].
      destruct Hd as (-> & Hlive & Hclk).
      rewrite run_calls_null, app_nil_r. split; [|exact Hclk].
      split; [reflexivity | exact Hlive].
    + cbn [orb]. pose proof (behaves_call h c Hlen Hc clk) as H1.
      destruct (run_call sample patience c (Some h) clk) as [r1 t1 c1| |];
        [|exact H1|].
      2: { intros Hall. apply Forall_cons in Hall as (Hdef & _).
           apply H1. exact Hdef. }
      destruct H1 as ((h1 & -> & Hf & Hdc & Hdm) & Ht1 & Hc1).
      assert (Hlen1 : length (_row_offsets h1) = 4%nat).
      { destruct Hf as (_ & _ & _ & _ & _ & _ & _ & <-). exact Hlen. }
      specialize (IH h1 c1 Hlen1). fold (tears_down cs).
      destruct (run_calls sample patience cs (Some h1) c1) as [r2 t2 c2| |].
      * destruct IH as (Hres & Hc2). split.
        -- destruct (tears_down cs).
           ++ destruct Hres as (-> & live & Hlive & ->).
              split; [reflexivity|]. exists (t1 ++ live). split.
              ** apply bus_trace_app; [exact Ht1|].
                 eapply bus_trace_frame; [apply frame_sym; exact Hf|].
                 exact Hlive.
              ** unfold release_trace.
                 rewrite (deinit_pins_trace_frame h h1 Hf), <- !app_assoc.
                 reflexivity.
           ++ destruct Hres as (h2 & -> & Hf2 & Hdc2 & Hdm2 & Ht2).
              exists h2. split; [reflexivity|].
              split; [eapply frame_trans; eauto|].
              split; [auto|]. split; [auto|].
              apply bus_trace_app; [exact Ht1|].
              eapply bus_trace_frame; [apply frame_sym; exact Hf|]. exact Ht2.
        -- intros Hw. rewrite Hc2 by (rewrite <- (frame_wired h h1 Hf); exact Hw).
           apply Hc1. exact Hw.
      * destruct IH as (Hw & Hn). split.
        -- rewrite (frame_wired h h1 Hf). exact Hw.
        -- intros Hr. apply Hn. eapply frame_responsive; eauto.
      * intros Hall. apply Forall_cons in Hall as (_ & Hrest). apply IH.
        eapply Forall_impl; [exact Hrest|]. intros c'.
        apply call_defined_frame. exact Hf.
Qed.

End SessionFacts.

Lemma bus_write_no_sampling (h : LCD_Handle) width data :
  no_sampling (bus_write h width data) = true.
Proof.
  unfold no_sampling, bus_write. rewrite !forallb_app.
  assert (Hmap : forallb (fun e => negb (is_get e))
                   (map (fun i => GpioPut (data_pin h i)
                                    (Z.testbit data (Z.of_nat i)))
                        (seq 0 width)) = true).
  { apply forallb_forall. intros e He.
    apply in_map_iff in He as (i & <- & _). reflexivity. }
  rewrite Hmap. destruct (rw_wired h); reflexivity.
Qed.

Lemma no_sampling_app (tr1 tr2 : list event) :
  no_sampling (tr1 ++ tr2) = no_sampling tr1 && no_sampling tr2.
Proof. apply forallb_app. Qed.

Lemma byte_write_no_sampling (h : LCD_Handle) b :
  no_sampling (byte_write h b) = true.
Proof.
  unfold byte_write. destruct (eight_bit h);
    rewrite ?no_sampling_app, !bus_write_no_sampling; reflexivity.
Qed.

Lemma unwired_bus_trace_no_sampling (h : LCD_Handle) tr :
  rw_wired h = false -> bus_trace h tr -> no_sampling tr = true.
Proof.
  intros Hw. induction 1 as [|rs b tr rest Hs _ IH|rest _ IH|v rest Hw' _ IH].
  - reflexivity.
  - destruct Hs as (w & Hwait & ->). unfold wait_trace in Hwait.
    rewrite Hw in Hwait. subst w. cbn [app].
    change (GpioPut (_rs_pin h) rs :: byte_write h b ++ rest)
      with ([GpioPut (_rs_pin h) rs] ++ byte_write h b ++ rest).
    rewrite !no_sampling_app, byte_write_no_sampling, IH. reflexivity.
  - exact IH.
  - congruence.
Qed.

Lemma last_put_app (tr1 tr2 : list event) :
  last_put (tr1 ++ tr2)
  = match last_put tr2 with
    | Some p => Some p
    | None => last_put tr1
    end.
Proof.
  unfold last_put. rewrite fold_left_app.
  generalize (fold_left (fun acc e => match e with
                                      | GpioPut pin v => Some (pin, v)
                                      | _ => acc
                                      end) tr1 None) as acc.
  induction tr2 as [|e tr2 IH] using rev_ind; intros acc.
  - reflexivity.
  - rewrite !fold_left_app. cbn [fold_left]. destruct e; try apply IH;
      reflexivity.
Qed.

Lemma last_put_bus_write (h : LCD_Handle) width data :
  last_put (bus_write h width data) = Some (_enable_pin h, false).
Proof.
  unfold bus_write. rewrite !app_assoc. rewrite last_put_app. reflexivity.
Qed.

Lemma last_put_bus_read (h : LCD_Handle) width v :
  last_put (bus_read h width v) = Some (_enable_pin h, false).
Proof.
  unfold bus_read. rewrite !app_assoc. rewrite last_put_app. reflexivity.
Qed.

Lemma last_put_byte_write (h : LCD_Handle) b :
  last_put (byte_write h b) = Some (_enable_pin h, false).
Proof.
  unfold byte_write. destruct (eight_bit h);
    rewrite ?last_put_app, last_put_bus_write; reflexivity.
Qed.

Lemma last_put_poll (h : LCD_Handle) v :
  last_put (poll h v) = Some (_enable_pin h, false).
Proof.
  unfold poll, byte_read.
  change (GpioPut (_rs_pin h) false :: ?l) with ([GpioPut (_rs_pin h) false] ++ l).
  destruct (eight_bit h); rewrite !last_put_app, last_put_bus_read; reflexivity.
Qed.

Lemma last_put_bus_trace (h : LCD_Handle) tr :
  bus_trace h tr ->
  last_put tr = None \/ last_put tr = Some (_enable_pin h, false).
Proof.
  induction 1 as [|rs b tr rest Hs _ IH|rest _ IH|v rest Hw' _ IH].
  - left. reflexivity.
  - rewrite last_put_app. destruct IH as [->| ->]; [|right; reflexivity].
    right. destruct Hs as (w & _ & ->).
    change (GpioPut (_rs_pin h) rs :: byte_write h b)
      with ([GpioPut (_rs_pin h) rs] ++ byte_write h b).
    rewrite !last_put_app, last_put_byte_write. reflexivity.
  - change (SleepMs 5 :: rest) with ([SleepMs 5] ++ rest).
    rewrite last_put_app. destruct IH as [->| ->]; [left|right]; reflexivity.
  - rewrite last_put_app. destruct IH as [->| ->]; [|right; reflexivity].
    right. apply last_put_poll.
Qed.

Lemma release_no_sampling (h : LCD_Handle) :
  no_sampling (release_trace h) = true.
Proof.
  unfold release_trace, deinit_pins_trace. destruct (rw_wired h); reflexivity.
Qed.

Lemma release_no_put (h : LCD_Handle) : last_put (release_trace h) = None.
Proof.
  unfold release_trace, deinit_pins_trace. destruct (rw_wired h); reflexivity.
Qed.

Section SessionTheorems.
Variable sample : nat -> Z -> bool.
Variable patience : nat.

(** X1.  Whatever sequence of calls of the public functions that take a
    handle a client makes on a live handle, two things can have happened
    when it returns.  If the sequence has no [lcd_deinit], the handle has
    the wiring, the bus width, the line count and the row offsets it
    started with: only the two cached flag bytes can differ, and they
    stay in [uint8_t] range; and everything emitted is sends through the
    command/data channel, 5 ms pauses and (with R/W) status reads.  If it
    has one, the result is [NULL] and the trace is such sends, pauses and
    reads followed by exactly one release of the pins and one [free]:
    nothing is emitted after the tear-down. *)
Theorem session_keeps_handle (cs : list call) (h : LCD_Handle) clk res tr clk' :
  length (_row_offsets h) = 4%nat ->
  run_calls sample patience cs (Some h) clk = Done res tr clk' ->
  (tears_down cs = false ->
   exists h',
     res = Some h' /\ frame h h' /\ eight_bit h' = eight_bit h /\
     rw_wired h' = rw_wired h /\
     (is_u8 (_displaycontrol h) -> is_u8 (_displaycontrol h')) /\
     (is_u8 (_displaymode h) -> is_u8 (_displaymode h')) /\
     bus_trace h tr) /\
  (tears_down cs = true ->
   res = None /\
   exists live,
     bus_trace h live /\ tr = live ++ deinit_pins_trace h ++ [Free]).
Proof.
  intros Hlen Run. pose proof (session_outcome sample patience cs h clk Hlen) as Hb.
  rewrite Run in Hb. destruct Hb as (Hres & _). split; intros Ht; rewrite Ht in Hres.
  - destruct Hres as (h' & -> & Hf & Hdc & Hdm & Htr).
    exists h'. split; [reflexivity|]. split; [exact Hf|].
    pose proof (frame_same_bus h h' Hf) as (_ & _ & _ & _ & _ & Hmode).
    split; [congruence|]. split; [symmetry; apply frame_wired; exact Hf|].
    auto.
  - exact Hres.
Qed.

(** X2.  On a handle without R/W no sequence of calls, tear-down
    included, ever waits for the controller: it cannot hang whatever the
    polling budget, it consumes no input sample, and no event of its
    trace samples a pin. *)
Theorem unwired_session_never_waits (cs : list call) (h : LCD_Handle) clk :
  rw_wired h = false -> length (_row_offsets h) = 4%nat ->
  run_calls sample patience cs (Some h) clk <> Hang /\
  forall res tr clk',
    run_calls sample patience cs (Some h) clk = Done res tr clk' ->
    clk' = clk /\ no_sampling tr = true.
Proof.
  intros Hw Hlen.
  pose proof (session_outcome sample patience cs h clk Hlen) as Hb. split.
  - intros E. rewrite E in Hb. destruct Hb as (Hw' & _). congruence.
  - intros res tr clk' E. rewrite E in Hb. destruct Hb as (Hres & Hc).
    split; [apply Hc; exact Hw|].
    destruct (tears_down cs).
    + destruct Hres as (_ & live & Hlive & ->).
      rewrite no_sampling_app, release_no_sampling.
      rewrite (unwired_bus_trace_no_sampling h live Hw Hlive). reflexivity.
    + destruct Hres as (h' & _ & _ & _ & _ & Htr).
      eapply unwired_bus_trace_no_sampling; eauto.
Qed.

(** X3.  When the controller is responsive, every sequence of calls
    returns, tear-down included, provided the rows are passed to a handle
    with at least one line and the patterns have eight bytes. *)
Theorem responsive_session_completes (cs : list call) (h : LCD_Handle) clk :
  responsive sample patience h -> length (_row_offsets h) = 4%nat ->
  Forall (call_defined h) cs ->
  exists res tr clk',
    run_calls sample patience cs (Some h) clk = Done res tr clk' /\
    (res = None <-> tears_down cs = true).
Proof.
  intros Hr Hlen Hall.
  pose proof (session_outcome sample patience cs h clk Hlen) as Hb.
  destruct (run_calls sample patience cs (Some h) clk) as [res tr clk'| |].
  - exists res, tr, clk'. split; [reflexivity|]. destruct Hb as (Hres & _).
    destruct (tears_down cs).
    + destruct Hres as (-> & _). split; reflexivity.
    + destruct Hres as (h' & -> & _). split; discriminate.
  - destruct Hb as (_ & Hn). contradiction.
  - contradiction.
Qed.

(** X4.  After any sequence of calls, tear-down included, the last pin
    the driver wrote, if it wrote any, is Enable, and it wrote it low: no
    call leaves Enable high. *)
Theorem session_leaves_enable_low (cs : list call) (h : LCD_Handle)
    clk res tr clk' :
  length (_row_offsets h) = 4%nat ->
  run_calls sample patience cs (Some h) clk = Done res tr clk' ->
  last_put tr = None \/ last_put tr = Some (_enable_pin h, false).
Proof.
  intros Hlen Run.
  pose proof (session_outcome sample patience cs h clk Hlen) as Hb.
  rewrite Run in Hb. destruct Hb as (Hres & _).
  destruct (tears_down cs).
  - destruct Hres as (_ & live & Hlive & ->).
    rewrite last_put_app, release_no_put.
    apply last_put_bus_trace. exact Hlive.
  - destruct Hres as (h' & _ & _ & _ & _ & Htr).
    apply last_put_bus_trace. exact Htr.
Qed.

End SessionTheorems.

(** ** Text output *)

Section Text.
Variable sample : nat -> Z -> bool.
Variable patience : nat.

Lemma write_char_shape (h : LCD_Handle) (symbol : Z) clk res tr clk' :
  lcd_write_char sample patience (Some h) symbol clk = Done res tr clk' ->
  res = Some h /\ send_trace h true (to_u8 symbol) tr.
Proof.
  unfold lcd_write_char. intros Run.
  apply bind_inv in Run as ([] & dat & clk1 & tr1 & Dat & Run & ->).
  cbv [ret] in Run. injection Run as <- <- <-. rewrite app_nil_r.
  split; [reflexivity|]. eapply send_data_shape. exact Dat.
Qed.

Lemma write_string_shape (h : LCD_Handle) (text : list Z) clk res tr clk' :
  lcd_write_string sample patience (Some h) text clk = Done res tr clk' ->
  res = Some h /\ script_trace h (text_script text) tr.
Proof.
  unfold lcd_write_string. intros Run.
  apply bind_inv in Run as ([] & body & clk1 & tr1 & Loop & Run & ->).
  cbv [ret] in Run. injection Run as <- <- <-. rewrite app_nil_r.
  split; [reflexivity|].
  eapply (for_each_script h _ _ (fun c => [(true, to_u8 c)])) in Loop.
  - unfold text_script.
    replace (map (fun c => (true, to_u8 c)) text)
      with (flat_map (fun c => [(true, to_u8 c)]) text); [exact Loop|].
    clear. induction text as [|c text IH]; [reflexivity|].
    cbn. rewrite IH. reflexivity.
  - intros c clk0 tr0 clk0' _ Body.
    apply bind_inv in Body as (r & t & c1 & t' & Char & Ret & ->).
    cbv [ret] in Ret. injection Ret as <- <-.
    apply write_char_shape in Char as (_ & Hsend).
    rewrite app_nil_r, <- (app_nil_r t).
    apply script_cons; [exact Hsend | apply script_nil].
Qed.

Lemma write_string_ends (h : LCD_Handle) (text : list Z) clk :
  responsive sample patience h ->
  exists tr clk',
    lcd_write_string sample patience (Some h) text clk = Done (Some h) tr clk'.
Proof.
  intros Hr. unfold lcd_write_string.
  destruct (for_each_ends text
              (fun c => bind (lcd_write_char sample patience (Some h) c)
                          (fun _ => ret tt))) with (clk := clk)
    as (tr & clk' & E).
  - intros c clk0 _. unfold lcd_write_char.
    destruct (send_data_ends sample patience h (to_u8 c) clk0 Hr)
      as (t & c1 & Ed).
    unfold bind, ret. rewrite Ed. eauto.
  - unfold bind at 1. rewrite E. cbv [ret]. eauto.
Qed.

(** X5.  [lcd_write_string] sends the characters of the text in order,
    each as one data byte (the character converted to [uint8_t]), and
    nothing else: no command, no cursor move, no bound on the length.  For
    the empty string it emits nothing.  It returns whenever the controller
    is responsive. *)
Theorem write_string_sends_each_char (h : LCD_Handle) (text : list Z)
    (clk : nat) :
  (forall res tr clk',
      lcd_write_string sample patience (Some h) text clk = Done res tr clk' ->
      res = Some h /\ script_trace h (map (fun c => (true, to_u8 c)) text) tr) /\
  lcd_write_string sample patience (Some h) [] clk = Done (Some h) [] clk /\
  (responsive sample patience h ->
   exists tr clk',
     lcd_write_string sample patience (Some h) text clk
     = Done (Some h) tr clk').
Proof.
  split; [|split].
  - intros res tr clk' Run. exact (write_string_shape h text clk res tr clk' Run).
  - reflexivity.
  - apply write_string_ends.
Qed.

(** X6.  On a handle with at least one line [lcd_write_string_at] is one
    set-DDRAM-address command for the offset stored at index
    [min(row, 3, numlines - 1)], followed at once by the characters as
    data, with no other command in between; [lcd_write_char_at] is the
    same for a single character, and for a character other than NUL it
    behaves exactly as [lcd_write_string_at] on the one-character
    string. *)
Theorem write_at_is_cursor_then_text (h : LCD_Handle) (text : list Z)
    (symbol col row offset : Z) (clk : nat) :
  0 <= row -> 1 <= _numlines h ->
  _row_offsets h !! Z.to_nat (Z.min row (Z.min 3 (_numlines h - 1)))
  = Some offset ->
  let address := to_u8 (Z.lor LCD_SETDDRAMADDR (col + offset)) in
  (forall res tr clk',
      lcd_write_string_at sample patience (Some h) text col row clk
      = Done res tr clk' ->
      res = Some h /\
      script_trace h
        ((false, address) :: map (fun c => (true, to_u8 c)) text) tr) /\
  (forall res tr clk',
      lcd_write_char_at sample patience (Some h) symbol col row clk
      = Done res tr clk' ->
      res = Some h /\
      script_trace h [(false, address); (true, to_u8 symbol)] tr) /\
  (to_u8 symbol <> 0 ->
   lcd_write_char_at sample patience (Some h) symbol col row clk
   = lcd_write_string_at sample patience (Some h) [symbol] col row clk).
Proof.
  intros Hrow Hlines Hoff.
  rewrite <- (clamped_row_min h row Hrow Hlines) in Hoff.
  cbv zeta. split; [|split].
  - intros res tr clk' Run. unfold lcd_write_string_at in Run.
    apply bind_inv in Run as (r & cur & clk1 & txt & Cur & Txt & ->).
    eapply set_cursor_shape in Cur as (_ & Hcur); [|exact Hoff].
    apply write_string_shape in Txt as (-> & Htxt).
    split; [reflexivity|]. apply script_cons; assumption.
  - intros res tr clk' Run. unfold lcd_write_char_at in Run.
    apply bind_inv in Run as (r & cur & clk1 & chr & Cur & Chr & ->).
    eapply set_cursor_shape in Cur as (_ & Hcur); [|exact Hoff].
    apply write_char_shape in Chr as (-> & Hchr).
    split; [reflexivity|]. apply script_cons; [exact Hcur|].
    rewrite <- (app_nil_r chr). apply script_cons; [exact Hchr|apply script_nil].
  - intros _. unfold lcd_write_char_at, lcd_write_string_at, lcd_write_string.
    cbn [for_each]. unfold bind.
    destruct (lcd_set_cursor sample patience (Some h) col row clk)
      as [r cur clk1| |]; try reflexivity.
    destruct (lcd_write_char sample patience (Some h) symbol clk1)
      as [r' chr clk2| |] eqn:Chr; try reflexivity.
    apply write_char_shape in Chr as (-> & _).
    cbv [ret]. rewrite !app_nil_r. reflexivity.
Qed.

End Text.

Lemma write_at_is_cursor_then_text_witness :
  (exists tr,
     lcd_write_string_at Examples.idle 0 (Some Examples.lcd8) [72; 105] 3 7 0%nat
     = Done (Some Examples.lcd8) tr 0%nat /\
     script_trace Examples.lcd8 [(false, 0xC3); (true, 72); (true, 105)] tr) /\
  lcd_write_char_at Examples.idle 0 (Some Examples.lcd8) 33 3 7 0%nat
  = lcd_write_string_at Examples.idle 0 (Some Examples.lcd8) [33] 3 7 0%nat.
Proof.
  destruct (write_at_is_cursor_then_text Examples.idle 0 Examples.lcd8
              [72; 105] 33 3 7 0x40 0%nat) as (Hstr & _ & Hone).
  { lia. }
  { cbn. lia. }
  { reflexivity. }
  split; [|apply Hone; discriminate].
  eexists. split; [vm_compute; reflexivity|].
  edestruct Hstr as (_ & Hscript); [vm_compute; reflexivity|].
  exact Hscript.
Defined.

(** ** Whole-display commands, initialisation and teardown *)

Lemma to_u32_bits (x p : Z) :
  0 <= p -> Z.testbit (to_u32 x) p = (p <? 32) && Z.testbit x p.
Proof.
  intros Hp. unfold to_u32.
  destruct (Z.ltb_spec p 32).
  - rewrite Z.mod_pow2_bits_low by lia. reflexivity.
  - rewrite Z.mod_pow2_bits_high by lia. reflexivity.
Qed.

Lemma pin_bit_test (d p : Z) : 0 <= p -> Z.testbit (pin_bit d) p = (p =? d).
Proof.
  intros Hp. unfold pin_bit. rewrite Z.shiftl_1_l.
  destruct (Z.le_gt_cases 0 d) as [Hd|Hd].
  - rewrite Z.pow2_bits_eqb by lia. apply Z.eqb_sym.
  - rewrite Z.pow_neg_r by lia. rewrite Z.bits_0.
    symmetry. apply Z.eqb_neq. lia.
Qed.

Lemma setup_geometry_wiring (h : LCD_Handle) (cols rows charsize : Z) :
  let h0 := setup_geometry h cols rows charsize in
  _rs_pin h0 = _rs_pin h /\ _rw_pin h0 = _rw_pin h /\
  _enable_pin h0 = _enable_pin h /\ _data_pins h0 = _data_pins h /\
  _data_pins_mask h0 = _data_pins_mask h.
Proof.
  unfold setup_geometry.
  destruct (rows >? 1), (negb (charsize =? LCD_5x8DOTS) && (rows =? 1));
    repeat split.
Qed.

Section Lifecycle.
Variable sample : nat -> Z -> bool.
Variable patience : nat.

Lemma clear_shape (h : LCD_Handle) clk res tr clk' :
  lcd_clear sample patience (Some h) clk = Done res tr clk' ->
  res = Some h /\
  exists cmd, tr = cmd ++ [SleepMs 5] /\ send_trace h false 0x01 cmd.
Proof.
  unfold lcd_clear. intros Run.
  apply bind_inv in Run as ([] & cmd & clk1 & tr1 & Cmd & Run & ->).
  apply send_command_shape in Cmd.
  cbv [bind sleep_ms emit ret] in Run. injection Run as <- <- <-.
  split; [reflexivity|]. exists cmd. auto.
Qed.

Lemma home_shape (h : LCD_Handle) clk res tr clk' :
  lcd_home sample patience (Some h) clk = Done res tr clk' ->
  res = Some h /\
  exists cmd, tr = cmd ++ [SleepMs 5] /\ send_trace h false 0x02 cmd.
Proof.
  unfold lcd_home. intros Run.
  apply bind_inv in Run as ([] & cmd & clk1 & tr1 & Cmd & Run & ->).
  apply send_command_shape in Cmd.
  cbv [bind sleep_ms emit ret] in Run. injection Run as <- <- <-.
  split; [reflexivity|]. exists cmd. auto.
Qed.


(** X8.  [lcd_deinit] on a non-null handle returns [NULL] after, in this
    order: clear (0x01) and 5 ms, home (0x02) and 5 ms, a display-control
    command whose display bit is clear and whose other bits are the cached
    ones, the release of the data pins, RS, Enable and (only when wired)
    R/W, and [free].  The display goes off whatever its state was. *)
Theorem deinit_sequence (h : LCD_Handle) (clk : nat) :
  is_u8 (_displaycontrol h) ->
  (forall res tr clk',
      lcd_deinit sample patience (Some h) clk = Done res tr clk' ->
      res = None /\
      exists t1 t2 t3 flags,
        tr = t1 ++ [SleepMs 5] ++ t2 ++ [SleepMs 5] ++ t3 ++
             deinit_pins_trace h ++ [Free] /\
        send_trace h false 0x01 t1 /\
        send_trace h false 0x02 t2 /\
        send_trace h false (Z.lor 0x08 flags) t3 /\
        Z.testbit flags 2 = false /\
        (forall i, 0 <= i -> i <> 2 ->
           Z.testbit flags i = Z.testbit (_displaycontrol h) i)) /\
  (responsive sample patience h ->
   exists tr clk',
     lcd_deinit sample patience (Some h) clk = Done None tr clk').
Proof.
  intros Hdc. split.
  - intros res tr clk' Run. unfold lcd_deinit in Run.
    apply bind_inv in Run as (r1 & c1 & clk1 & tr1 & Clear & Run & ->).
    apply clear_shape in Clear as (_ & t1 & -> & H1).
    apply bind_inv in Run as (r2 & c2 & clk2 & tr2 & Home & Run & ->).
    apply home_shape in Home as (_ & t2 & -> & H2).
    apply bind_inv in Run as (r3 & t3 & clk3 & tr3 & Off & Run & ->).
    change (lcd_display_off sample patience (Some h))
      with (run_toggle sample patience DisplayOff (Some h)) in Off.
    rewrite run_toggle_unfold in Off. cbv zeta in Off.
    cbn [toggle_sets toggle_byte cached toggle_flag toggle_opcode with_cached]
      in Off.
    set (flags := to_u8 (Z.land (_displaycontrol h) (Z.lnot LCD_DISPLAYON))) in *.
    apply bind_inv in Off as ([] & cmd & clk4 & tr4 & Cmd & Ret & ->).
    cbv [ret] in Ret. injection Ret as <- <- <-.
    apply send_command_shape in Cmd.
    apply (same_bus_send _ h) in Cmd; [|apply same_bus_set_displaycontrol].
    cbn [_displaycontrol set_displaycontrol] in Cmd.
    assert (Hflags : is_u8 flags) by apply is_u8_to_u8.
    unfold to_u8 at 1 in Cmd. rewrite Z.mod_small in Cmd
      by (apply is_u8_lor; [unfold is_u8, LCD_DISPLAYCONTROL; lia|exact Hflags]).
    apply bind_inv in Run as ([] & pins & clk5 & tr5 & Pins & Run & ->).
    change (default h (Some (set_displaycontrol flags h)))
      with (set_displaycontrol flags h) in Pins.
    rewrite deinit_pins_trace_ok in Pins. injection Pins as <- <-.
    change (deinit_pins_trace (set_displaycontrol flags h))
      with (deinit_pins_trace h).
    cbv [bind free emit ret] in Run. injection Run as <- <- <-.
    split; [reflexivity|]. exists t1, t2, cmd, flags.
    split; [rewrite app_nil_r, <- !app_assoc; reflexivity|].
    split; [exact H1|]. split; [exact H2|]. split; [exact Cmd|].
    pose proof (clear_flag_bits (_displaycontrol h) 2) as Hbits.
    change (2 ^ 2) with LCD_DISPLAYON in Hbits. fold flags in Hbits. split.
    + rewrite Hbits by (assumption || lia). reflexivity.
    + intros i Hi Hne. rewrite Hbits by (assumption || lia).
      destruct (Z.eqb_spec i 2); [contradiction|reflexivity].
  - intros Hr. unfold lcd_deinit.
    unfold lcd_clear, lcd_home, lcd_display_off.
    destruct (send_command_ends sample patience h LCD_CLEARDISPLAY clk Hr)
      as (t1 & clk1 & E1).
    destruct (send_command_ends sample patience h LCD_RETURNHOME clk1 Hr)
      as (t2 & clk2 & E2).
    set (h' := set_displaycontrol _ h).
    destruct (send_command_ends sample patience h'
                (to_u8 (Z.lor LCD_DISPLAYCONTROL (_displaycontrol h'))) clk2 Hr)
      as (t3 & clk3 & E3).
    unfold bind, sleep_ms, emit, ret. rewrite E1, E2, E3.
    change (default h (Some h')) with h'. rewrite deinit_pins_trace_ok.
    cbv [free emit]. eauto.
Qed.

(** X9.  When [malloc] fails, initialisation returns [NULL] and touches
    nothing.  Otherwise the handle returned holds the pins as given (the
    four pins of [lcd_init_4bit] in the first four slots, zero in the
    rest), the requested bus width, the line count, display control 0x04
    and entry mode 0x02, and initialisation ends with clear (0x01), 5 ms,
    home (0x02), 5 ms: the display is cleared and the cursor home. *)
Theorem init_returns_ready_handle (blk : LCD_Handle)
    (cols rows charsize rs rw enable d0 d1 d2 d3 d4 d5 d6 d7 : Z)
    (eightbitmode : bool) (clk : nat) :
  length (_data_pins blk) = 8%nat ->
  _lcd_init sample patience None cols rows charsize rs rw enable
    d0 d1 d2 d3 d4 d5 d6 d7 eightbitmode clk = Done None [] clk /\
  (forall res tr clk',
      _lcd_init sample patience (Some blk) cols rows charsize rs rw enable
        d0 d1 d2 d3 d4 d5 d6 d7 eightbitmode clk = Done res tr clk' ->
      exists h,
        res = Some h /\
        _rs_pin h = rs /\ _rw_pin h = rw /\ _enable_pin h = enable /\
        _data_pins h = [d0; d1; d2; d3; d4; d5; d6; d7] /\
        eight_bit h = eightbitmode /\
        _displaycontrol h = 0x04 /\ _displaymode h = 0x02 /\
        _numlines h = rows /\
        exists before t1 t2,
          tr = SleepMs 50 :: before ++ t1 ++ [SleepMs 5] ++ t2 ++ [SleepMs 5] /\
          send_trace h false 0x01 t1 /\ send_trace h false 0x02 t2) /\
  (forall res tr clk',
      lcd_init_4bit sample patience (Some blk) cols rows charsize rs rw enable
        d0 d1 d2 d3 clk = Done res tr clk' ->
      exists h,
        res = Some h /\ eight_bit h = false /\
        _data_pins h = [d0; d1; d2; d3; 0; 0; 0; 0]).
Proof.
  intros Hlen.
  assert (Hpins : forall a0 a1 a2 a3 a4 a5 a6 a7 mode,
             _data_pins (init_handle blk rs rw enable a0 a1 a2 a3 a4 a5 a6 a7
                           mode) = [a0; a1; a2; a3; a4; a5; a6; a7]).
  { intros. destruct (_data_pins blk)
      as [|p0 [|p1 [|p2 [|p3 [|p4 [|p5 [|p6 [|p7 [|p8 l]]]]]]]]] eqn:E;
      try discriminate.
    unfold init_handle. rewrite E. destruct mode; reflexivity. }
  split; [reflexivity|]. split.
  - intros res tr clk' Run.
    pose proof Run as Shape. apply init_shape in Shape as (-> & _).
    eexists. split; [reflexivity|].
    destruct (setup_geometry_wiring
                (init_handle blk rs rw enable d0 d1 d2 d3 d4 d5 d6 d7
                   eightbitmode) cols rows charsize)
      as (Ers & Erw & Een & Epins & _).
    cbn [_rs_pin _rw_pin _enable_pin _data_pins _displaycontrol _displaymode
         _numlines set_displaymode set_displaycontrol].
    rewrite Ers, Erw, Een, Epins, Hpins, setup_numlines.
    split; [destruct eightbitmode; reflexivity|].
    split; [destruct eightbitmode; reflexivity|].
    split; [destruct eightbitmode; reflexivity|].
    split; [reflexivity|].
    split; [apply (init_mode blk cols rows charsize rs rw enable
                     d0 d1 d2 d3 d4 d5 d6 d7 eightbitmode)|].
    split; [reflexivity|]. split; [reflexivity|]. split; [reflexivity|].
    unfold _lcd_init in Run. cbv zeta in Run.
    apply bind_inv in Run as ([] & nap & clk1 & tr1 & Nap & Run & ->).
    cbv [sleep_ms emit] in Nap. injection Nap as <- <-.
    apply bind_inv in Run as ([] & pins & clk2 & tr2 & _ & Run & ->).
    apply bind_inv in Run as (h' & setup & clk3 & tr3 & Setup & Run & ->).
    apply setup_shape in Setup as (-> & _).
    apply bind_inv in Run as (r1 & c1 & clk4 & tr4 & Clear & Run & ->).
    apply clear_shape in Clear as (_ & t1 & -> & H1).
    apply bind_inv in Run as (r2 & c2 & clk5 & tr5 & Home & Run & ->).
    apply home_shape in Home as (_ & t2 & -> & H2).
    cbv [ret] in Run. injection Run as <- _.
    exists (pins ++ setup), t1, t2. split; [|split; assumption].
    cbn [app]. rewrite app_nil_r, <- !app_assoc. reflexivity.
  - intros res tr clk' Run. unfold lcd_init_4bit in Run.
    apply init_shape in Run as (-> & _).
    eexists. split; [reflexivity|]. split.
    + apply (init_mode blk cols rows charsize rs rw enable
               d0 d1 d2 d3 0 0 0 0 false).
    + cbn [_data_pins set_displaymode set_displaycontrol].
      destruct (setup_geometry_wiring
                  (init_handle blk rs rw enable d0 d1 d2 d3 0 0 0 0 false)
                  cols rows charsize) as (_ & _ & _ & -> & _).
      apply Hpins.
Qed.

(** X10.  For data pins in the range where the shifts [0x1 << d] of
    [_lcd_init] have a value (pin numbers below 31), the data-pin mask of
    an initialised handle has exactly the bits of the data pins set: all
    eight pins in 8-bit mode, only the first four in 4-bit mode. *)
Theorem data_pins_mask_bits (blk : LCD_Handle)
    (cols rows charsize rs rw enable d0 d1 d2 d3 d4 d5 d6 d7 : Z)
    (eightbitmode : bool) (clk : nat) res tr clk' (p : Z) :
  0 <= p ->
  Forall (fun d => 0 <= d < 31)
    (if eightbitmode then [d0; d1; d2; d3; d4; d5; d6; d7]
     else [d0; d1; d2; d3]) ->
  _lcd_init sample patience (Some blk) cols rows charsize rs rw enable
    d0 d1 d2 d3 d4 d5 d6 d7 eightbitmode clk = Done res tr clk' ->
  exists h,
    res = Some h /\
    Z.testbit (_data_pins_mask h) p
    = existsb (Z.eqb p)
        (if eightbitmode then [d0; d1; d2; d3; d4; d5; d6; d7]
         else [d0; d1; d2; d3]).
Proof.
  intros Hp Hpins Run. apply init_shape in Run as (-> & _).
  eexists. split; [reflexivity|].
  cbn [_data_pins_mask set_displaymode set_displaycontrol].
  destruct (setup_geometry_wiring
              (init_handle blk rs rw enable d0 d1 d2 d3 d4 d5 d6 d7
                 eightbitmode) cols rows charsize) as (_ & _ & _ & _ & ->).
  assert (Hlow : forall l : list Z,
             Forall (fun d => 0 <= d < 31) l ->
             (p <? 32) && existsb (Z.eqb p) l = existsb (Z.eqb p) l).
  { intros l Hl. destruct (existsb (Z.eqb p) l) eqn:E;
      [|apply andb_false_r].
    apply existsb_exists in E as (d & Hin & Heq).
    apply Z.eqb_eq in Heq. subst d.
    rewrite Forall_forall in Hl. apply list_elem_of_In in Hin.
    specialize (Hl p Hin). rewrite andb_true_r. apply Z.ltb_lt. lia. }
  rewrite <- (Hlow _ Hpins).
  unfold init_handle. destruct eightbitmode;
    cbn [_data_pins_mask existsb];
    rewrite to_u32_bits, !Z.lor_spec, !pin_bit_test by exact Hp;
    rewrite ?orb_false_r, ?orb_assoc; reflexivity.
Qed.

End Lifecycle.

(** ** Flags, addresses and reads: further facts *)

Lemma lor_high_bit (x : Z) : 0 <= x < 128 -> Z.lor 0x80 x = 0x80 + x.
Proof.
  intros Hx.
  assert (Hdisj : Z.land 0x80 x = 0).
  { apply Z.bits_inj'. intros n Hn. rewrite Z.land_spec, Z.bits_0.
    change 0x80 with (2 ^ 7). rewrite Z.pow2_bits_eqb by lia.
    destruct (Z.eqb_spec 7 n) as [<-|]; [|reflexivity].
    rewrite <- (Z.mod_small x (2 ^ 7)) by (change (2 ^ 7) with 128; lia).
    rewrite Z.mod_pow2_bits_high by lia. reflexivity. }
  rewrite Z.add_nocarry_lxor by exact Hdisj.
  symmetry. apply Z.lxor_lor. exact Hdisj.
Qed.

Lemma u8_nibbles (x : Z) :
  is_u8 x -> x = 16 * high_nibble x + low_nibble x /\
             0 <= high_nibble x < 16 /\ 0 <= low_nibble x < 16.
Proof.
  unfold is_u8, high_nibble, low_nibble. intros Hx.
  change 15 with (Z.ones 4). rewrite !Z.land_ones by lia.
  rewrite Z.shiftr_div_pow2 by lia. change (2 ^ 4) with 16.
  pose proof (Z.div_mod x 16 ltac:(lia)) as Hdm.
  pose proof (Z.mod_pos_bound x 16 ltac:(lia)) as Hm.
  assert (Hq : 0 <= x / 16 < 16).
  { split; [apply Z.div_pos; lia | apply Z.div_lt_upper_bound; lia]. }
  rewrite (Z.mod_small (x / 16)) by lia. lia.
Qed.

Lemma u8_eq_bits (x y : Z) :
  is_u8 x -> is_u8 y ->
  (forall i, (i < 8)%nat -> Z.testbit x (Z.of_nat i) = Z.testbit y (Z.of_nat i)) ->
  x = y.
Proof.
  intros Hx Hy Hbits. apply Z.bits_inj'. intros n Hn.
  destruct (Z.ltb_spec n 8).
  - replace n with (Z.of_nat (Z.to_nat n)) by lia. apply Hbits. lia.
  - rewrite !u8_high_bits by assumption. reflexivity.
Qed.

Lemma nibble_eq_bits (x y : Z) :
  0 <= x < 16 -> 0 <= y < 16 ->
  (forall i, (i < 4)%nat -> Z.testbit x (Z.of_nat i) = Z.testbit y (Z.of_nat i)) ->
  x = y.
Proof.
  intros Hx Hy Hbits. apply Z.bits_inj'. intros n Hn.
  destruct (Z.ltb_spec n 4).
  - replace n with (Z.of_nat (Z.to_nat n)) by lia. apply Hbits. lia.
  - rewrite <- (Z.mod_small x (2 ^ 4)), <- (Z.mod_small y (2 ^ 4))
      by (change (2 ^ 4) with 16; lia).
    rewrite !Z.mod_pow2_bits_high by lia. reflexivity.
Qed.

Lemma high_nibble_bit (x : Z) (i : nat) :
  (i < 4)%nat ->
  Z.testbit (high_nibble x) (Z.of_nat i) = Z.testbit x (Z.of_nat (4 + i)).
Proof.
  intros Hi. unfold high_nibble. rewrite Z.land_spec, Z.shiftr_spec by lia.
  replace (Z.of_nat i + 4) with (Z.of_nat (4 + i)) by lia.
  do 4 (destruct i as [|i]; [apply andb_true_r|]). lia.
Qed.

(** The byte a toggle leaves in the cache, as an operation on bytes. *)
Lemma toggled_byte_last_wins (t1 t2 : toggle) (x i : Z) :
  0 <= i -> toggle_bit t1 = toggle_bit t2 ->
  let store t v := if toggle_sets t
                   then to_u8 (Z.lor v (toggle_flag t))
                   else to_u8 (Z.land v (Z.lnot (toggle_flag t))) in
  Z.testbit (store t2 (store t1 x)) i = Z.testbit (store t2 x) i.
Proof.
  intros Hi Hbit. cbv beta zeta. rewrite !flag_is_bit, Hbit.
  pose proof (toggle_bit_range t2) as Hk.
  destruct (toggle_sets t1), (toggle_sets t2);
    rewrite ?to_u8_bits, ?Z.lor_spec, ?Z.land_spec, ?Z.lnot_spec,
      ?to_u8_bits, ?Z.lor_spec, ?Z.land_spec, ?Z.lnot_spec,
      ?Z.pow2_bits_eqb by lia;
    destruct (Z.eqb_spec (toggle_bit t2) i), (i <? 8), (Z.testbit x i);
    reflexivity.
Qed.

Lemma toggled_byte_commute (t1 t2 : toggle) (x i : Z) :
  0 <= i ->
  let store t v := if toggle_sets t
                   then to_u8 (Z.lor v (toggle_flag t))
                   else to_u8 (Z.land v (Z.lnot (toggle_flag t))) in
  toggle_bit t1 <> toggle_bit t2 ->
  Z.testbit (store t2 (store t1 x)) i = Z.testbit (store t1 (store t2 x)) i.
Proof.
  intros Hi. cbv beta zeta. intros Hne. rewrite !flag_is_bit.
  pose proof (toggle_bit_range t1) as Hk1.
  pose proof (toggle_bit_range t2) as Hk2.
  destruct (toggle_sets t1), (toggle_sets t2);
    rewrite ?to_u8_bits, ?Z.lor_spec, ?Z.land_spec, ?Z.lnot_spec,
      ?to_u8_bits, ?Z.lor_spec, ?Z.land_spec, ?Z.lnot_spec,
      ?Z.pow2_bits_eqb by lia;
    destruct (Z.eqb_spec (toggle_bit t1) i), (Z.eqb_spec (toggle_bit t2) i),
      (i <? 8), (Z.testbit x i);
    try reflexivity; congruence.
Qed.

Section More.
Variable sample : nat -> Z -> bool.
Variable patience : nat.

Lemma toggle_result (t : toggle) (h : LCD_Handle) clk res tr clk' :
  run_toggle sample patience t (Some h) clk = Done res tr clk' ->
  res = Some (with_cached (toggle_byte t)
                (if toggle_sets t
                 then to_u8 (Z.lor (cached (toggle_byte t) h) (toggle_flag t))
                 else to_u8 (Z.land (cached (toggle_byte t) h)
                                    (Z.lnot (toggle_flag t)))) h).
Proof.
  rewrite run_toggle_unfold. cbv zeta. intros Run.
  apply bind_inv in Run as ([] & cmd & clk1 & tr1 & _ & Run & _).
  cbv [ret] in Run. injection Run as <- _ _. reflexivity.
Qed.

(** X11.  Toggles compose as flag assignments.  Two toggles of the same
    flag in a row leave the handle the second one alone would (so turning
    the display off and on again is turning it on, and a repeated toggle
    changes nothing more); two toggles of different flags leave the same
    handle in either order. *)
Theorem toggles_compose (t1 t2 : toggle) (h h1 h12 : LCD_Handle)
    clk tr1 clk1 tr2 clk2 :
  run_toggle sample patience t1 (Some h) clk = Done (Some h1) tr1 clk1 ->
  run_toggle sample patience t2 (Some h1) clk1 = Done (Some h12) tr2 clk2 ->
  (same_flag t1 t2 = true ->
   forall c h2 tr c',
     run_toggle sample patience t2 (Some h) c = Done (Some h2) tr c' ->
     h12 = h2) /\
  (same_flag t1 t2 = false ->
   forall c h2 tr c' h21 tr' c'',
     run_toggle sample patience t2 (Some h) c = Done (Some h2) tr c' ->
     run_toggle sample patience t1 (Some h2) c' = Done (Some h21) tr' c'' ->
     h12 = h21).
Proof.
  intros Run1 Run2.
  apply toggle_result in Run1. injection Run1 as ->.
  apply toggle_result in Run2. injection Run2 as ->.
  split.
  - intros Hsame c h2 tr c' Run. apply toggle_result in Run.
    injection Run as ->. unfold same_flag in Hsame.
    destruct h as [rs rw en pins mask df dc dm nl ro].
    destruct (toggle_byte t1) eqn:B1, (toggle_byte t2) eqn:B2;
      try discriminate; apply Z.eqb_eq in Hsame;
      unfold with_cached, cached, set_displaycontrol, set_displaymode;
      cbn [_rs_pin _rw_pin _enable_pin _data_pins _data_pins_mask
           _displayfunction _displaycontrol _displaymode _numlines
           _row_offsets];
      f_equal; apply Z.bits_inj'; intros i Hi;
      apply (toggled_byte_last_wins t1 t2); assumption.
  - intros Hdiff c h2 tr c' h21 tr' c'' RunA RunB.
    apply toggle_result in RunA. injection RunA as ->.
    apply toggle_result in RunB. injection RunB as ->.
    unfold same_flag in Hdiff.
    destruct h as [rs rw en pins mask df dc dm nl ro].
    destruct (toggle_byte t1) eqn:B1, (toggle_byte t2) eqn:B2;
      unfold with_cached, cached, set_displaycontrol, set_displaymode;
      cbn [_rs_pin _rw_pin _enable_pin _data_pins _data_pins_mask
           _displayfunction _displaycontrol _displaymode _numlines
           _row_offsets];
      try reflexivity;
      apply Z.eqb_neq in Hdiff;
      f_equal; apply Z.bits_inj'; intros i Hi;
      apply (toggled_byte_commute t1 t2); assumption.
Qed.

(** X12.  On an initialised display with at most four lines, the cursor
    command for a position inside the display carries the HD44780 address
    of that position: 0x80 plus the base of the row (0x00, 0x40, [cols],
    [0x40 + cols]) plus the column. *)
Theorem cursor_address_map (blk : LCD_Handle)
    (cols rows charsize rs rw enable d0 d1 d2 d3 d4 d5 d6 d7 : Z)
    (eightbitmode : bool) (clk : nat) (h : LCD_Handle) tr0 clk0
    (col row : Z) :
  length (_row_offsets blk) = 4%nat ->
  _lcd_init sample patience (Some blk) cols rows charsize rs rw enable
    d0 d1 d2 d3 d4 d5 d6 d7 eightbitmode clk = Done (Some h) tr0 clk0 ->
  0 <= cols -> 0 <= col -> rows <= 4 -> 0 <= row < rows ->
  row_base cols row + col < 128 ->
  (forall clk1 res tr clk',
      lcd_set_cursor sample patience (Some h) col row clk1 = Done res tr clk' ->
      send_trace h false (0x80 + row_base cols row + col) tr) /\
  (responsive sample patience h ->
   forall clk1, exists tr clk',
     lcd_set_cursor sample patience (Some h) col row clk1
     = Done (Some h) tr clk').
Proof.
  intros Hlen Init Hcols Hcol Hrows Hrow Hfit.
  apply init_shape in Init as (Eh & _). injection Eh as ->.
  set (h := set_displaymode _ _).
  assert (Hoffs : _row_offsets h
                  = [0x00; 0x40; to_u8 (0x00 + cols); to_u8 (0x40 + cols)]).
  { unfold h. cbn [_row_offsets set_displaymode set_displaycontrol].
    apply setup_row_offsets. destruct eightbitmode; exact Hlen. }
  assert (Hlines : _numlines h = rows).
  { unfold h. cbn [_numlines set_displaymode set_displaycontrol].
    apply setup_numlines. }
  assert (Hclamp : clamped_row h row = row).
  { rewrite clamped_row_min by lia. lia. }
  assert (Hoff : _row_offsets h !! Z.to_nat (clamped_row h row)
                 = Some (row_base cols row)).
  { rewrite Hclamp, Hoffs. unfold to_u8.
    assert (Hr : row = 0 \/ row = 1 \/ row = 2 \/ row = 3) by lia.
    destruct Hr as [->|[->|[->| ->]]]; unfold row_base in *.
    - reflexivity.
    - reflexivity.
    - rewrite (Z.mod_small (0 + cols)) by lia. reflexivity.
    - rewrite (Z.mod_small (64 + cols)) by lia. reflexivity. }
  assert (Hcmd : to_u8 (Z.lor LCD_SETDDRAMADDR (col + row_base cols row))
                 = 0x80 + row_base cols row + col).
  { assert (0 <= row_base cols row).
    { assert (Hr : row = 0 \/ row = 1 \/ row = 2 \/ row = 3) by lia.
      destruct Hr as [->|[->|[->| ->]]]; unfold row_base; lia. }
    unfold LCD_SETDDRAMADDR. rewrite lor_high_bit by lia.
    unfold to_u8. rewrite Z.mod_small by lia. lia. }
  split.
  - intros clk1 res tr clk' Run.
    eapply set_cursor_shape in Run as (_ & Hsend); [|exact Hoff].
    rewrite Hcmd in Hsend. exact Hsend.
  - intros Hr clk1. eapply set_cursor_ends; eauto.
Qed.

(** X13.  [lcd_create_char] uses only the low three bits of the character
    index: an index and the index modulo 8 define the same character. *)
Theorem create_char_index_wraps (handle : option LCD_Handle) (num : Z)
    (data : list Z) (clk : nat) :
  lcd_create_char sample patience handle num data clk
  = lcd_create_char sample patience handle (num mod 8) data clk.
Proof.
  unfold lcd_create_char.
  replace (Z.land (num mod 8) 0x7) with (Z.land num 0x7); [reflexivity|].
  change 0x7 with (Z.ones 3). rewrite !Z.land_ones by lia.
  change (2 ^ 3) with 8. rewrite Z.mod_mod by lia. reflexivity.
Qed.

(** X14.  Reading a register reassembles the byte on the lines: if during
    the read the data lines carry the bits of [b] (in 4-bit mode bits 7..4
    during the first transfer and bits 3..0 during the second),
    [_lcd_read_data] and [_lcd_read_command] return [b]. *)
Theorem read_reassembles_byte (h : LCD_Handle) (b : Z) (clk : nat) :
  rw_wired h = true -> is_u8 b ->
  (if eight_bit h then
     forall i, (i < 8)%nat ->
       sample (i + clk)%nat (data_pin h i) = Z.testbit b (Z.of_nat i)
   else
     forall i, (i < 4)%nat ->
       sample (i + clk)%nat (data_pin h i) = Z.testbit b (Z.of_nat (4 + i)) /\
       sample (i + (4 + clk))%nat (data_pin h i) = Z.testbit b (Z.of_nat i)) ->
  _lcd_read_data sample h clk
  = Done b (GpioPut (_rs_pin h) true :: byte_read h b) (8 + clk) /\
  _lcd_read_command sample h clk
  = Done b (GpioPut (_rs_pin h) false :: byte_read h b) (8 + clk).
Proof.
  intros Hw Hb Hlines.
  assert (Hbody : (if eight_bit h then _lcd_read_8_bits sample h
                   else bind (_lcd_read_4_bits sample h) (fun hi =>
                          bind (_lcd_read_4_bits sample h) (fun lo =>
                            ret (to_u8 (Z.lor (to_u8 (Z.shiftl hi 4)) lo)))))
                    clk = Done b (byte_read h b) (8 + clk)).
  { unfold byte_read. destruct (eight_bit h).
    - destruct (read_8_bits_wired sample h clk Hw) as (v & -> & Hv & Hbits).
      assert (v = b) as ->; [|reflexivity].
      apply u8_eq_bits; [assumption..|].
      intros i Hi. rewrite Hbits by exact Hi. apply Hlines. exact Hi.
    - destruct (read_4_bits_wired sample h clk Hw) as (hi & Ehi & Hhi & Bhi).
      destruct (read_4_bits_wired sample h (4 + clk) Hw)
        as (lo & Elo & Hlo & Blo).
      destruct (u8_nibbles b Hb) as (Hsplit & Hh & Hl).
      assert (hi = high_nibble b) as ->.
      { apply nibble_eq_bits; [assumption..|]. intros i Hi.
        rewrite Bhi, high_nibble_bit by exact Hi. apply Hlines. exact Hi. }
      assert (lo = low_nibble b) as ->.
      { apply nibble_eq_bits; [assumption..|]. intros i Hi.
        rewrite Blo, low_nibble_bit by exact Hi. apply Hlines. exact Hi. }
      destruct (nibbles_join (high_nibble b) (low_nibble b) Hh Hl)
        as (Hv & Evh & Evl).
      unfold bind, ret. rewrite Ehi, Elo, app_nil_r.
      set (v := to_u8 _) in *.
      destruct (u8_nibbles v Hv) as (Hvsplit & _).
      assert (v = b) as -> by lia. reflexivity. }
  unfold _lcd_read_data, _lcd_read_command.
  unfold bind at 1 4. unfold gpio_put, emit.
  split; (destruct (eight_bit h); rewrite Hbody; reflexivity).
Qed.

(** X15.  Without R/W both register reads return 255 in either bus width,
    so [_lcd_busy] answers "busy" and a spin on such a handle would never
    end, whatever the budget: the test of the R/W pin before each spin is
    what keeps an unwired display from blocking. *)
Theorem unwired_reads_as_busy (h : LCD_Handle) (clk : nat) :
  rw_wired h = false ->
  _lcd_read_command sample h clk = Done 255 [GpioPut (_rs_pin h) false] clk /\
  _lcd_read_data sample h clk = Done 255 [GpioPut (_rs_pin h) true] clk /\
  _lcd_busy sample h clk = Done true [GpioPut (_rs_pin h) false] clk /\
  forall fuel, spin_while_busy sample fuel h clk = Hang.
Proof.
  intros Hw.
  assert (Hcmd : forall c, _lcd_read_command sample h c
                           = Done 255 [GpioPut (_rs_pin h) false] c).
  { intros c. unfold _lcd_read_command, _lcd_read_8_bits, _lcd_read_4_bits.
    rewrite Hw. destruct (eight_bit h); reflexivity. }
  assert (Hbusy : forall c, _lcd_busy sample h c
                            = Done true [GpioPut (_rs_pin h) false] c).
  { intros c. unfold _lcd_busy, bind. rewrite Hcmd. reflexivity. }
  split; [apply Hcmd|]. split.
  - unfold _lcd_read_data, _lcd_read_8_bits, _lcd_read_4_bits.
    rewrite Hw. destruct (eight_bit h); reflexivity.
  - split; [apply Hbusy|]. intros fuel.
    induction fuel as [|fuel IH]; [reflexivity|].
    cbn [spin_while_busy]. unfold bind at 1. rewrite Hbusy.
    unfold bind, sleep_us, emit. rewrite IH. reflexivity.
Qed.

(** X16.  A wired controller that never releases the busy flag blocks
    every send: for every polling budget the busy spin has not ended, so
    neither [_lcd_send_command], [_lcd_send_data] nor [lcd_clear]
    returns.  There is no time-out. *)
Theorem stuck_controller_blocks (h : LCD_Handle) (b : Z) (clk : nat) :
  rw_wired h = true -> stuck sample h ->
  _lcd_send_command sample patience h b clk = Hang /\
  _lcd_send_data sample patience h b clk = Hang /\
  lcd_clear sample patience (Some h) clk = Hang.
Proof.
  intros Hw Hstuck.
  assert (Hspin : forall fuel c, spin_while_busy sample fuel h c = Hang).
  { induction fuel as [|fuel IH]; intros c; [reflexivity|].
    cbn [spin_while_busy]. unfold bind at 1.
    specialize (Hstuck c). unfold busy_at in Hstuck.
    destruct (busy_wired sample h c Hw) as (v & Ev).
    rewrite Ev in *. rewrite Hstuck.
    unfold bind, sleep_us, emit. rewrite IH. reflexivity. }
  assert (Hcmd : forall c x, _lcd_send_command sample patience h x c = Hang).
  { intros c x. unfold _lcd_send_command, bind. rewrite Hw, Hspin.
    reflexivity. }
  split; [apply Hcmd|]. split.
  - unfold _lcd_send_data, bind. rewrite Hw, Hspin. reflexivity.
  - unfold lcd_clear, bind. rewrite Hcmd. reflexivity.
Qed.

End More.

Section Handshake.
Variable sample : nat -> Z -> bool.
Variable patience : nat.

(** X17.  Until the handshake is over initialisation does not read the
    bus: the 50 ms delay, the pin set-up and the handshake transfers
    sample no pin and poll no busy flag, even with R/W wired, and the
    handshake itself consumes no input and cannot hang. *)
Theorem handshake_never_reads (blk : LCD_Handle)
    (cols rows charsize rs rw enable d0 d1 d2 d3 d4 d5 d6 d7 : Z)
    (eightbitmode : bool) (clk : nat) res tr clk' :
  _lcd_init sample patience (Some blk) cols rows charsize rs rw enable
    d0 d1 d2 d3 d4 d5 d6 d7 eightbitmode clk = Done res tr clk' ->
  exists before after,
    tr = before ++ after /\
    no_sampling before = true /\
    before = SleepMs 50 ::
             init_pins_trace
               (init_handle blk rs rw enable d0 d1 d2 d3 d4 d5 d6 d7
                  eightbitmode) ++
             handshake
               (setup_geometry
                  (init_handle blk rs rw enable d0 d1 d2 d3 d4 d5 d6 d7
                     eightbitmode) cols rows charsize).
Proof.
  intros Run. apply init_shape in Run as (_ & cmds & rest & -> & _).
  eexists (SleepMs 50 :: _ ++ _), (cmds ++ rest).
  split; [cbn [app]; rewrite <- app_assoc; reflexivity|].
  split; [|reflexivity].
  change (SleepMs 50 :: ?l) with ([SleepMs 50] ++ l).
  rewrite !no_sampling_app.
  assert (Hpins : forall h, no_sampling (init_pins_trace h) = true).
  { intros h. unfold init_pins_trace. destruct (rw_wired h); reflexivity. }
  assert (Hhs : forall h, no_sampling (handshake h) = true).
  { intros h. unfold handshake. destruct (eight_bit h);
      rewrite !no_sampling_app, !bus_write_no_sampling; reflexivity. }
  rewrite Hpins, Hhs. reflexivity.
Qed.

End Handshake.

(** ** Instances *)

Lemma session_keeps_handle_witness :
  (exists h' tr clk',
     run_calls Examples.idle 1 Fixtures.greeting (Some Examples.lcd4) 0%nat
     = Done (Some h') tr clk' /\
     frame Examples.lcd4 h' /\ eight_bit h' = false /\
     bus_trace Examples.lcd4 tr) /\
  (exists tr clk' live,
     run_calls Examples.idle 1 Fixtures.farewell (Some Examples.lcd4) 0%nat
     = Done None tr clk' /\
     bus_trace Examples.lcd4 live /\
     tr = live ++ deinit_pins_trace Examples.lcd4 ++ [Free]).
Proof.
  split.
  - assert (Run : exists res tr clk',
               run_calls Examples.idle 1 Fixtures.greeting
                 (Some Examples.lcd4) 0%nat = Done res tr clk').
    { do 3 eexists. vm_compute. reflexivity. }
    destruct Run as (res & tr & clk' & Run).
    destruct (session_keeps_handle Examples.idle 1 Fixtures.greeting
                Examples.lcd4 0%nat res tr clk' eq_refl Run) as (Hlive & _).
    destruct (Hlive eq_refl) as (h' & -> & Hf & Hm & _ & _ & _ & Ht).
    exists h', tr, clk'. auto.
  - assert (Run : exists res tr clk',
               run_calls Examples.idle 1 Fixtures.farewell
                 (Some Examples.lcd4) 0%nat = Done res tr clk').
    { do 3 eexists. vm_compute. reflexivity. }
    destruct Run as (res & tr & clk' & Run).
    destruct (session_keeps_handle Examples.idle 1 Fixtures.farewell
                Examples.lcd4 0%nat res tr clk' eq_refl Run) as (_ & Hdown).
    destruct (Hdown eq_refl) as (-> & live & Hlive & Htr).
    exists tr, clk', live. auto.
Defined.

Lemma unwired_session_never_waits_witness :
  run_calls Examples.busy_twice 0 Fixtures.farewell (Some Examples.lcd8) 0%nat
  <> Hang.
Proof.
  destruct (unwired_session_never_waits Examples.busy_twice 0
              Fixtures.farewell Examples.lcd8 0%nat) as (Hn & _).
  { reflexivity. }
  { reflexivity. }
  exact Hn.
Defined.

Lemma responsive_session_completes_witness :
  exists tr clk',
    run_calls Examples.busy_twice 3 Fixtures.farewell (Some Examples.lcd4) 0%nat
    = Done None tr clk'.
Proof.
  destruct (responsive_session_completes Examples.busy_twice 3
              Fixtures.farewell Examples.lcd4 0%nat)
    as (res & tr & clk' & Run & Hnull).
  - intros _ clk. exists 2%nat. split; [lia | reflexivity].
  - reflexivity.
  - unfold Fixtures.farewell, Fixtures.greeting.
    repeat constructor; cbn; unfold is_u8; lia.
  - destruct Hnull as (_ & Hnull). rewrite (Hnull eq_refl) in Run.
    exists tr, clk'. exact Run.
Defined.

Lemma session_leaves_enable_low_witness :
  exists res tr clk',
    run_calls Examples.idle 1 Fixtures.farewell (Some Examples.lcd4) 0%nat
    = Done res tr clk' /\
    (last_put tr = None \/ last_put tr = Some (4, false)).
Proof.
  assert (Run : exists res tr clk',
             run_calls Examples.idle 1 Fixtures.farewell (Some Examples.lcd4)
               0%nat = Done res tr clk').
  { do 3 eexists. vm_compute. reflexivity. }
  destruct Run as (res & tr & clk' & Run).
  exists res, tr, clk'. split; [exact Run|].
  apply (session_leaves_enable_low Examples.idle 1 Fixtures.farewell
           Examples.lcd4 0%nat res tr clk'); [reflexivity | exact Run].
Defined.

Lemma write_string_sends_each_char_witness :
  exists tr clk',
    lcd_write_string Examples.idle 1 (Some Examples.lcd4) [72; 105] 0%nat
    = Done (Some Examples.lcd4) tr clk' /\
    script_trace Examples.lcd4 [(true, 72); (true, 105)] tr.
Proof.
  destruct (write_string_sends_each_char Examples.idle 1 Examples.lcd4
              [72; 105] 0%nat) as (Hshape & _ & Hends).
  destruct Hends as (tr & clk' & Run).
  { intros _ clk. exists 0%nat. split; [lia | reflexivity]. }
  exists tr, clk'. split; [exact Run|].
  destruct (Hshape _ _ _ Run) as (_ & Hs). exact Hs.
Defined.


Lemma deinit_sequence_witness :
  exists tr clk', lcd_deinit Examples.idle 1 (Some Examples.lcd4) 0%nat
                  = Done None tr clk'.
Proof.
  destruct (deinit_sequence Examples.idle 1 Examples.lcd4 0%nat) as (_ & Hends).
  { unfold is_u8. cbn. lia. }
  apply Hends. intros _ clk. exists 0%nat. split; [lia | reflexivity].
Defined.

Lemma init_returns_ready_handle_witness :
  exists h tr clk',
    lcd_init_8bit Examples.idle 0 (Some Examples.fresh) 16 2 0
      10 255 8 0 1 2 3 4 5 6 7 0%nat = Done (Some h) tr clk' /\
    _data_pins h = [0; 1; 2; 3; 4; 5; 6; 7] /\ _displaycontrol h = 0x04.
Proof.
  destruct (init_returns_ready_handle Examples.idle 0 Examples.fresh 16 2 0
              10 255 8 0 1 2 3 4 5 6 7 true 0%nat) as (_ & Hinit & _).
  { reflexivity. }
  edestruct Hinit as (h & Hres & _ & _ & _ & Hpins & _ & Hdc & _).
  { vm_compute. reflexivity. }
  injection Hres as <-.
  do 3 eexists. split; [vm_compute; reflexivity|]. split; assumption.
Defined.

Lemma data_pins_mask_bits_witness :
  exists h tr clk',
    lcd_init_4bit Examples.idle 1 (Some Examples.fresh) 16 2 0 6 5 4 0 1 2 3
      0%nat = Done (Some h) tr clk' /\
    Z.testbit (_data_pins_mask h) 3 = true /\
    Z.testbit (_data_pins_mask h) 4 = false.
Proof.
  unfold lcd_init_4bit.
  assert (Run : exists tr clk',
             _lcd_init Examples.idle 1 (Some Examples.fresh) 16 2 0
               6 5 4 0 1 2 3 0 0 0 0 false 0%nat
             = Done (Some Examples.lcd4) tr clk').
  { do 2 eexists. vm_compute. reflexivity. }
  destruct Run as (tr & clk' & Run).
  exists Examples.lcd4, tr, clk'. split; [exact Run|].
  assert (Hpins : Forall (fun d => 0 <= d < 31) [0; 1; 2; 3]).
  { repeat constructor; lia. }
  pose proof (data_pins_mask_bits Examples.idle 1 Examples.fresh 16 2 0
                6 5 4 0 1 2 3 0 0 0 0 false 0%nat (Some Examples.lcd4)
                tr clk' 3 ltac:(lia) Hpins Run) as (h & Hres & Hbit3).
  pose proof (data_pins_mask_bits Examples.idle 1 Examples.fresh 16 2 0
                6 5 4 0 1 2 3 0 0 0 0 false 0%nat (Some Examples.lcd4)
                tr clk' 4 ltac:(lia) Hpins Run) as (h' & Hres' & Hbit4).
  injection Hres as <-. injection Hres' as <-.
  split; assumption.
Defined.

Lemma toggles_compose_witness :
  exists h12 tr clk',
    lcd_display_on Examples.idle 0 (Some (set_displaycontrol 0x00 Examples.lcd8))
      0%nat = Done (Some h12) tr clk' /\
    h12 = Examples.lcd8.
Proof.
  destruct (toggles_compose Examples.idle 0 DisplayOff DisplayOn
              Examples.lcd8 (set_displaycontrol 0x00 Examples.lcd8)
              Examples.lcd8 0%nat
              (GpioPut 10 false :: byte_write Examples.lcd8 0x08) 0%nat
              (GpioPut 10 false :: byte_write Examples.lcd8 0x0C) 0%nat)
    as (Hsame & _).
  { vm_compute. reflexivity. }
  { vm_compute. reflexivity. }
  do 3 eexists. split; [vm_compute; reflexivity|].
  symmetry. eapply (Hsame eq_refl 0%nat). vm_compute. reflexivity.
Defined.

Lemma cursor_address_map_witness :
  exists tr clk',
    lcd_set_cursor Examples.idle 1 (Some Examples.lcd4) 5 1 0%nat
    = Done (Some Examples.lcd4) tr clk' /\
    send_trace Examples.lcd4 false 0xC5 tr.
Proof.
  assert (Init : exists tr clk',
             _lcd_init Examples.idle 1 (Some Examples.fresh) 16 2 0
               6 5 4 0 1 2 3 0 0 0 0 false 0%nat
             = Done (Some Examples.lcd4) tr clk').
  { do 2 eexists. vm_compute. reflexivity. }
  destruct Init as (tr0 & clk0 & Init).
  destruct (cursor_address_map Examples.idle 1 Examples.fresh 16 2 0
              6 5 4 0 1 2 3 0 0 0 0 false 0%nat Examples.lcd4 tr0 clk0 5 1)
    as (Hshape & Hends); [reflexivity | exact Init | lia | lia | lia | lia
                         | cbn; lia |].
  destruct (Hends ltac:(intros _ clk; exists 0%nat; split; [lia | reflexivity])
              0%nat) as (tr & clk' & Run).
  exists tr, clk'. split; [exact Run|]. exact (Hshape _ _ _ _ Run).
Defined.

Lemma handshake_never_reads_witness :
  exists tr clk' before after,
    lcd_init_4bit Examples.idle 1 (Some Examples.fresh) 16 2 0 6 5 4 0 1 2 3
      0%nat = Done (Some Examples.lcd4) tr clk' /\
    tr = before ++ after /\ no_sampling before = true.
Proof.
  unfold lcd_init_4bit.
  assert (Run : exists tr clk',
             _lcd_init Examples.idle 1 (Some Examples.fresh) 16 2 0
               6 5 4 0 1 2 3 0 0 0 0 false 0%nat
             = Done (Some Examples.lcd4) tr clk').
  { do 2 eexists. vm_compute. reflexivity. }
  destruct Run as (tr & clk' & Run).
  pose proof (handshake_never_reads Examples.idle 1 Examples.fresh 16 2 0
                6 5 4 0 1 2 3 0 0 0 0 false 0%nat (Some Examples.lcd4)
                tr clk' Run)
    as (before & after & Htr & Hquiet & _).
  exists tr, clk', before, after. split; [exact Run|]. split; assumption.
Defined.

Lemma read_reassembles_byte_witness :
  _lcd_read_data (Fixtures.lines_carry 0xA5) Examples.lcd4 0%nat
  = Done 0xA5 (GpioPut 6 true :: byte_read Examples.lcd4 0xA5) 8%nat.
Proof.
  destruct (read_reassembles_byte (Fixtures.lines_carry 0xA5) Examples.lcd4
              0xA5 0%nat) as (Hdata & _).
  - reflexivity.
  - unfold is_u8. lia.
  - cbn [eight_bit Examples.lcd4]. intros i Hi.
    do 4 (destruct i as [|i]; [split; reflexivity|]). lia.
  - exact Hdata.
Defined.

Lemma unwired_reads_as_busy_witness :
  _lcd_busy Examples.idle Examples.lcd8 0%nat
  = Done true [GpioPut 10 false] 0%nat /\
  spin_while_busy Examples.idle 100 Examples.lcd8 0%nat = Hang.
Proof.
  destruct (unwired_reads_as_busy Examples.idle Examples.lcd8 0%nat)
    as (_ & _ & Hbusy & Hspin); [reflexivity|].
  split; [exact Hbusy | apply Hspin].
Defined.

Lemma stuck_controller_blocks_witness :
  _lcd_send_command Fixtures.jammed 1000 Examples.lcd4 0x01 0%nat = Hang.
Proof.
  destruct (stuck_controller_blocks Fixtures.jammed 1000 Examples.lcd4
              0x01 0%nat) as (Hcmd & _).
  - reflexivity.
  - intros clk. reflexivity.
  - exact Hcmd.
Defined.

(** ** Pin ownership *)

Lemma own_rs (h : LCD_Handle) : _rs_pin h ∈ own_pins h.
Proof. unfold own_pins. cbn [app]. apply list_elem_of_here. Qed.

Lemma own_enable (h : LCD_Handle) : _enable_pin h ∈ own_pins h.
Proof.
  unfold own_pins. cbn [app].
  apply list_elem_of_further, list_elem_of_here.
Qed.

Lemma own_rw (h : LCD_Handle) : rw_wired h = true -> _rw_pin h ∈ own_pins h.
Proof.
  intros Hw. unfold own_pins. rewrite Hw. cbn [app].
  do 2 apply list_elem_of_further. apply list_elem_of_here.
Qed.

Lemma own_data (h : LCD_Handle) (i : nat) :
  (i < (if eight_bit h then 8 else 4))%nat -> data_pin h i ∈ own_pins h.
Proof.
  intros Hi. unfold own_pins. rewrite !elem_of_app. right. right.
  apply list_elem_of_fmap. exists i. split; [reflexivity|].
  apply elem_of_seq. lia.
Qed.

Ltac own_events :=
  repeat first [apply Forall_nil_2 | apply Forall_cons_2];
  cbn [on_own_pins];
  first [exact I | reflexivity | apply own_enable | apply own_rs
        | apply own_rw; assumption].

Lemma bus_write_on_own_pins (h : LCD_Handle) (width : nat) (data : Z) :
  (width <= (if eight_bit h then 8 else 4))%nat ->
  Forall (on_own_pins h) (bus_write h width data).
Proof.
  intros Hwidth. unfold bus_write. rewrite !Forall_app. split; [|split; [|split]].
  - destruct (rw_wired h) eqn:Hw; own_events.
  - own_events.
  - apply Forall_forall. intros e He.
    apply list_elem_of_fmap in He as (i & -> & Hi). apply elem_of_seq in Hi.
    cbn [on_own_pins]. apply own_data. lia.
  - own_events.
Qed.

Lemma bus_read_on_own_pins (h : LCD_Handle) (width : nat) (v : Z) :
  rw_wired h = true -> (width <= (if eight_bit h then 8 else 4))%nat ->
  Forall (on_own_pins h) (bus_read h width v).
Proof.
  intros Hw Hwidth. unfold bus_read. rewrite !Forall_app. split; [|split].
  - own_events.
  - apply Forall_forall. intros e He.
    apply list_elem_of_fmap in He as (i & -> & Hi). apply elem_of_seq in Hi.
    cbn [on_own_pins]. apply own_data. lia.
  - own_events.
Qed.

Lemma byte_write_on_own_pins (h : LCD_Handle) (b : Z) :
  Forall (on_own_pins h) (byte_write h b).
Proof.
  unfold byte_write. destruct (eight_bit h) eqn:Hm.
  - apply bus_write_on_own_pins. rewrite Hm. lia.
  - rewrite Forall_app. split; apply bus_write_on_own_pins; rewrite Hm; lia.
Qed.

Lemma poll_on_own_pins (h : LCD_Handle) (v : Z) :
  rw_wired h = true -> Forall (on_own_pins h) (poll h v).
Proof.
  intros Hw. unfold poll, byte_read. apply Forall_cons_2; [apply own_rs|].
  destruct (eight_bit h) eqn:Hm.
  - apply bus_read_on_own_pins; [exact Hw | rewrite Hm; lia].
  - rewrite Forall_app.
    split; (apply bus_read_on_own_pins; [exact Hw | rewrite Hm; lia]).
Qed.

Lemma spin_on_own_pins (h : LCD_Handle) (w : list event) :
  rw_wired h = true -> spin_trace h w -> Forall (on_own_pins h) w.
Proof.
  intros Hw. induction 1 as [v Hv|v rest Hv _ IH].
  - apply poll_on_own_pins. exact Hw.
  - rewrite Forall_app. split; [apply poll_on_own_pins; exact Hw|].
    apply Forall_cons_2; [exact I | exact IH].
Qed.

Lemma send_on_own_pins (h : LCD_Handle) rs b tr :
  send_trace h rs b tr -> Forall (on_own_pins h) tr.
Proof.
  intros (w & Hwait & ->). rewrite Forall_app. split.
  - unfold wait_trace in Hwait. destruct (rw_wired h) eqn:Hw.
    + apply spin_on_own_pins; assumption.
    + subst w. apply Forall_nil_2.
  - apply Forall_cons_2; [apply own_rs | apply byte_write_on_own_pins].
Qed.

Lemma bus_trace_on_own_pins (h : LCD_Handle) tr :
  bus_trace h tr -> Forall (on_own_pins h) tr.
Proof.
  induction 1 as [|rs b tr rest Hs _ IH|rest _ IH|v rest Hw _ IH].
  - apply Forall_nil_2.
  - rewrite Forall_app. split; [eapply send_on_own_pins; exact Hs | exact IH].
  - apply Forall_cons_2; [exact I | exact IH].
  - rewrite Forall_app. split; [apply poll_on_own_pins; exact Hw | exact IH].
Qed.

Lemma release_on_own_pins (h : LCD_Handle) :
  Forall (on_own_pins h) (release_trace h).
Proof.
  unfold release_trace, deinit_pins_trace.
  destruct (rw_wired h) eqn:Hw; own_events.
Qed.

Section Pins.
Variable sample : nat -> Z -> bool.
Variable patience : nat.

(** X18.  A session, tear-down included, touches no pin but the
    handle's own: every pin written, sampled or released is
    Register-Select, Enable, R/W (only when wired) or one of the data
    lines of the bus width (the first four in 4-bit mode), and every
    masked call uses the handle's data-pin mask. *)
Theorem session_touches_own_pins (cs : list call) (h : LCD_Handle)
    clk res tr clk' :
  length (_row_offsets h) = 4%nat ->
  run_calls sample patience cs (Some h) clk = Done res tr clk' ->
  Forall (on_own_pins h) tr.
Proof.
  intros Hlen Run.
  pose proof (session_outcome sample patience cs h clk Hlen) as Hb.
  rewrite Run in Hb. destruct Hb as (Hres & _).
  destruct (tears_down cs).
  - destruct Hres as (_ & live & Hlive & ->). rewrite Forall_app.
    split; [apply bus_trace_on_own_pins; exact Hlive|].
    apply release_on_own_pins.
  - destruct Hres as (h' & _ & _ & _ & _ & Ht).
    apply bus_trace_on_own_pins. exact Ht.
Qed.

End Pins.

Lemma session_touches_own_pins_witness :
  exists res tr clk',
    run_calls Examples.idle 1 Fixtures.farewell (Some Examples.lcd4) 0%nat
    = Done res tr clk' /\
    Forall (on_own_pins Examples.lcd4) tr.
Proof.
  assert (Run : exists res tr clk',
             run_calls Examples.idle 1 Fixtures.farewell (Some Examples.lcd4)
               0%nat = Done res tr clk').
  { do 3 eexists. vm_compute. reflexivity. }
  destruct Run as (res & tr & clk' & Run).
  exists res, tr, clk'. split; [exact Run|].
  apply (session_touches_own_pins Examples.idle 1 Fixtures.farewell
           Examples.lcd4 0%nat res tr clk'); [reflexivity | exact Run].
Defined.
